(** * The ESPHome Bluetooth proxy client (homeassistant/components/esphome/bluetooth/client.py)

    A shallow embedding of [ESPHomeClient] and of the two decorators
    [verify_connected] and [api_error_as_bleak_error], followed by the
    properties of the connection lifecycle, the service discovery, the
    error translation and the disconnection bookkeeping.

    The client is an object mutated in place by coroutines that run on one
    event loop.  It is embedded as a record [ESPHomeClient] that is threaded
    through a state-and-exception monad [M]; the objects the client shares
    with its collaborators (the futures of the event loop, the GATT cache,
    the list of disconnect callbacks of the proxy) are fields of the same
    record.  Every [await] of a remote call is a suspension point: what
    the event loop runs while the coroutine is suspended, and what the call
    finally gives, is an input of the model (a [reply]).

    Left out: the log lines, the counter of the scanner around the connect
    request, [__str__] and the list of assignments that is [__init__]. *)

From stdpp Require Import gmap strings list fin_maps fin_sets pretty.
From Stdlib Require Import ZArith Ascii.

Local Open Scope Z_scope.

(** ** Module constants (lines 49-60) *)

Definition DEFAULT_MTU : Z := 23.
Definition GATT_HEADER_SIZE : Z := 3.
(** The three timeouts are floats in the source (5.0, 2.0 and 30.0 seconds);
    they are only handed to the callee, so whole seconds carry them. *)
Definition DISCONNECT_TIMEOUT : Z := 5.
Definition CONNECT_FREE_SLOT_TIMEOUT : Z := 2.
Definition GATT_READ_TIMEOUT : Z := 30.

Definition CCCD_UUID : string := "00002902-0000-1000-8000-00805f9b34fb".
Definition CCCD_NOTIFY_BYTES : list Byte.byte := [Byte.x01; Byte.x00].
Definition CCCD_INDICATE_BYTES : list Byte.byte := [Byte.x02; Byte.x00].

Definition DEFAULT_MAX_WRITE_WITHOUT_RESPONSE : Z := DEFAULT_MTU - GATT_HEADER_SIZE.

(** ** The address of the peer as an integer (lines 66-68) *)

(** [text.replace(old, new)] for a pattern [old] of one character. *)
Fixpoint replace_char (old : ascii) (new : string) (text : string) : string :=
  match text with
  | EmptyString => EmptyString
  | String c rest =>
      if decide (c = old) then new +:+ replace_char old new rest
      else String c (replace_char old new rest)
  end.

(** The number of a character.  A character of a text stands for the code
    point of its number, so the texts are the Python strings over the code
    points below 256. *)
Definition code_point (c : ascii) : Z := Z.of_N (N_of_ascii c).

(** The value of a character as a digit of base 16. *)
Definition digit_value (c : ascii) : option Z :=
  let n := code_point c in
  if (48 <=? n) && (n <=? 57) then Some (n - 48)
  else if (97 <=? n) && (n <=? 102) then Some (n - 87)
  else if (65 <=? n) && (n <=? 70) then Some (n - 55)
  else None.

(** The white space that [int] skips before and after the number: the six
    ASCII characters of C's [isspace] and, of the characters from 128 on,
    the next-line and the no-break space. *)
Definition int_space (c : ascii) : bool :=
  bool_decide (code_point c ∈ [9; 10; 11; 12; 13; 32; 133; 160]).

Fixpoint skip_spaces (text : list ascii) : list ascii :=
  match text with
  | c :: rest => if int_space c then skip_spaces rest else text
  | [] => []
  end.

(** The digits of the number, with single underscores between them: the
    value read and the text that follows, or [None] for two underscores in
    a row or an underscore at the end. *)
Fixpoint scan_digits (after_underscore : bool) (value : Z) (text : list ascii)
  : option (Z * list ascii) :=
  match text with
  | c :: rest =>
      if decide (c = "_"%char) then
        if after_underscore then None else scan_digits true value rest
      else
        match digit_value c with
        | Some d => scan_digits false (value * 16 + d) rest
        | None => if after_underscore then None else Some (value, text)
        end
  | [] => if after_underscore then None else Some (value, [])
  end.

(** [int(text, 16)]; [None] is the ValueError.  White space around the
    number, a sign, the prefix 0x or 0X with one underscore after it, then
    at least one digit. *)
Definition int_base16 (text : string) : option Z :=
  let text := skip_spaces (String.list_ascii_of_string text) in
  let '(sign, text) :=
    match text with
    | c :: rest =>
        if decide (c = "+"%char) then (1, rest)
        else if decide (c = "-"%char) then (-1, rest)
        else (1, text)
    | [] => (1, text)
    end in
  let text :=
    match text with
    | c :: x :: rest =>
        if decide (c = "0"%char ∧ (x = "x"%char ∨ x = "X"%char)) then
          match rest with
          | u :: rest' => if decide (u = "_"%char) then rest' else rest
          | [] => rest
          end
        else text
    | _ => text
    end in
  match text with
  | c :: _ =>
      match digit_value c with
      | Some _ =>
          match scan_digits false 0 text with
          | Some (value, rest) =>
              match skip_spaces rest with
              | [] => Some (sign * value)
              | _ => None
              end
          | None => None
          end
      | None => None
      end
  | [] => None
  end.

(** Lines 66-68 *)
Definition mac_to_int (address : string) : option Z :=
  int_base16 (replace_char ":" "" address).

(** ** What the client imports *)

(** The bits of aioesphomeapi's [BluetoothProxyFeature] flag that the client
    tests.  No property below depends on their values. *)
Module BluetoothProxyFeature.
Definition REMOTE_CACHING : Z := 4.
Definition PAIRING : Z := 8.
Definition CACHE_CLEARING : Z := 16.
End BluetoothProxyFeature.

(** [flags & bit], as a Python condition. *)
Definition has_feature (flags bit : Z) : bool := negb (Z.land flags bit =? 0).

(** The exceptions that travel through the client.  In aioesphomeapi
    [TimeoutAPIError] and [BluetoothGATTAPIError] are subclasses of
    [APIConnectionError]; the constructor [APIConnectionError] stands for the
    remaining instances of that class.  [BluetoothGATTAPIError] carries the
    code the source reads as [ex.error.error]. *)
Inductive exn : Type :=
  | TimeoutAPIError (msg : string)
  | BluetoothGATTAPIError (error : Z) (msg : string)
  | APIConnectionError (msg : string)
  | BleakError (msg : string)
  | TimeoutError (msg : string)
  | NotImplementedError (msg : string)
  | CancelledError
  | OtherException (name msg : string).

(** [str(ex)] *)
Definition exn_str (e : exn) : string :=
  match e with
  | TimeoutAPIError m | BluetoothGATTAPIError _ m | APIConnectionError m
  | BleakError m | TimeoutError m | NotImplementedError m => m
  | CancelledError => ""
  | OtherException _ m => m
  end.

(** [except Exception] catches everything but a cancellation, which derives
    from [BaseException]. *)
Definition is_Exception (e : exn) : bool :=
  match e with CancelledError => false | _ => true end.

Definition is_BleakError (e : exn) : bool :=
  match e with BleakError _ => true | _ => false end.

(** The service tree that [bluetooth_gatt_get_services] returns. *)
Record BluetoothGATTDescriptor : Type := {
  desc_uuid : string;
  desc_handle : Z
}.

(** [char_properties] holds the property names ("notify", "indicate", ...)
    that the characteristic wrapper exposes as [properties]. *)
Record BluetoothGATTCharacteristic : Type := {
  char_uuid : string;
  char_handle : Z;
  char_properties : list string;
  char_descriptors : list BluetoothGATTDescriptor
}.

Record BluetoothGATTService : Type := {
  svc_uuid : string;
  svc_handle : Z;
  svc_characteristics : list BluetoothGATTCharacteristic
}.

Record ESPHomeBluetoothGATTServices : Type := {
  gatt_address : Z;
  gatt_services : list BluetoothGATTService
}.

(** Modelled from the spec: the wrappers of descriptor.py, characteristic.py
    and service.py are not part of the sources at hand.  The spec calls them
    plain data holders, so each one stores the arguments of its constructor
    call in [_get_services]. *)
Record BleakGATTDescriptorESPHome : Type := {
  descriptor_obj : BluetoothGATTDescriptor;
  characteristic_uuid : string;
  characteristic_handle : Z
}.

Record BleakGATTCharacteristicESPHome : Type := {
  characteristic_obj : BluetoothGATTCharacteristic;
  max_write_without_response_size : Z;
  service_uuid : string;
  service_handle : Z
}.

Record BleakGATTServiceESPHome : Type := {
  service_obj : BluetoothGATTService
}.

Definition handle (c : BleakGATTCharacteristicESPHome) : Z :=
  char_handle (characteristic_obj c).
Definition uuid (c : BleakGATTCharacteristicESPHome) : string :=
  char_uuid (characteristic_obj c).
Definition properties (c : BleakGATTCharacteristicESPHome) : list string :=
  char_properties (characteristic_obj c).

(** [characteristic.get_descriptor(uuid)] *)
Definition get_descriptor (c : BleakGATTCharacteristicESPHome) (u : string)
  : option BluetoothGATTDescriptor :=
  head (filter (λ d, desc_uuid d = u) (char_descriptors (characteristic_obj c))).

(** bleak's [BleakGATTServiceCollection], the topology: what was added to it,
    in the order of the calls. *)
Record BleakGATTServiceCollection : Type := {
  collection_services : list BleakGATTServiceESPHome;
  collection_characteristics : list BleakGATTCharacteristicESPHome;
  collection_descriptors : list BleakGATTDescriptorESPHome
}.

Definition empty_collection : BleakGATTServiceCollection :=
  {| collection_services := []; collection_characteristics := [];
     collection_descriptors := [] |}.

Definition add_service (x : BleakGATTServiceESPHome)
  (c : BleakGATTServiceCollection) : BleakGATTServiceCollection :=
  {| collection_services := collection_services c ++ [x];
     collection_characteristics := collection_characteristics c;
     collection_descriptors := collection_descriptors c |}.

Definition add_characteristic (x : BleakGATTCharacteristicESPHome)
  (c : BleakGATTServiceCollection) : BleakGATTServiceCollection :=
  {| collection_services := collection_services c;
     collection_characteristics := collection_characteristics c ++ [x];
     collection_descriptors := collection_descriptors c |}.

Definition add_descriptor (x : BleakGATTDescriptorESPHome)
  (c : BleakGATTServiceCollection) : BleakGATTServiceCollection :=
  {| collection_services := collection_services c;
     collection_characteristics := collection_characteristics c;
     collection_descriptors := collection_descriptors c ++ [x] |}.

(** How a caller names a characteristic: the object itself, its integer
    handle, or its UUID. *)
Inductive char_specifier : Type :=
  | ByObject (c : BleakGATTCharacteristicESPHome)
  | ByHandle (h : Z)
  | ByUUID (u : string).

Definition specifier_str (sp : char_specifier) : string :=
  match sp with
  | ByObject c => uuid c
  | ByHandle h => pretty h
  | ByUUID u => u
  end.

(** Modelled from the spec: cache.py is not part of the sources at hand.  The
    spec gives the cache a get, a put and a clear for the topology and for
    the MTU of a peer, keyed by the address as an integer, without expiry. *)
Record ESPHomeBluetoothCache : Type := {
  _gatt_services_cache : gmap Z BleakGATTServiceCollection;
  _gatt_mtu_cache : gmap Z Z
}.

Definition get_gatt_services_cache (address : Z) (c : ESPHomeBluetoothCache)
  : option BleakGATTServiceCollection := _gatt_services_cache c !! address.

Definition set_gatt_services_cache (address : Z) (sv : BleakGATTServiceCollection)
  (c : ESPHomeBluetoothCache) : ESPHomeBluetoothCache :=
  {| _gatt_services_cache := <[address := sv]> (_gatt_services_cache c);
     _gatt_mtu_cache := _gatt_mtu_cache c |}.

Definition clear_gatt_services_cache (address : Z) (c : ESPHomeBluetoothCache)
  : ESPHomeBluetoothCache :=
  {| _gatt_services_cache := delete address (_gatt_services_cache c);
     _gatt_mtu_cache := _gatt_mtu_cache c |}.

Definition get_gatt_mtu_cache (address : Z) (c : ESPHomeBluetoothCache)
  : option Z := _gatt_mtu_cache c !! address.

Definition set_gatt_mtu_cache (address mtu : Z) (c : ESPHomeBluetoothCache)
  : ESPHomeBluetoothCache :=
  {| _gatt_services_cache := _gatt_services_cache c;
     _gatt_mtu_cache := <[address := mtu]> (_gatt_mtu_cache c) |}.

Definition clear_gatt_mtu_cache (address : Z) (c : ESPHomeBluetoothCache)
  : ESPHomeBluetoothCache :=
  {| _gatt_services_cache := _gatt_services_cache c;
     _gatt_mtu_cache := delete address (_gatt_mtu_cache c) |}.

(** ** Futures of the event loop *)

Inductive pyvalue : Type := VNone | VBool (b : bool).

Inductive future_state : Type :=
  | Pending
  | Result (v : pyvalue)
  | Exception (e : exn)
  | Cancelled (msg : string).

(** A future is named by its identity; the loop holds the state of each. *)
Abbreviation future := positive.

(** [future.done()]: a future that nobody has completed is pending. *)
Definition done (fs : gmap future future_state) (f : future) : bool :=
  match fs !! f with
  | None | Some Pending => false
  | Some _ => true
  end.

(** ** What the client does to the outside *)

(** The pair [(notify_stop, notify_abort)] that [bluetooth_gatt_start_notify]
    returns is named by a number. *)
Abbreviation notify_cancel := nat.

(** The coroutines of the collaborators that the client awaits: the remote
    calls of [APIClient] and the wait of the proxy device for a free
    connection slot. *)
Inductive awaited : Type :=
  | bluetooth_device_connect (address timeout : Z) (has_cache : bool)
      (feature_flags address_type : Z)
  | bluetooth_device_disconnect (address : Z)
  | bluetooth_device_pair (address : Z)
  | bluetooth_device_unpair (address : Z)
  | bluetooth_device_clear_cache (address : Z)
  | bluetooth_gatt_get_services (address : Z)
  | bluetooth_gatt_read (address handle timeout : Z)
  | bluetooth_gatt_read_descriptor (address handle timeout : Z)
  | bluetooth_gatt_write (address handle : Z) (data : list Byte.byte) (response : bool)
  | bluetooth_gatt_write_descriptor (address handle : Z) (data : list Byte.byte)
      (wait_for_response : bool)
  | bluetooth_gatt_start_notify (address handle : Z)
  | notify_stop (c : notify_cancel)
  | wait_for_ble_connections_free (timeout : Z).

(** The function that [bluetooth_device_connect] returns, by what a call of
    it does: it returns, or it fails with one of the two errors that
    [_unsubscribe_connection_state] expects after a dropped connection. *)
Inductive CALLBACK_TYPE : Type :=
  | UnsubscribeReturns
  | UnsubscribeAssertionError
  | UnsubscribeValueError.

(** The entries of the proxy's list of disconnect callbacks: the bound method
    [_async_esp_disconnected] of the client at an address, or a callback of
    somebody else. *)
Inductive disconnect_callback : Type :=
  | async_esp_disconnected_of (address : Z)
  | foreign_callback (n : nat).

Global Instance disconnect_callback_eq_dec : EqDecision disconnect_callback.
Proof. solve_decision. Defined.

(** The observable actions, in the order they happen. *)
Inductive effect : Type :=
  | Await (c : awaited)
  | NotifyAbort (c : notify_cancel)
  | Unsubscribe (c : CALLBACK_TYPE)
  | DisconnectedCallback (cb : nat)
  | Warning (msg : string).

(** [BLEDevice]: the two attributes the client formats into its messages. *)
Record BLEDevice : Type := {
  name : string;
  address : string
}.

(** ** The client object and what it shares *)

Record ESPHomeClient : Type := mkESPHomeClient {
  (* fixed by __init__ *)
  _ble_device : BLEDevice;
  _source_name : string;
  _address_as_int : Z;
  _address_type : Z;
  _feature_flags : Z;
  _timeout : Z;
  device_name : string;
  (* attributes *)
  services : option BleakGATTServiceCollection;
  _is_connected : bool;
  _mtu : option Z;
  _cancel_connection_state : option CALLBACK_TYPE;
  _notify_cancels : gmap Z notify_cancel;
  _disconnected_futures : gset future;
  _disconnected_callback : option nat;
  (* shared with the collaborators *)
  _disconnect_callbacks : list disconnect_callback;
  _cache : ESPHomeBluetoothCache;
  ble_connections_free : Z;
  futures : gmap future future_state;
  trace : list effect
}.

Definition set_services (v : option BleakGATTServiceCollection) (s : ESPHomeClient) :=
  mkESPHomeClient (_ble_device s) (_source_name s) (_address_as_int s) (_address_type s)
    (_feature_flags s) (_timeout s) (device_name s)
    v (_is_connected s) (_mtu s) (_cancel_connection_state s) (_notify_cancels s)
    (_disconnected_futures s) (_disconnected_callback s)
    (_disconnect_callbacks s) (_cache s) (ble_connections_free s) (futures s) (trace s).

Definition set_is_connected (v : bool) (s : ESPHomeClient) :=
  mkESPHomeClient (_ble_device s) (_source_name s) (_address_as_int s) (_address_type s)
    (_feature_flags s) (_timeout s) (device_name s)
    (services s) v (_mtu s) (_cancel_connection_state s) (_notify_cancels s)
    (_disconnected_futures s) (_disconnected_callback s)
    (_disconnect_callbacks s) (_cache s) (ble_connections_free s) (futures s) (trace s).

Definition set_mtu (v : option Z) (s : ESPHomeClient) :=
  mkESPHomeClient (_ble_device s) (_source_name s) (_address_as_int s) (_address_type s)
    (_feature_flags s) (_timeout s) (device_name s)
    (services s) (_is_connected s) v (_cancel_connection_state s) (_notify_cancels s)
    (_disconnected_futures s) (_disconnected_callback s)
    (_disconnect_callbacks s) (_cache s) (ble_connections_free s) (futures s) (trace s).

Definition set_cancel_connection_state (v : option CALLBACK_TYPE) (s : ESPHomeClient) :=
  mkESPHomeClient (_ble_device s) (_source_name s) (_address_as_int s) (_address_type s)
    (_feature_flags s) (_timeout s) (device_name s)
    (services s) (_is_connected s) (_mtu s) v (_notify_cancels s)
    (_disconnected_futures s) (_disconnected_callback s)
    (_disconnect_callbacks s) (_cache s) (ble_connections_free s) (futures s) (trace s).

Definition set_notify_cancels (v : gmap Z notify_cancel) (s : ESPHomeClient) :=
  mkESPHomeClient (_ble_device s) (_source_name s) (_address_as_int s) (_address_type s)
    (_feature_flags s) (_timeout s) (device_name s)
    (services s) (_is_connected s) (_mtu s) (_cancel_connection_state s) v
    (_disconnected_futures s) (_disconnected_callback s)
    (_disconnect_callbacks s) (_cache s) (ble_connections_free s) (futures s) (trace s).

Definition set_disconnected_futures (v : gset future) (s : ESPHomeClient) :=
  mkESPHomeClient (_ble_device s) (_source_name s) (_address_as_int s) (_address_type s)
    (_feature_flags s) (_timeout s) (device_name s)
    (services s) (_is_connected s) (_mtu s) (_cancel_connection_state s) (_notify_cancels s)
    v (_disconnected_callback s)
    (_disconnect_callbacks s) (_cache s) (ble_connections_free s) (futures s) (trace s).

Definition set_disconnected_callback (v : option nat) (s : ESPHomeClient) :=
  mkESPHomeClient (_ble_device s) (_source_name s) (_address_as_int s) (_address_type s)
    (_feature_flags s) (_timeout s) (device_name s)
    (services s) (_is_connected s) (_mtu s) (_cancel_connection_state s) (_notify_cancels s)
    (_disconnected_futures s) v
    (_disconnect_callbacks s) (_cache s) (ble_connections_free s) (futures s) (trace s).

Definition set_disconnect_callbacks (v : list disconnect_callback) (s : ESPHomeClient) :=
  mkESPHomeClient (_ble_device s) (_source_name s) (_address_as_int s) (_address_type s)
    (_feature_flags s) (_timeout s) (device_name s)
    (services s) (_is_connected s) (_mtu s) (_cancel_connection_state s) (_notify_cancels s)
    (_disconnected_futures s) (_disconnected_callback s)
    v (_cache s) (ble_connections_free s) (futures s) (trace s).

Definition set_cache (v : ESPHomeBluetoothCache) (s : ESPHomeClient) :=
  mkESPHomeClient (_ble_device s) (_source_name s) (_address_as_int s) (_address_type s)
    (_feature_flags s) (_timeout s) (device_name s)
    (services s) (_is_connected s) (_mtu s) (_cancel_connection_state s) (_notify_cancels s)
    (_disconnected_futures s) (_disconnected_callback s)
    (_disconnect_callbacks s) v (ble_connections_free s) (futures s) (trace s).

Definition set_ble_connections_free (v : Z) (s : ESPHomeClient) :=
  mkESPHomeClient (_ble_device s) (_source_name s) (_address_as_int s) (_address_type s)
    (_feature_flags s) (_timeout s) (device_name s)
    (services s) (_is_connected s) (_mtu s) (_cancel_connection_state s) (_notify_cancels s)
    (_disconnected_futures s) (_disconnected_callback s)
    (_disconnect_callbacks s) (_cache s) v (futures s) (trace s).

Definition set_futures (v : gmap future future_state) (s : ESPHomeClient) :=
  mkESPHomeClient (_ble_device s) (_source_name s) (_address_as_int s) (_address_type s)
    (_feature_flags s) (_timeout s) (device_name s)
    (services s) (_is_connected s) (_mtu s) (_cancel_connection_state s) (_notify_cancels s)
    (_disconnected_futures s) (_disconnected_callback s)
    (_disconnect_callbacks s) (_cache s) (ble_connections_free s) v (trace s).

Definition set_trace (v : list effect) (s : ESPHomeClient) :=
  mkESPHomeClient (_ble_device s) (_source_name s) (_address_as_int s) (_address_type s)
    (_feature_flags s) (_timeout s) (device_name s)
    (services s) (_is_connected s) (_mtu s) (_cancel_connection_state s) (_notify_cancels s)
    (_disconnected_futures s) (_disconnected_callback s)
    (_disconnect_callbacks s) (_cache s) (ble_connections_free s) (futures s) v.

(** Record an action at the end of the trace. *)
Definition emit (e : effect) (s : ESPHomeClient) : ESPHomeClient :=
  set_trace (trace s ++ [e]) s.

(** ** Coroutines: state, exceptions, suspension *)

Inductive outcome (A : Type) : Type :=
  | Return (a : A)
  | Raise (e : exn).
Arguments Return {A} a.
Arguments Raise {A} e.

Definition M (A : Type) : Type := ESPHomeClient → ESPHomeClient * outcome A.

Definition ret {A} (a : A) : M A := λ s, (s, Return a).
Definition raise {A} (e : exn) : M A := λ s, (s, Raise e).

Definition bind {A B} (m : M A) (k : A → M B) : M B :=
  λ s, match m s with
       | (s', Return a) => k a s'
       | (s', Raise e) => (s', Raise e)
       end.

Notation "x <- m ;; k" := (bind m (λ x, k))
  (at level 100, m at next level, right associativity).
Notation "m ;;; k" := (bind m (λ _, k))
  (at level 100, right associativity).

Definition modify (f : ESPHomeClient → ESPHomeClient) : M unit := λ s, (f s, Return tt).
Definition gets {A} (f : ESPHomeClient → A) : M A := λ s, (s, Return (f s)).

(** [try: body except: handler]; a handler re-raises what it does not catch. *)
Definition try_except {A} (body : M A) (handler : exn → M A) : M A :=
  λ s, match body s with
       | (s', Raise e) => handler e s'
       | r => r
       end.

(** [try: body finally: final], for a final block that cannot fail. *)
Definition try_finally {A} (body : M A) (final : ESPHomeClient → ESPHomeClient) : M A :=
  λ s, let '(s', r) := body s in (final s', r).

(** [with contextlib.suppress(...): body] *)
Definition suppress (caught : exn → bool) (body : M unit) : M unit :=
  try_except body (λ e, if caught e then ret tt else raise e).

(** ** The synchronous methods (lines 190-250) *)

(** Lines 190-207 *)
Definition _unsubscribe_connection_state (s : ESPHomeClient) : ESPHomeClient :=
  match _cancel_connection_state s with
  | None => s
  | Some cancel =>
      (* the call is made; an AssertionError or a ValueError from it is
         logged and dropped *)
      let s := emit (Unsubscribe cancel) s in
      set_cancel_connection_state None s
  end.

(** Lines 216-218: [future.set_result(None)] for each waiter that is not
    done.  The loop of the source runs over the set; so does the fold. *)
Definition resolve_all (waiters : gset future) (fs : gmap future future_state)
  : gmap future future_state :=
  set_fold (λ f fs, if done fs f then fs else <[f := Result VNone]> fs) fs waiters.

(** Lines 213-214: the [notify_abort] of every entry is called.  The dict of
    the source keeps insertion order; the map gives its entries in an order
    of its own, and nothing below depends on which. *)
Definition abort_all (s : ESPHomeClient) : ESPHomeClient :=
  foldl (λ s kv, emit (NotifyAbort kv.2) s) s (map_to_list (_notify_cancels s)).

(** Lines 209-220 *)
Definition _async_disconnected_cleanup (s : ESPHomeClient) : ESPHomeClient :=
  let s := set_services (Some empty_collection) s in
  let s := set_is_connected false s in
  let s := abort_all s in
  let s := set_notify_cancels ∅ s in
  let s := set_futures (resolve_all (_disconnected_futures s) (futures s)) s in
  let s := set_disconnected_futures ∅ s in
  _unsubscribe_connection_state s.

(** Lines 246-250 *)
Definition _async_call_bleak_disconnected_callback (s : ESPHomeClient) : ESPHomeClient :=
  match _disconnected_callback s with
  | Some cb =>
      let s := emit (DisconnectedCallback cb) s in
      set_disconnected_callback None s
  | None => s
  end.

(** Lines 222-233 *)
Definition _async_ble_device_disconnected (s : ESPHomeClient) : ESPHomeClient :=
  let was_connected := _is_connected s in
  let s := _async_disconnected_cleanup s in
  if was_connected then _async_call_bleak_disconnected_callback s else s.

(** [list.remove(x)]: the first occurrence goes; [None] is the ValueError of
    an absent element. *)
Fixpoint list_remove (x : disconnect_callback) (l : list disconnect_callback)
  : option (list disconnect_callback) :=
  match l with
  | [] => None
  | y :: l' => if decide (x = y) then Some l' else cons y <$> list_remove x l'
  end.

(** Lines 235-244.  The method is a callback of the proxy; when the removal
    fails nothing else has happened. *)
Definition _async_esp_disconnected : M unit := λ s,
  match list_remove (async_esp_disconnected_of (_address_as_int s)) (_disconnect_callbacks s) with
  | None => (s, Raise (OtherException "ValueError" "list.remove(x): x not in list"))
  | Some l =>
      let s := set_disconnect_callbacks l s in
      (_async_ble_device_disconnected s, Return tt)
  end.

(** [self._mtu or DEFAULT_MTU] (line 422) and [not self._mtu] (line 271):
    an MTU that is [None] or 0 counts as absent. *)
Definition mtu_falsy (m : option Z) : bool :=
  match m with
  | None => true
  | Some v => v =? 0
  end.

(** Lines 419-422 *)
Definition mtu_size (s : ESPHomeClient) : Z :=
  match _mtu s with
  | Some v => if v =? 0 then DEFAULT_MTU else v
  | None => DEFAULT_MTU
  end.

(** Lines 414-417 *)
Definition is_connected (s : ESPHomeClient) : bool := _is_connected s.

Definition set_result (f : future) (v : pyvalue) (s : ESPHomeClient) : ESPHomeClient :=
  set_futures (<[f := Result v]> (futures s)) s.

Definition set_exception (f : future) (e : exn) (s : ESPHomeClient) : ESPHomeClient :=
  set_futures (<[f := Exception e]> (futures s)) s.

(** ** What the event loop runs while a coroutine is suspended *)

Inductive env_event : Type :=
  (* the remote client calls the callback it was given by a connect, bound
     to the future of that connect *)
  | ConnectionState (connected_future : future) (connected : bool) (mtu error : Z)
  (* the proxy runs its disconnect callbacks *)
  | EspDisconnected
  (* the slot accounting of the proxy changes *)
  | ConnectionsFree (n : Z).

(** The answer to an awaited call: the events that run before the coroutine
    resumes, and what it resumes with.  The answer is the environment's to
    give; the cancellation of the running task is one of the answers
    ([Raise CancelledError]), and it is the answer a wrapped call gets when
    the events complete its waiter (see [interrupt]). *)
Record reply (A : Type) : Type := mkReply {
  during : list env_event;
  result : outcome A
}.
Arguments mkReply {A} during result.
Arguments during {A} r.
Arguments result {A} r.

(** The answers to the two awaits of [_disconnect]. *)
Record disconnect_env : Type := mkDisconnectEnv {
  disconnect_reply : reply unit;
  disconnect_slot : reply unit
}.

(** The answers to the awaits of [connect].  The future that [connect]
    creates is bound into the callback it hands to the remote client, so
    what the environment does may depend on it. *)
Record connect_env : Type := mkConnectEnv {
  connect_slot : reply unit;
  connect_reply : future → reply CALLBACK_TYPE;
  connect_state : future → list env_event;
  connect_services : future → reply ESPHomeBluetoothGATTServices;
  connect_disconnect : future → disconnect_env
}.

(** A call of a public method, with the answers of the environment to its
    awaits. *)
Inductive call : Type :=
  | Connect (dangerous_use_bleak_cache : bool) (timeout : option Z) (env : connect_env)
  | Disconnect (env : disconnect_env)
  | Pair (r : reply bool)
  | Unpair (r : reply bool)
  | GetServices (dangerous_use_bleak_cache : bool) (r : reply ESPHomeBluetoothGATTServices)
  | ClearCache (r : reply bool)
  | ReadGattChar (char_specifier : char_specifier) (r : reply (list Byte.byte))
  | ReadGattDescriptor (handle : Z) (r : reply (list Byte.byte))
  | WriteGattChar (characteristic : char_specifier) (data : list Byte.byte)
      (response : bool) (r : reply unit)
  | WriteGattDescriptor (handle : Z) (data : list Byte.byte) (r : reply unit)
  | StartNotify (characteristic : BleakGATTCharacteristicESPHome)
      (r : reply notify_cancel) (w : reply unit)
  | StopNotify (char_specifier : char_specifier) (r : reply unit).

(** What happens to a client: a method is called and runs to its end, or
    the event loop delivers an event between two calls. *)
Inductive step : Type :=
  | Call (c : call)
  | Event (ev : env_event).

Definition is_connect (st : step) : bool :=
  match st with
  | Call (Connect _ _ _) => true
  | _ => false
  end.

(** A connection-state signal that reports connected. *)
Definition connected_signal (ev : env_event) : bool :=
  match ev with
  | ConnectionState _ true _ _ => true
  | _ => false
  end.

Definition no_connected_signal (evs : list env_event) : bool :=
  forallb (λ ev, negb (connected_signal ev)) evs.

(** The three tables of aioesphomeapi that [_on_bluetooth_connection_state]
    consults: the members of the enum [BLEConnectionError] (value to member
    name), [ESP_CONNECTION_ERROR_DESCRIPTION] (keyed by the member, here by
    its value) and [ESPHOME_GATT_ERRORS].  The client is embedded for any
    content of them. *)
Class ErrorTables : Type := {
  BLEConnectionError : gmap Z string;
  ESP_CONNECTION_ERROR_DESCRIPTION : gmap Z string;
  ESPHOME_GATT_ERRORS : gmap Z string
}.

Section Client.

Context `{tables : ErrorTables}.

(** Lines 281-289: the name and the description of an error code.  The
    [try] fails with ValueError when the code is no member of the enum and
    with KeyError when the member has no description; both land in the
    [except] branch. *)
Definition describe_connection_error (error : Z) : string * string :=
  match BLEConnectionError !! error with
  | Some ble_connection_error_name =>
      match ESP_CONNECTION_ERROR_DESCRIPTION !! error with
      | Some human_error => (ble_connection_error_name, human_error)
      | None =>
          (pretty error,
           default ("Unknown error code " +:+ pretty error) (ESPHOME_GATT_ERRORS !! error))
      end
  | None =>
      (pretty error,
       default ("Unknown error code " +:+ pretty error) (ESPHOME_GATT_ERRORS !! error))
  end.

Definition connect_error_message (error : Z) : string :=
  let '(ble_connection_error_name, human_error) := describe_connection_error error in
  "Error " +:+ ble_connection_error_name +:+ " while connecting: " +:+ human_error.

(** Lines 269-275: the signal is applied to the client. *)
Definition apply_connection_state (connected : bool) (mtu : Z) (s : ESPHomeClient)
  : ESPHomeClient :=
  if connected then
    let s := set_is_connected true s in
    if mtu_falsy (_mtu s) then
      let s := set_mtu (Some mtu) s in
      set_cache (set_gatt_mtu_cache (_address_as_int s) mtu (_cache s)) s
    else s
  else _async_ble_device_disconnected s.

(** Lines 277-309: the future of the connect is completed, unless it is done. *)
Definition complete_connected_future (connected_future : future)
  (connected : bool) (error : Z) (s : ESPHomeClient) : ESPHomeClient :=
  if done (futures s) connected_future then s
  else if negb (error =? 0) then
    set_exception connected_future (BleakError (connect_error_message error)) s
  else if negb connected then
    set_exception connected_future (BleakError "Disconnected") s
  else
    let s := set_disconnect_callbacks
               (_disconnect_callbacks s ++ [async_esp_disconnected_of (_address_as_int s)]) s in
    set_result connected_future (VBool connected) s.

(** Lines 252-309 *)
Definition _on_bluetooth_connection_state (connected_future : future)
  (connected : bool) (mtu error : Z) (s : ESPHomeClient) : ESPHomeClient :=
  let s := apply_connection_state connected mtu s in
  complete_connected_future connected_future connected error s.

(** The handlers of the events. *)
Definition handle_event (ev : env_event) (s : ESPHomeClient) : ESPHomeClient :=
  match ev with
  | ConnectionState f connected mtu error =>
      _on_bluetooth_connection_state f connected mtu error s
  | EspDisconnected => (_async_esp_disconnected s).1
  | ConnectionsFree n => set_ble_connections_free n s
  end.

Definition run_events (evs : list env_event) (s : ESPHomeClient) : ESPHomeClient :=
  foldl (λ s ev, handle_event ev s) s evs.

Definition await {A} (c : awaited) (r : reply A) : M A :=
  λ s, (run_events (during r) (emit (Await c) s), result r).

(** [await future].  A future that is done gives its value at once.
    Otherwise the coroutine is suspended while [evs] run; when the future is
    still pending after them, the coroutine leaves the await by being
    cancelled. *)
Definition await_future (f : future) (evs : list env_event) : M pyvalue :=
  λ s, let s' := if done (futures s) f then s else run_events evs s in
       (s', match futures s' !! f with
            | Some (Result v) => Return v
            | Some (Exception e) => Raise e
            | Some (Cancelled _) | Some Pending | None => Raise CancelledError
            end).

(** [loop.create_future()]: a new object, different from every future the
    loop or the client holds. *)
Definition create_future : M future :=
  λ s, let f := fresh (dom (futures s) ∪ _disconnected_futures s) in
       (set_futures (<[f := Pending]> (futures s)) s, Return f).

(** [future.cancel(msg)] *)
Definition cancel_future (f : future) (msg : string) (s : ESPHomeClient) : ESPHomeClient :=
  if done (futures s) f then s else set_futures (<[f := Cancelled msg]> (futures s)) s.

(** [async with interrupt(future, exception, message)] of the package
    async_interrupt: when the future completes while the body is suspended,
    the task is cancelled at its suspension point and the context manager
    raises the given exception in place of the cancellation. *)
Definition interrupt {A} (f : future) (e : exn) (body : M A) : M A :=
  λ s, match body s with
       | (s', Raise CancelledError) =>
           if done (futures s') f then (s', Raise e) else (s', Raise CancelledError)
       | r => r
       end.

(** ** The two decorators (lines 71-129) *)

(** Lines 83-86 *)
Definition disconnect_message (s : ESPHomeClient) : string :=
  _source_name s +:+ ": " +:+ name (_ble_device s) +:+ " - "
    +:+ address (_ble_device s) +:+ ": Disconnected during operation".

(** Lines 78-81: the waiter is created and put into the set. *)
Definition register_disconnected_future : M future :=
  disconnected_future <- create_future ;;
  modify (λ s, set_disconnected_futures
                 ({[disconnected_future]} ∪ _disconnected_futures s) s) ;;;
  ret disconnected_future.

(** Line 91 *)
Definition discard_disconnected_future (f : future) (s : ESPHomeClient) : ESPHomeClient :=
  set_disconnected_futures (_disconnected_futures s ∖ {[f]}) s.

(** Lines 71-93 *)
Definition verify_connected {A} (func : M A) : M A :=
  disconnected_future <- register_disconnected_future ;;
  disconnect_message <- gets disconnect_message ;;
  try_finally
    (interrupt disconnected_future (BleakError disconnect_message) func)
    (discard_disconnected_future disconnected_future).

(** Lines 96-129 *)
Definition api_error_as_bleak_error {A} (func : M A) : M A :=
  try_except func
    (λ ex, match ex with
           | TimeoutAPIError _ => raise (TimeoutError (exn_str ex))
           | BluetoothGATTAPIError error _ =>
               (if error =? -1 then modify _async_ble_device_disconnected else ret tt) ;;;
               raise (BleakError (exn_str ex))
           | APIConnectionError _ => raise (BleakError (exn_str ex))
           | _ => raise ex
           end).

(** ** The coroutines of the client (lines 311-770) *)

(** Lines 400-412.  The timeout of line 411 is the [TimeoutError] that the
    answer to the wait can give. *)
Definition _wait_for_free_connection_slot (timeout : Z) (w : reply unit) : M unit :=
  free <- gets ble_connections_free ;;
  if negb (free =? 0) then ret tt
  else await (wait_for_ble_connections_free timeout) w.

(** Lines 394-398 *)
Definition _disconnect (env : disconnect_env) : M bool :=
  modify _async_disconnected_cleanup ;;;
  address_as_int <- gets _address_as_int ;;
  await (bluetooth_device_disconnect address_as_int) (disconnect_reply env) ;;;
  _wait_for_free_connection_slot DISCONNECT_TIMEOUT (disconnect_slot env) ;;;
  ret true.

(** Lines 389-392 *)
Definition disconnect (env : disconnect_env) : M bool :=
  api_error_as_bleak_error (_disconnect env).

(** Lines 514-533: the three nested loops that fill the collection. *)
Definition build_services (max_write_without_response : Z)
  (esphome_services : list BluetoothGATTService) : BleakGATTServiceCollection :=
  foldl (λ services service,
    let services := add_service {| service_obj := service |} services in
    foldl (λ services characteristic,
      let services :=
        add_characteristic
          {| characteristic_obj := characteristic;
             max_write_without_response_size := max_write_without_response;
             service_uuid := svc_uuid service;
             service_handle := svc_handle service |} services in
      foldl (λ services descriptor,
        add_descriptor
          {| descriptor_obj := descriptor;
             characteristic_uuid := char_uuid characteristic;
             characteristic_handle := char_handle characteristic |} services)
        services (char_descriptors characteristic))
      services (svc_characteristics service))
    empty_collection esphome_services.

(** [not esphome_services.services] *)
Definition no_services (r : ESPHomeBluetoothGATTServices) : bool :=
  match gatt_services r with [] => true | _ => false end.

(** Lines 472-548.  The cache object is shared and looked at when it is
    used: the entry that line 547 writes goes into the cache as it is after
    the await.  The size of line 513 is computed after the await, too. *)
Definition _get_services (dangerous_use_bleak_cache : bool)
  (r : reply ESPHomeBluetoothGATTServices) : M BleakGATTServiceCollection :=
  verify_connected (
    address_as_int <- gets _address_as_int ;;
    feature_flags <- gets _feature_flags ;;
    cached <- gets (λ s, get_gatt_services_cache address_as_int (_cache s)) ;;
    match (if has_feature feature_flags BluetoothProxyFeature.REMOTE_CACHING
              || dangerous_use_bleak_cache then cached else None) with
    | Some cached_services =>
        modify (set_services (Some cached_services)) ;;;
        ret cached_services
    | None =>
        esphome_services <- await (bluetooth_gatt_get_services address_as_int) r ;;
        max_write_without_response <- gets (λ s, mtu_size s - GATT_HEADER_SIZE) ;;
        let services :=
          build_services max_write_without_response (gatt_services esphome_services) in
        if no_services esphome_services then
          raise (BleakError "Failed to get services from remote esp")
        else
          modify (set_services (Some services)) ;;;
          modify (λ s, set_cache
                         (set_gatt_services_cache address_as_int services (_cache s)) s) ;;;
          ret services
    end).

(** Lines 458-470 *)
Definition get_services (dangerous_use_bleak_cache : bool)
  (r : reply ESPHomeBluetoothGATTServices) : M BleakGATTServiceCollection :=
  api_error_as_bleak_error (_get_services dangerous_use_bleak_cache r).

(** Lines 350-356 and 359-367: the result of a future that is done is
    retrieved, a [BleakError] in it is dropped. *)
Definition drain (connected_future : future) : M unit :=
  is_done <- gets (λ s, done (futures s) connected_future) ;;
  if is_done
  then suppress is_BleakError (await_future connected_future [] ;;; ret tt)
  else ret tt.

(** Line 327 *)
Definition reload_mtu (s : ESPHomeClient) : ESPHomeClient :=
  set_mtu (get_gatt_mtu_cache (_address_as_int s) (_cache s)) s.

(** Lines 328-370: the connect request and the wait for its result. *)
Definition open_connection (dangerous_use_bleak_cache : bool) (timeout : option Z)
  (env : connect_env) : M future :=
  has_cache <- gets (λ s,
    dangerous_use_bleak_cache
    && has_feature (_feature_flags s) BluetoothProxyFeature.REMOTE_CACHING
    && bool_decide (is_Some (get_gatt_services_cache (_address_as_int s) (_cache s)))
    && negb (mtu_falsy (_mtu s))) ;;
  connected_future <- create_future ;;
  timeout <- gets (λ s, default (_timeout s) timeout) ;;
  request <- gets (λ s, bluetooth_device_connect (_address_as_int s) timeout has_cache
                          (_feature_flags s) (_address_type s)) ;;
  (* with self._scanner.connecting(): the scanner only counts *)
  try_except
    (cancel <- await request (connect_reply env connected_future) ;;
     modify (set_cancel_connection_state (Some cancel)))
    (λ ex, match ex with
           | CancelledError =>
               drain connected_future ;;;
               raise ex
           | _ =>
               drain connected_future ;;;
               modify (cancel_future connected_future
                         ("Unhandled exception in connect call: " +:+ exn_str ex)) ;;;
               raise ex
           end) ;;;
  await_future connected_future (connect_state env connected_future) ;;;
  ret connected_future.

(** Lines 324-370: up to the point where the connection stands. *)
Definition establish_connection (dangerous_use_bleak_cache : bool) (timeout : option Z)
  (env : connect_env) : M future :=
  _wait_for_free_connection_slot CONNECT_FREE_SLOT_TIMEOUT (connect_slot env) ;;;
  modify reload_mtu ;;;
  open_connection dangerous_use_bleak_cache timeout env.

(** Lines 372-385: the discovery that ends a connect, with the disconnect
    that follows its failure. *)
Definition discover_or_disconnect (dangerous_use_bleak_cache : bool)
  (r : reply ESPHomeBluetoothGATTServices) (env : disconnect_env) : M unit :=
  try_except
    (_get_services dangerous_use_bleak_cache r ;;; ret tt)
    (λ ex, match ex with
           | CancelledError =>
               suppress is_Exception (_disconnect env ;;; ret tt) ;;;
               raise ex
           | _ =>
               _disconnect env ;;;
               raise ex
           end).

(** Lines 311-387 *)
Definition connect (dangerous_use_bleak_cache : bool) (timeout : option Z)
  (env : connect_env) : M bool :=
  api_error_as_bleak_error (
    connected_future <- establish_connection dangerous_use_bleak_cache timeout env ;;
    discover_or_disconnect dangerous_use_bleak_cache
      (connect_services env connected_future) (connect_disconnect env connected_future) ;;;
    ret true).

(** Lines 424-439 *)
Definition pair (r : reply bool) : M bool :=
  verify_connected (api_error_as_bleak_error (
    feature_flags <- gets _feature_flags ;;
    if negb (has_feature feature_flags BluetoothProxyFeature.PAIRING) then
      device <- gets device_name ;;
      raise (NotImplementedError
               ("Pairing is not available in this version ESPHome; "
                +:+ "Upgrade the ESPHome version on the " +:+ device +:+ " device."))
    else
      address_as_int <- gets _address_as_int ;;
      paired <- await (bluetooth_device_pair address_as_int) r ;;
      if paired : bool then ret true else ret false)).

(** Lines 441-456 *)
Definition unpair (r : reply bool) : M bool :=
  verify_connected (api_error_as_bleak_error (
    feature_flags <- gets _feature_flags ;;
    if negb (has_feature feature_flags BluetoothProxyFeature.PAIRING) then
      device <- gets device_name ;;
      raise (NotImplementedError
               ("Unpairing is not available in this version ESPHome; "
                +:+ "Upgrade the ESPHome version on the " +:+ device +:+ " device."))
    else
      address_as_int <- gets _address_as_int ;;
      success <- await (bluetooth_device_unpair address_as_int) r ;;
      if success : bool then ret true else ret false)).

(** bleak's [services.get_characteristic(specifier)]: by handle, or by UUID,
    where two characteristics with the UUID are an error. *)
Definition get_characteristic (sp : char_specifier) (c : BleakGATTServiceCollection)
  : M (option BleakGATTCharacteristicESPHome) :=
  match sp with
  | ByObject x => ret (Some x)
  | ByHandle h => ret (head (filter (λ x, handle x = h) (collection_characteristics c)))
  | ByUUID u =>
      match filter (λ x, uuid x = u) (collection_characteristics c) with
      | [] => ret None
      | [x] => ret (Some x)
      | _ => raise (BleakError
                      ("Multiple Characteristics with this UUID, refer to your desired "
                       +:+ "characteristic by the `handle` attribute instead."))
      end
  end.

(** Lines 550-562 *)
Definition _resolve_characteristic (char_specifier : char_specifier)
  : M BleakGATTCharacteristicESPHome :=
  services <- gets services ;;
  match services with
  | None => raise (BleakError "Services have not been resolved")
  | Some services =>
      characteristic <-
        match char_specifier with
        | ByObject x => ret (Some x)
        | _ => get_characteristic char_specifier services
        end ;;
      match characteristic with
      | None => raise (BleakError ("Characteristic " +:+ specifier_str char_specifier
                                   +:+ " was not found!"))
      | Some characteristic => ret characteristic
      end
  end.

(** Lines 564-586 *)
Definition clear_cache (r : reply bool) : M bool :=
  verify_connected (api_error_as_bleak_error (
    modify (λ s, set_cache (clear_gatt_services_cache (_address_as_int s) (_cache s)) s) ;;;
    modify (λ s, set_cache (clear_gatt_mtu_cache (_address_as_int s) (_cache s)) s) ;;;
    feature_flags <- gets _feature_flags ;;
    if negb (has_feature feature_flags BluetoothProxyFeature.CACHE_CLEARING) then
      modify (emit (Warning "On device cache clear is not available with this ESPHome version")) ;;;
      ret true
    else
      address_as_int <- gets _address_as_int ;;
      success <- await (bluetooth_device_clear_cache address_as_int) r ;;
      if success : bool then ret true else ret false)).

(** Lines 588-610 *)
Definition read_gatt_char (char_specifier : char_specifier) (r : reply (list Byte.byte))
  : M (list Byte.byte) :=
  verify_connected (api_error_as_bleak_error (
    characteristic <- _resolve_characteristic char_specifier ;;
    address_as_int <- gets _address_as_int ;;
    await (bluetooth_gatt_read address_as_int (handle characteristic) GATT_READ_TIMEOUT) r)).

(** Lines 612-626 *)
Definition read_gatt_descriptor (handle : Z) (r : reply (list Byte.byte))
  : M (list Byte.byte) :=
  verify_connected (api_error_as_bleak_error (
    address_as_int <- gets _address_as_int ;;
    await (bluetooth_gatt_read_descriptor address_as_int handle GATT_READ_TIMEOUT) r)).

(** Lines 628-650 *)
Definition write_gatt_char (characteristic : char_specifier) (data : list Byte.byte)
  (response : bool) (r : reply unit) : M unit :=
  verify_connected (api_error_as_bleak_error (
    characteristic <- _resolve_characteristic characteristic ;;
    address_as_int <- gets _address_as_int ;;
    await (bluetooth_gatt_write address_as_int (handle characteristic) data response) r)).

(** Lines 652-663 *)
Definition write_gatt_descriptor (handle : Z) (data : list Byte.byte) (r : reply unit)
  : M unit :=
  verify_connected (api_error_as_bleak_error (
    address_as_int <- gets _address_as_int ;;
    (* wait_for_response is left at the default of the remote client *)
    await (bluetooth_gatt_write_descriptor address_as_int handle data true) r)).

(** Lines 665-749 *)
Definition start_notify (characteristic : BleakGATTCharacteristicESPHome)
  (r : reply notify_cancel) (w : reply unit) : M unit :=
  verify_connected (api_error_as_bleak_error (
    let ble_handle := handle characteristic in
    enabled <- gets (λ s, bool_decide (is_Some (_notify_cancels s !! ble_handle))) ;;
    if enabled : bool then
      raise (BleakError ("Notifications are already enabled on service:"
                         +:+ service_uuid characteristic +:+ " characteristic:"
                         +:+ uuid characteristic +:+ " handle:" +:+ pretty ble_handle))
    else if negb (bool_decide ("notify" ∈ properties characteristic))
            && negb (bool_decide ("indicate" ∈ properties characteristic)) then
      raise (BleakError ("Characteristic " +:+ uuid characteristic
                         +:+ " does not have notify or indicate property set."))
    else
      address_as_int <- gets _address_as_int ;;
      cancel <- await (bluetooth_gatt_start_notify address_as_int ble_handle) r ;;
      modify (λ s, set_notify_cancels (<[ble_handle := cancel]> (_notify_cancels s)) s) ;;;
      feature_flags <- gets _feature_flags ;;
      if negb (has_feature feature_flags BluetoothProxyFeature.REMOTE_CACHING) then ret tt
      else
        match get_descriptor characteristic CCCD_UUID with
        | None =>
            raise (BleakError ("Characteristic " +:+ uuid characteristic
                               +:+ " does not have a characteristic client config descriptor."))
        | Some cccd_descriptor =>
            let supports_notify := bool_decide ("notify" ∈ properties characteristic) in
            await (bluetooth_gatt_write_descriptor address_as_int (desc_handle cccd_descriptor)
                     (if supports_notify then CCCD_NOTIFY_BYTES else CCCD_INDICATE_BYTES)
                     false) w
        end)).

(** Lines 751-770 *)
Definition stop_notify (char_specifier : char_specifier) (r : reply unit) : M unit :=
  verify_connected (api_error_as_bleak_error (
    characteristic <- _resolve_characteristic char_specifier ;;
    popped <- gets (λ s, _notify_cancels s !! handle characteristic) ;;
    modify (λ s, set_notify_cancels (delete (handle characteristic) (_notify_cancels s)) s) ;;;
    match popped with
    | Some cancel => await (notify_stop cancel) r
    | None => ret tt
    end)).

(** ** Runs of a client *)

Definition exec_call (c : call) (s : ESPHomeClient) : ESPHomeClient :=
  match c with
  | Connect d t env => (connect d t env s).1
  | Disconnect env => (disconnect env s).1
  | Pair r => (pair r s).1
  | Unpair r => (unpair r s).1
  | GetServices d r => (get_services d r s).1
  | ClearCache r => (clear_cache r s).1
  | ReadGattChar sp r => (read_gatt_char sp r s).1
  | ReadGattDescriptor h r => (read_gatt_descriptor h r s).1
  | WriteGattChar sp data response r => (write_gatt_char sp data response r s).1
  | WriteGattDescriptor h data r => (write_gatt_descriptor h data r s).1
  | StartNotify c r w => (start_notify c r w s).1
  | StopNotify sp r => (stop_notify sp r s).1
  end.

Definition exec_step (st : step) (s : ESPHomeClient) : ESPHomeClient :=
  match st with
  | Call c => exec_call c s
  | Event ev => handle_event ev s
  end.

Definition exec (steps : list step) (s : ESPHomeClient) : ESPHomeClient :=
  foldl (λ s st, exec_step st s) s steps.

(** ** The notions the properties are about *)

Definition is_disconnected_callback (e : effect) : bool :=
  match e with
  | DisconnectedCallback _ => true
  | _ => false
  end.

(** How often the disconnect callback of the bleak consumer has been called. *)
Definition callback_calls (s : ESPHomeClient) : nat :=
  length (filter (λ e, is_disconnected_callback e = true) (trace s)).



(** [_get_services] goes to the remote client: the cache is not consulted,
    or it has no topology for the peer. *)
Definition cache_miss (dangerous_use_bleak_cache : bool) (s : ESPHomeClient) : Prop :=
  has_feature (_feature_flags s) BluetoothProxyFeature.REMOTE_CACHING
    || dangerous_use_bleak_cache = false
  ∨ get_gatt_services_cache (_address_as_int s) (_cache s) = None.

(** The answers to a disconnect that goes through: the request returns and
    a slot is or becomes free. *)
Definition disconnect_succeeds (env : disconnect_env) : Prop :=
  result (disconnect_reply env) = Return tt ∧ result (disconnect_slot env) = Return tt.

(** No signal reports connected while the teardown is in flight. *)
Definition teardown_quiet (env : disconnect_env) : Prop :=
  no_connected_signal (during (disconnect_reply env)) = true
  ∧ no_connected_signal (during (disconnect_slot env)) = true.

(** The characteristic that the discovery builds for a characteristic of
    the tree (lines 519-524). *)
Definition wrap_characteristic (max_write_without_response : Z)
  (service : BluetoothGATTService) (characteristic : BluetoothGATTCharacteristic)
  : BleakGATTCharacteristicESPHome :=
  {| characteristic_obj := characteristic;
     max_write_without_response_size := max_write_without_response;
     service_uuid := svc_uuid service;
     service_handle := svc_handle service |}.

(** The client as [register_disconnected_future] leaves it. *)
Definition registered (s : ESPHomeClient) : ESPHomeClient :=
  (register_disconnected_future s).1.

Definition waiter_of (s : ESPHomeClient) : future :=
  fresh (dom (futures s) ∪ _disconnected_futures s).


(** The client after a disconnect whose two awaits return. *)
Definition disconnected (env : disconnect_env) (s : ESPHomeClient) : ESPHomeClient :=
  let s1 := run_events (during (disconnect_reply env))
              (emit (Await (bluetooth_device_disconnect (_address_as_int s)))
                 (_async_disconnected_cleanup s)) in
  if negb (ble_connections_free s1 =? 0) then s1
  else run_events (during (disconnect_slot env))
         (emit (Await (wait_for_ble_connections_free DISCONNECT_TIMEOUT)) s1).

(** The trace only grows. *)
Definition trace_extends : relation ESPHomeClient :=
  λ s s', trace s `prefix_of` trace s'.

(** An MTU that is set (neither [None] nor 0) stays as it is. *)
Definition keeps_mtu : relation ESPHomeClient :=
  λ s s', mtu_falsy (_mtu s) = false → _mtu s' = _mtu s.

(** The calls of the disconnect callback so far, plus the one that is still
    possible while the callback is registered. *)
Definition callback_budget (s : ESPHomeClient) : nat :=
  (callback_calls s + match _disconnected_callback s with Some _ => 1 | None => 0 end)%nat.

Definition spends_callback : relation ESPHomeClient :=
  λ s s', (callback_budget s' ≤ callback_budget s)%nat.



(** What __init__ fixed is not touched. *)
Definition same_identity : relation ESPHomeClient :=
  λ s s', _address_as_int s' = _address_as_int s ∧ _feature_flags s' = _feature_flags s.

(** A coroutine respects a relation on clients when the client it leaves is
    related to the one it found, whatever its outcome. *)
Definition respects (R : relation ESPHomeClient) {A} (m : M A) : Prop :=
  ∀ s, R s (m s).1.

(** A relation that holds across every elementary update the methods make,
    apart from the reload of the MTU at the start of [connect].  The set of
    waiters is updated in two ways: the cleanup clears it, and a wrapped
    call puts its waiter in and takes it out again. *)
Record stable (R : relation ESPHomeClient) : Prop := mkStable {
  stable_refl : ∀ s, R s s;
  stable_trans : ∀ s1 s2 s3, R s1 s2 → R s2 s3 → R s1 s3;
  stable_emit : ∀ e s, is_disconnected_callback e = false → R s (emit e s);
  stable_futures : ∀ v s, R s (set_futures v s);
  stable_clear_disconnected_futures : ∀ s, R s (set_disconnected_futures ∅ s);
  stable_verify_connected : ∀ A (func : M A),
    respects R func → respects R (verify_connected func);
  stable_services : ∀ v s, R s (set_services v s);
  stable_notify_cancels : ∀ v s, R s (set_notify_cancels v s);
  stable_cancel_connection_state : ∀ v s, R s (set_cancel_connection_state v s);
  stable_ble_connections_free : ∀ v s, R s (set_ble_connections_free v s);
  stable_disconnect_callbacks : ∀ v s, R s (set_disconnect_callbacks v s);
  stable_is_connected : ∀ v s, R s (set_is_connected v s);
  stable_call_callback : ∀ s, R s (_async_call_bleak_disconnected_callback s);
  stable_latch : ∀ a mtu s, mtu_falsy (_mtu s) = true →
    R s (set_cache (set_gatt_mtu_cache a mtu (_cache (set_mtu (Some mtu) s)))
           (set_mtu (Some mtu) s));
  stable_cache_put : ∀ a max_write svcs s, svcs ≠ [] →
    R s (set_cache (set_gatt_services_cache a (build_services max_write svcs) (_cache s)) s);
  stable_cache_clear_services : ∀ a s,
    R s (set_cache (clear_gatt_services_cache a (_cache s)) s);
  stable_cache_clear_mtu : ∀ a s,
    R s (set_cache (clear_gatt_mtu_cache a (_cache s)) s)
}.

(** ** More notions: requests, frames, addresses *)

(** The hexadecimal digits of an address, in order, each by its value. *)
Definition hex_digits (address : string) : list Z :=
  omap digit_value (String.list_ascii_of_string address).

(** The number that a row of digits writes in base 16. *)
Definition hex_value (digits : list Z) : Z :=
  foldl (λ value d, value * 16 + d) 0 digits.

(** An address written with hexadecimal digits and colons only. *)
Definition colon_separated (address : string) : Prop :=
  Forall (λ c, c = ":"%char ∨ is_Some (digit_value c)) (String.list_ascii_of_string address).

(** Lines 772-785.  [loop_is_closed] is the answer of
    [self._loop.is_closed()].  Beside the client, the result holds the
    callback that the finalizer hands to the loop with
    [call_soon_threadsafe], for the loop to run later. *)
Definition __del__ (loop_is_closed : bool) (s : ESPHomeClient)
  : ESPHomeClient * option (ESPHomeClient → ESPHomeClient) :=
  let s :=
    match _cancel_connection_state s with
    | Some _ =>
        emit (Warning (_source_name s +:+ ": " +:+ name (_ble_device s) +:+ " - "
                       +:+ address (_ble_device s)
                       +:+ ": ESPHomeClient bleak client was not properly"
                       +:+ " disconnected before destruction")) s
    | None => s
    end in
  (s, if loop_is_closed then None else Some _async_disconnected_cleanup).

(** The calls of the collaborators that the client has awaited so far, in
    the order of the awaits. *)
Definition requests (s : ESPHomeClient) : list awaited :=
  omap (λ e, match e with Await c => Some c | _ => None end) (trace s).

(** The client is as it was; only the loop may hold other futures. *)
Definition untouched (s s' : ESPHomeClient) : Prop :=
  s' = set_futures (futures s') s.

(** The errors of aioesphomeapi. *)
Definition is_api_error (e : exn) : bool :=
  match e with
  | TimeoutAPIError _ | BluetoothGATTAPIError _ _ | APIConnectionError _ => true
  | _ => false
  end.

Definition raised {A} (x : ESPHomeClient * outcome A) : option exn :=
  match x.2 with
  | Raise e => Some e
  | Return _ => None
  end.

(** The exception that a call of a public method ends with, if any. *)
Definition call_raises (c : call) (s : ESPHomeClient) : option exn :=
  match c with
  | Connect d t env => raised (connect d t env s)
  | Disconnect env => raised (disconnect env s)
  | Pair r => raised (pair r s)
  | Unpair r => raised (unpair r s)
  | GetServices d r => raised (get_services d r s)
  | ClearCache r => raised (clear_cache r s)
  | ReadGattChar sp r => raised (read_gatt_char sp r s)
  | ReadGattDescriptor h r => raised (read_gatt_descriptor h r s)
  | WriteGattChar sp data response r => raised (write_gatt_char sp data response r s)
  | WriteGattDescriptor h data r => raised (write_gatt_descriptor h data r s)
  | StartNotify c r w => raised (start_notify c r w s)
  | StopNotify sp r => raised (stop_notify sp r s)
  end.

(** A relation that holds across everything the link-drop handling does. *)
Record drop_stable (R : relation ESPHomeClient) : Prop := mkDropStable {
  drop_refl : ∀ s, R s s;
  drop_trans : ∀ s1 s2 s3, R s1 s2 → R s2 s3 → R s1 s3;
  drop_device_disconnected : ∀ s, R s (_async_ble_device_disconnected s);
  drop_set_exception : ∀ f msg s,
    done (futures s) f = false → R s (set_exception f (BleakError msg) s);
  drop_disconnect_callbacks : ∀ v s, R s (set_disconnect_callbacks v s);
  drop_connections_free : ∀ v s, R s (set_ble_connections_free v s)
}.

(** A relation that holds across everything the handlers of the events do. *)
Record event_stable (R : relation ESPHomeClient) : Prop := mkEventStable {
  event_drop : drop_stable R;
  event_connected : ∀ s, R s (set_is_connected true s);
  event_latch : ∀ mtu s, mtu_falsy (_mtu s) = true →
    R s (set_cache (set_gatt_mtu_cache (_address_as_int s) mtu (_cache s))
           (set_mtu (Some mtu) s));
  event_set_result : ∀ f s,
    done (futures s) f = false → R s (set_result f (VBool true) s)
}.

(** What no event changes: who the client is and whom it talks to, the
    requests it has made, the topologies of the cache and the MTUs that the
    cache holds for other peers.  And what an event can only clear: the
    subscription to the connection state, the registry of notifications, the
    topology of the client, the disconnect callback of the consumer. *)
Definition event_frame : relation ESPHomeClient := λ s s',
  (_ble_device s' = _ble_device s ∧ _source_name s' = _source_name s
   ∧ _address_as_int s' = _address_as_int s ∧ _address_type s' = _address_type s
   ∧ _feature_flags s' = _feature_flags s ∧ _timeout s' = _timeout s
   ∧ device_name s' = device_name s)
  ∧ requests s' = requests s
  ∧ _gatt_services_cache (_cache s') = _gatt_services_cache (_cache s)
  ∧ (∀ a, a ≠ _address_as_int s →
       _gatt_mtu_cache (_cache s') !! a = _gatt_mtu_cache (_cache s) !! a)
  ∧ (_cancel_connection_state s' = _cancel_connection_state s
     ∨ _cancel_connection_state s' = None)
  ∧ (_notify_cancels s' = _notify_cancels s ∨ _notify_cancels s' = ∅)
  ∧ (services s' = services s ∨ services s' = Some empty_collection)
  ∧ (_disconnected_callback s' = _disconnected_callback s
     ∨ _disconnected_callback s' = None).

(** The client holds what it held; the loop may hold other futures and the
    trace may have grown. *)
Definition same_attributes (s s' : ESPHomeClient) : Prop :=
  s' = set_trace (trace s') (set_futures (futures s') s).

(** The cache and the MTU of the client are what they were. *)
Definition keeps_cache : relation ESPHomeClient :=
  λ s s', _cache s' = _cache s ∧ _mtu s' = _mtu s.

(** What the cleanup has cleared stays cleared. *)
Definition stays_clean : relation ESPHomeClient := λ s s',
  (_cancel_connection_state s = None → _cancel_connection_state s' = None)
  ∧ (_notify_cancels s = ∅ → _notify_cancels s' = ∅)
  ∧ (_disconnected_futures s = ∅ → _disconnected_futures s' = ∅)
  ∧ (services s = Some empty_collection → services s' = Some empty_collection).

(** A disconnected client stays disconnected; the callback of the consumer
    is not called, and the MTU and the cache stay as they are. *)
Definition stays_silent : relation ESPHomeClient := λ s s',
  _is_connected s = false →
  _is_connected s' = false
  ∧ callback_calls s' = callback_calls s
  ∧ _disconnected_callback s' = _disconnected_callback s
  ∧ _mtu s' = _mtu s
  ∧ _cache s' = _cache s.

(** The connect request that [connect] sends from a client (lines 328-347). *)
Definition connect_request (dangerous_use_bleak_cache : bool) (timeout : option Z)
  (s : ESPHomeClient) : awaited :=
  bluetooth_device_connect (_address_as_int s) (default (_timeout s) timeout)
    (dangerous_use_bleak_cache
     && has_feature (_feature_flags s) BluetoothProxyFeature.REMOTE_CACHING
     && bool_decide (is_Some (get_gatt_services_cache (_address_as_int s) (_cache s)))
     && negb (mtu_falsy (_mtu s)))
    (_feature_flags s) (_address_type s).

(** The peer, the features of the proxy and the topologies of the cache are
    what they were. *)
Definition same_topologies : relation ESPHomeClient := λ s s',
  _address_as_int s' = _address_as_int s
  ∧ _feature_flags s' = _feature_flags s
  ∧ _gatt_services_cache (_cache s') = _gatt_services_cache (_cache s).

(** A future whose result [drain] can retrieve: it is pending, or holds a
    value or a [BleakError]. *)
Definition retrievable (f : future) (s : ESPHomeClient) : Prop :=
  match futures s !! f with
  | Some (Exception e) => is_BleakError e = true
  | Some (Cancelled _) => False
  | _ => True
  end.

Definition stays_retrievable (f : future) : relation ESPHomeClient :=
  λ s s', retrievable f s → retrievable f s'.

(** A future that is done stays done, and a subscription to the connection
    state is not made. *)
Definition settles (f : future) : relation ESPHomeClient := λ s s',
  (done (futures s) f = true → done (futures s') f = true)
  ∧ (_cancel_connection_state s = None → _cancel_connection_state s' = None).

End Client.

(** ** A client and its environment, for the examples *)

(** A sample of the three tables. *)
Definition example_tables : ErrorTables :=
  {| BLEConnectionError := {[ 8 := "ESP_GATT_CONN_TIMEOUT" ]};
     ESP_CONNECTION_ERROR_DESCRIPTION := {[ 8 := "Connection timed out" ]};
     ESPHOME_GATT_ERRORS := {[ 133 := "Error" ]} |}.

Section Examples.

#[local] Existing Instance example_tables.

(** The client as __init__ leaves it, for the peer AA:BB:CC:DD:EE:FF behind
    a proxy without optional features, with a disconnect callback of the
    consumer registered and an empty cache. *)
Definition new_client : ESPHomeClient :=
  mkESPHomeClient
    {| name := "Thermometer"; address := "AA:BB:CC:DD:EE:FF" |}
    "proxy [11:22:33:44:55:66]" 187723572702975 0 0 10 "proxy"
    None false None None ∅ ∅ (Some 0%nat)
    [] {| _gatt_services_cache := ∅; _gatt_mtu_cache := ∅ |} 3 ∅ [].

Definition battery_service : BluetoothGATTService :=
  {| svc_uuid := "0000180f-0000-1000-8000-00805f9b34fb";
     svc_handle := 1;
     svc_characteristics :=
       [ {| char_uuid := "00002a19-0000-1000-8000-00805f9b34fb";
            char_handle := 2;
            char_properties := ["read"; "notify"];
            char_descriptors := [ {| desc_uuid := CCCD_UUID; desc_handle := 3 |} ] |} ] |}.

Definition returns {A} (a : A) : reply A := mkReply [] (Return a).

Definition one_service : reply ESPHomeBluetoothGATTServices :=
  returns {| gatt_address := 187723572702975; gatt_services := [battery_service] |}.

Definition no_service : reply ESPHomeBluetoothGATTServices :=
  returns {| gatt_address := 187723572702975; gatt_services := [] |}.

Definition disconnect_ok : disconnect_env :=
  mkDisconnectEnv (returns tt) (returns tt).

(** The peer connects with the MTU [mtu]: the remote client delivers the
    signal while the connect request is awaited, and the discovery is
    answered with [services]. *)
Definition connects_with (mtu : Z) (services : reply ESPHomeBluetoothGATTServices)
  : connect_env :=
  mkConnectEnv (returns tt)
    (λ f, mkReply [ConnectionState f true mtu 0] (Return UnsubscribeReturns))
    (λ _, [])
    (λ _, services)
    (λ _, disconnect_ok).

(** The peer does not connect: the only signal reports disconnected, with
    the error code [error]. *)
Definition fails_with (error : Z) : connect_env :=
  mkConnectEnv (returns tt)
    (λ f, mkReply [ConnectionState f false 0 error] (Return UnsubscribeReturns))
    (λ _, [])
    (λ _, one_service)
    (λ _, disconnect_ok).

(** The client after its first connect, with an MTU of 185. *)
Definition connected_client : ESPHomeClient :=
  (connect false None (connects_with 185 one_service) new_client).1.


(** The remote client reports that the peer is gone. *)
Definition not_connected : reply (list Byte.byte) :=
  mkReply [] (Raise (BluetoothGATTAPIError (-1) "Not connected")).


(** The new client with the future of a connect created. *)
Definition connecting_client : ESPHomeClient := (create_future new_client).1.

(** The new client once it has learnt an MTU of 185. *)
Definition client_with_mtu_185 : ESPHomeClient := set_mtu (Some 185) new_client.

(** The new client once it has learnt an MTU of 247. *)
Definition client_with_mtu_247 : ESPHomeClient := set_mtu (Some 247) new_client.

(** The characteristic of the battery level as the discovery of the
    connected client built it, with the write size of an MTU of 185. *)
Definition battery_level : BleakGATTCharacteristicESPHome :=
  {| characteristic_obj :=
       {| char_uuid := "00002a19-0000-1000-8000-00805f9b34fb";
          char_handle := 2;
          char_properties := ["read"; "notify"];
          char_descriptors := [ {| desc_uuid := CCCD_UUID; desc_handle := 3 |} ] |};
     max_write_without_response_size := 182;
     service_uuid := "0000180f-0000-1000-8000-00805f9b34fb";
     service_handle := 1 |}.

(** A characteristic that can only be read. *)
Definition model_number : BleakGATTCharacteristicESPHome :=
  {| characteristic_obj :=
       {| char_uuid := "00002a24-0000-1000-8000-00805f9b34fb";
          char_handle := 5;
          char_properties := ["read"];
          char_descriptors := [] |};
     max_write_without_response_size := 182;
     service_uuid := "0000180a-0000-1000-8000-00805f9b34fb";
     service_handle := 4 |}.

(** A characteristic that can indicate and has no client configuration
    descriptor. *)
Definition service_changed : BleakGATTCharacteristicESPHome :=
  {| characteristic_obj :=
       {| char_uuid := "00002a05-0000-1000-8000-00805f9b34fb";
          char_handle := 7;
          char_properties := ["indicate"];
          char_descriptors := [] |};
     max_write_without_response_size := 182;
     service_uuid := "00001801-0000-1000-8000-00805f9b34fb";
     service_handle := 6 |}.

(** The new client behind a proxy with remote caching, pairing and cache
    clearing. *)
Definition full_proxy_client : ESPHomeClient :=
  mkESPHomeClient
    {| name := "Thermometer"; address := "AA:BB:CC:DD:EE:FF" |}
    "proxy [11:22:33:44:55:66]" 187723572702975 0 28 10 "proxy"
    None false None None ∅ ∅ (Some 0%nat)
    [] {| _gatt_services_cache := ∅; _gatt_mtu_cache := ∅ |} 3 ∅ [].

(** The connected client with the notifications of the battery level on. *)
Definition notifying_client : ESPHomeClient :=
  (start_notify battery_level (returns 1%nat) (returns tt) connected_client).1.

(** The client behind the full proxy after a connect with an MTU of 185 and
    a disconnect: the cache holds the topology and the MTU of the peer. *)
Definition cached_client : ESPHomeClient :=
  (disconnect disconnect_ok
     (connect false None (connects_with 185 one_service) full_proxy_client).1).1.

(** The new client behind a proxy that has no connection slot left. *)
Definition crowded_client : ESPHomeClient := set_ble_connections_free 0 new_client.

(** No slot gets free in time. *)
Definition no_slot : connect_env :=
  mkConnectEnv (mkReply [] (Raise (TimeoutError "")))
    (λ f, mkReply [ConnectionState f true 185 0] (Return UnsubscribeReturns))
    (λ _, [])
    (λ _, one_service)
    (λ _, disconnect_ok).

(** The remote client gives up the connect request before a signal of the
    peer arrives. *)
Definition request_times_out : connect_env :=
  mkConnectEnv (returns tt)
    (λ _, mkReply [] (Raise (TimeoutAPIError "Timeout waiting for connect response")))
    (λ _, [])
    (λ _, one_service)
    (λ _, disconnect_ok).

End Examples.

(** * Properties *)

Section Properties.

Context `{tables : ErrorTables}.

(** ** The effects of the synchronous methods, field by field *)

Lemma set_trace_id (s : ESPHomeClient) : set_trace (trace s) s = s.
Proof. by destruct s. Qed.

Lemma abort_all_eq (s : ESPHomeClient) :
  abort_all s
  = set_trace
      (trace s ++ ((λ kv, NotifyAbort kv.2) <$> map_to_list (_notify_cancels s))) s.
Proof.
  unfold abort_all.
  generalize (map_to_list (_notify_cancels s)). intros l.
  revert s. induction l as [|kv l IH]; intros s.
  - simpl. by rewrite app_nil_r, set_trace_id.
  - simpl. rewrite IH. unfold emit, set_trace. simpl.
    by rewrite <- app_assoc.
Qed.

Lemma resolve_all_lookup (W : gset future) (fs : gmap future future_state) (f : future) :
  resolve_all W fs !! f
  = if decide (f ∈ W) then (if done fs f then fs !! f else Some (Result VNone))
    else fs !! f.
Proof.
  set (P := λ (r : gmap future future_state) (X : gset future),
    ∀ f, r !! f
         = if decide (f ∈ X) then (if done fs f then fs !! f else Some (Result VNone))
           else fs !! f).
  assert (H : P (resolve_all W fs) W); [|exact (H f)].
  clear f. unfold resolve_all. apply (set_fold_ind_L P); unfold P.
  - intros f. by rewrite decide_False by set_solver.
  - intros x X r Hx IH f.
    assert (Hdx : done r x = done fs x).
    { unfold done. rewrite IH. by rewrite decide_False. }
    rewrite Hdx. destruct (decide (f = x)) as [->|Hne].
    + rewrite decide_True by set_solver.
      destruct (done fs x) eqn:Hd.
      * rewrite IH. by rewrite decide_False.
      * by rewrite lookup_insert_eq.
    + assert (Hr : (if done fs x then r else <[x:=Result VNone]> r) !! f = r !! f).
      { destruct (done fs x); [done|]. by rewrite lookup_insert_ne. }
      rewrite Hr, IH.
      destruct (decide (f ∈ X)).
      * rewrite decide_True; [done|]. apply elem_of_union. by right.
      * rewrite decide_False; [done|].
        rewrite elem_of_union, elem_of_singleton. intros [?|?]; contradiction.
Qed.

Lemma resolve_all_done (W : gset future) (fs : gmap future future_state) (f : future) :
  f ∈ W → done (resolve_all W fs) f = true.
Proof.
  intros Hf. unfold done at 1. rewrite resolve_all_lookup, decide_True by done.
  destruct (done fs f) eqn:Hd; [|done].
  unfold done in Hd. by destruct (fs !! f) as [[]|].
Qed.

Lemma resolve_all_keeps_done (W : gset future) (fs : gmap future future_state) (f : future) :
  done fs f = true → resolve_all W fs !! f = fs !! f.
Proof.
  intros Hd. rewrite resolve_all_lookup. rewrite Hd. by destruct (decide _).
Qed.

Lemma resolve_all_empty (fs : gmap future future_state) : resolve_all ∅ fs = fs.
Proof. unfold resolve_all. by rewrite set_fold_empty. Qed.

Lemma cleanup_eq (s : ESPHomeClient) :
  _async_disconnected_cleanup s
  = mkESPHomeClient (_ble_device s) (_source_name s) (_address_as_int s) (_address_type s)
      (_feature_flags s) (_timeout s) (device_name s)
      (Some empty_collection) false (_mtu s) None ∅ ∅ (_disconnected_callback s)
      (_disconnect_callbacks s) (_cache s) (ble_connections_free s)
      (resolve_all (_disconnected_futures s) (futures s))
      ((trace s ++ ((λ kv, NotifyAbort kv.2) <$> map_to_list (_notify_cancels s)))
       ++ match _cancel_connection_state s with
          | Some cancel => [Unsubscribe cancel]
          | None => []
          end).
Proof.
  unfold _async_disconnected_cleanup. rewrite abort_all_eq.
  destruct s as [? ? ? ? ? ? ? ? ? ? cancel ? ? ? ? ? ? ? ?]. simpl.
  unfold _unsubscribe_connection_state. simpl.
  destruct cancel; simpl; [done|]. by rewrite app_nil_r.
Qed.

Lemma cleanup_is_connected s : _is_connected (_async_disconnected_cleanup s) = false.
Proof. by rewrite cleanup_eq. Qed.

Lemma cleanup_services s : services (_async_disconnected_cleanup s) = Some empty_collection.
Proof. by rewrite cleanup_eq. Qed.

Lemma cleanup_notify_cancels s : _notify_cancels (_async_disconnected_cleanup s) = ∅.
Proof. by rewrite cleanup_eq. Qed.

Lemma cleanup_disconnected_futures s :
  _disconnected_futures (_async_disconnected_cleanup s) = ∅.
Proof. by rewrite cleanup_eq. Qed.

Lemma cleanup_futures s :
  futures (_async_disconnected_cleanup s)
  = resolve_all (_disconnected_futures s) (futures s).
Proof. by rewrite cleanup_eq. Qed.

Lemma cleanup_cancel_connection_state s :
  _cancel_connection_state (_async_disconnected_cleanup s) = None.
Proof. by rewrite cleanup_eq. Qed.

Lemma cleanup_idempotent s :
  _async_disconnected_cleanup (_async_disconnected_cleanup s)
  = _async_disconnected_cleanup s.
Proof.
  rewrite (cleanup_eq (_async_disconnected_cleanup s)).
  rewrite cleanup_eq. simpl.
  by rewrite resolve_all_empty, map_to_list_empty, !app_nil_r.
Qed.

(** Cleaning up a client that is already clean does nothing at all. *)
Lemma cleanup_clean s :
  services s = Some empty_collection → _is_connected s = false →
  _notify_cancels s = ∅ → _disconnected_futures s = ∅ →
  _cancel_connection_state s = None →
  _async_disconnected_cleanup s = s.
Proof.
  intros H1 H2 H3 H4 H5. rewrite cleanup_eq.
  rewrite H3, H4, H5, resolve_all_empty, map_to_list_empty. simpl.
  rewrite !app_nil_r. destruct s; simpl in *. by subst.
Qed.

Lemma ble_device_disconnected_eq s :
  _async_ble_device_disconnected s
  = if _is_connected s
    then _async_call_bleak_disconnected_callback (_async_disconnected_cleanup s)
    else _async_disconnected_cleanup s.
Proof. done. Qed.

Lemma call_callback_is_connected s :
  _is_connected (_async_call_bleak_disconnected_callback s) = _is_connected s.
Proof. unfold _async_call_bleak_disconnected_callback. by destruct (_disconnected_callback s). Qed.

Lemma ble_device_disconnected_is_connected s :
  _is_connected (_async_ble_device_disconnected s) = false.
Proof.
  rewrite ble_device_disconnected_eq. destruct (_is_connected s).
  - by rewrite call_callback_is_connected, cleanup_is_connected.
  - apply cleanup_is_connected.
Qed.

(** ** The waiter of a wrapped call *)

Lemma create_future_fresh s :
  (create_future s).2 = Return (fresh (dom (futures s) ∪ _disconnected_futures s)).
Proof. done. Qed.

Lemma fresh_future_not_waiting s :
  fresh (dom (futures s) ∪ _disconnected_futures s) ∉ _disconnected_futures s.
Proof.
  intros H. apply (is_fresh (dom (futures s) ∪ _disconnected_futures s)).
  apply elem_of_union. by right.
Qed.

Lemma register_disconnected_future_eq s :
  register_disconnected_future s = (registered s, Return (waiter_of s)).
Proof. done. Qed.

Lemma registered_eq s :
  registered s
  = set_disconnected_futures ({[waiter_of s]} ∪ _disconnected_futures s)
      (set_futures (<[waiter_of s := Pending]> (futures s)) s).
Proof. done. Qed.

Lemma verify_connected_eq {A} (func : M A) s :
  verify_connected func s
  = let '(s1, r) := func (registered s) in
    (discard_disconnected_future (waiter_of s) s1,
     match r with
     | Raise CancelledError =>
         if done (futures s1) (waiter_of s)
         then Raise (BleakError (disconnect_message s))
         else Raise CancelledError
     | _ => r
     end).
Proof.
  unfold verify_connected, bind. rewrite register_disconnected_future_eq.
  unfold gets, try_finally, interrupt.
  destruct (func (registered s)) as [s1 [a|[]]]; try done.
  change (disconnect_message (registered s)) with (disconnect_message s).
  by destruct (done (futures s1) (waiter_of s)).
Qed.

(** A relation that holds across every update of the futures and of the set
    of waiters holds across the wrapper. *)
Lemma verify_connected_respects (R : relation ESPHomeClient) :
  (∀ s1 s2 s3, R s1 s2 → R s2 s3 → R s1 s3) →
  (∀ v s, R s (set_futures v s)) →
  (∀ v s, R s (set_disconnected_futures v s)) →
  ∀ A (func : M A), respects R func → respects R (verify_connected func).
Proof.
  intros Htrans Hfutures Hwaiters A func Hfunc s.
  rewrite verify_connected_eq. specialize (Hfunc (registered s)).
  destruct (func (registered s)) as [s1 r]. simpl in *.
  eapply Htrans; [|apply Hwaiters].
  eapply Htrans; [|exact Hfunc].
  rewrite registered_eq.
  eapply Htrans; [apply Hfutures|apply Hwaiters].
Qed.

(** ** Relations that the methods respect *)

Section Respects.

Variable R : relation ESPHomeClient.
Hypothesis HR : stable R.

Lemma respects_ret {A} (a : A) : respects R (ret a).
Proof. intros s. apply HR. Qed.

Lemma respects_raise {A} (e : exn) : respects R (raise (A:=A) e).
Proof. intros s. apply HR. Qed.

Lemma respects_gets {A} (f : ESPHomeClient → A) : respects R (gets f).
Proof. intros s. apply HR. Qed.

Lemma respects_modify (f : ESPHomeClient → ESPHomeClient) :
  (∀ s, R s (f s)) → respects R (modify f).
Proof. intros Hf s. apply Hf. Qed.

Lemma respects_bind {A B} (m : M A) (k : A → M B) :
  respects R m → (∀ a, respects R (k a)) → respects R (bind m k).
Proof.
  intros Hm Hk s. unfold bind. specialize (Hm s).
  destruct (m s) as [s' [a|e]]; simpl in *; [|done].
  eapply (stable_trans R HR); [exact Hm|apply Hk].
Qed.

Lemma respects_try_except {A} (body : M A) (handler : exn → M A) :
  respects R body → (∀ e, respects R (handler e)) → respects R (try_except body handler).
Proof.
  intros Hm Hk s. unfold try_except. specialize (Hm s).
  destruct (body s) as [s' [a|e]]; simpl in *; [done|].
  eapply (stable_trans R HR); [exact Hm|apply Hk].
Qed.

Lemma respects_try_finally {A} (body : M A) (final : ESPHomeClient → ESPHomeClient) :
  respects R body → (∀ s, R s (final s)) → respects R (try_finally body final).
Proof.
  intros Hm Hf s. unfold try_finally. specialize (Hm s).
  destruct (body s) as [s' r]; simpl in *.
  eapply (stable_trans R HR); [exact Hm|apply Hf].
Qed.

Lemma respects_suppress (caught : exn → bool) (body : M unit) :
  respects R body → respects R (suppress caught body).
Proof.
  intros Hm. apply respects_try_except; [done|].
  intros e. destruct (caught e); [apply respects_ret|apply respects_raise].
Qed.

Lemma respects_interrupt {A} (f : future) (e : exn) (body : M A) :
  respects R body → respects R (interrupt f e body).
Proof.
  intros Hm s. unfold interrupt. specialize (Hm s).
  destruct (body s) as [s' [a|[]]]; simpl in *; try done.
  by destruct (done (futures s') f).
Qed.

Lemma stable_unsubscribe s : R s (_unsubscribe_connection_state s).
Proof.
  unfold _unsubscribe_connection_state.
  destruct (_cancel_connection_state s); [|apply HR]. cbv zeta.
  eapply (stable_trans R HR); [|apply (stable_cancel_connection_state R HR)].
  by apply (stable_emit R HR).
Qed.

Lemma stable_abort_all s : R s (abort_all s).
Proof.
  unfold abort_all. generalize (map_to_list (_notify_cancels s)). intros l.
  revert s. induction l as [|kv l IH]; intros s; simpl; [apply HR|].
  eapply (stable_trans R HR); [|apply IH]. by apply (stable_emit R HR).
Qed.

Lemma stable_cleanup s : R s (_async_disconnected_cleanup s).
Proof.
  unfold _async_disconnected_cleanup. cbv zeta.
  eapply (stable_trans R HR); [|apply stable_unsubscribe].
  eapply (stable_trans R HR); [|apply (stable_clear_disconnected_futures R HR)].
  eapply (stable_trans R HR); [|apply (stable_futures R HR)].
  eapply (stable_trans R HR); [|apply (stable_notify_cancels R HR)].
  eapply (stable_trans R HR); [|apply stable_abort_all].
  eapply (stable_trans R HR); [|apply (stable_is_connected R HR)].
  apply (stable_services R HR).
Qed.

Lemma stable_ble_device_disconnected s : R s (_async_ble_device_disconnected s).
Proof.
  rewrite ble_device_disconnected_eq.
  destruct (_is_connected s); [|apply stable_cleanup].
  eapply (stable_trans R HR); [apply stable_cleanup|apply (stable_call_callback R HR)].
Qed.

Lemma respects_esp_disconnected : respects R _async_esp_disconnected.
Proof.
  intros s. unfold _async_esp_disconnected.
  destruct (list_remove _ _); simpl; [|apply HR].
  eapply (stable_trans R HR); [|apply stable_ble_device_disconnected].
  apply (stable_disconnect_callbacks R HR).
Qed.

Lemma stable_apply_connection_state connected mtu s :
  R s (apply_connection_state connected mtu s).
Proof.
  unfold apply_connection_state.
  destruct connected; [|apply stable_ble_device_disconnected]. cbv zeta.
  eapply (stable_trans R HR); [apply (stable_is_connected R HR) with (v := true)|].
  destruct (mtu_falsy _) eqn:Hm; [|apply HR].
  by apply (stable_latch R HR).
Qed.

Lemma stable_complete_connected_future f connected error s :
  R s (complete_connected_future f connected error s).
Proof.
  unfold complete_connected_future.
  destruct (done _ f); [apply HR|].
  destruct (negb (error =? 0)); [apply (stable_futures R HR)|].
  destruct (negb connected); [apply (stable_futures R HR)|]. cbv zeta.
  eapply (stable_trans R HR); [|apply (stable_futures R HR)].
  apply (stable_disconnect_callbacks R HR).
Qed.

Lemma stable_on_bluetooth_connection_state f connected mtu error s :
  R s (_on_bluetooth_connection_state f connected mtu error s).
Proof.
  unfold _on_bluetooth_connection_state. cbv zeta.
  eapply (stable_trans R HR); [apply stable_apply_connection_state|].
  apply stable_complete_connected_future.
Qed.

Lemma stable_handle_event ev s : R s (handle_event ev s).
Proof.
  destruct ev; simpl.
  - apply stable_on_bluetooth_connection_state.
  - apply respects_esp_disconnected.
  - apply (stable_ble_connections_free R HR).
Qed.

Lemma stable_run_events evs s : R s (run_events evs s).
Proof.
  unfold run_events. revert s. induction evs as [|ev evs IH]; intros s; simpl.
  - apply HR.
  - eapply (stable_trans R HR); [apply stable_handle_event|apply IH].
Qed.

Lemma respects_await {A} (c : awaited) (r : reply A) : respects R (await c r).
Proof.
  intros s. unfold await. simpl.
  eapply (stable_trans R HR); [|apply stable_run_events]. by apply (stable_emit R HR).
Qed.

Lemma respects_await_future (f : future) evs : respects R (await_future f evs).
Proof.
  intros s. unfold await_future. simpl.
  destruct (done (futures s) f); [apply HR|apply stable_run_events].
Qed.

Lemma respects_create_future : respects R create_future.
Proof. intros s. apply (stable_futures R HR). Qed.

Lemma stable_cancel_future f msg s : R s (cancel_future f msg s).
Proof.
  unfold cancel_future. destruct (done _ _); [apply HR|apply (stable_futures R HR)].
Qed.

Ltac respects_tac :=
  repeat match goal with
  | H : respects _ ?m |- respects _ ?m => exact H
  | |- respects _ (ret _) => apply respects_ret
  | |- respects _ (raise _) => apply respects_raise
  | |- respects _ (gets _) => apply respects_gets
  | |- respects _ (modify _) => apply respects_modify; intros ?
  | |- respects _ (bind _ _) => apply respects_bind; [|intros ?]
  | |- respects _ (try_except _ _) => apply respects_try_except; [|intros ?]
  | |- respects _ (try_finally _ _) => apply respects_try_finally; [|intros ?]
  | |- respects _ (suppress _ _) => apply respects_suppress
  | |- respects _ (interrupt _ _ _) => apply respects_interrupt
  | |- respects _ (await _ _) => apply respects_await
  | |- respects _ (await_future _ _) => apply respects_await_future
  | |- respects _ create_future => apply respects_create_future
  | |- respects _ (match ?x with _ => _ end) => destruct x eqn:?
  end.

Lemma respects_verify_connected {A} (func : M A) :
  respects R func → respects R (verify_connected func).
Proof.
  apply (stable_verify_connected R HR).
Qed.

Lemma respects_api_error_as_bleak_error {A} (func : M A) :
  respects R func → respects R (api_error_as_bleak_error func).
Proof.
  intros Hf. unfold api_error_as_bleak_error.
  respects_tac; try done; apply stable_ble_device_disconnected.
Qed.

Lemma respects_wait_for_free_connection_slot timeout w :
  respects R (_wait_for_free_connection_slot timeout w).
Proof. unfold _wait_for_free_connection_slot. respects_tac. Qed.

Lemma respects__disconnect env : respects R (_disconnect env).
Proof.
  unfold _disconnect. respects_tac;
    first [apply stable_cleanup|apply respects_wait_for_free_connection_slot].
Qed.

Lemma respects__get_services dangerous r : respects R (_get_services dangerous r).
Proof.
  unfold _get_services. apply respects_verify_connected. respects_tac.
  - apply (stable_services R HR).
  - apply (stable_services R HR).
  - apply (stable_cache_put R HR).
    match goal with H : no_services _ = false |- _ => unfold no_services in H end.
    by destruct (gatt_services _).
Qed.

Lemma respects_resolve_characteristic sp : respects R (_resolve_characteristic sp).
Proof. unfold _resolve_characteristic, get_characteristic. respects_tac. Qed.

Lemma respects_drain f : respects R (drain f).
Proof. unfold drain. respects_tac. Qed.

Lemma respects_open_connection dangerous timeout env :
  respects R (open_connection dangerous timeout env).
Proof.
  unfold open_connection.
  respects_tac;
    first [ apply (stable_cancel_connection_state R HR) | apply respects_drain
          | apply stable_cancel_future ].
Qed.

Lemma respects_establish_connection dangerous timeout env :
  (∀ s, R s (reload_mtu s)) → respects R (establish_connection dangerous timeout env).
Proof.
  intros Hreload. unfold establish_connection.
  respects_tac;
    first [ apply respects_wait_for_free_connection_slot | apply Hreload
          | apply respects_open_connection ].
Qed.

Lemma respects_discover_or_disconnect dangerous r env :
  respects R (discover_or_disconnect dangerous r env).
Proof.
  unfold discover_or_disconnect.
  respects_tac; first [apply respects__get_services|apply respects__disconnect].
Qed.

Lemma respects_connect dangerous timeout env :
  (∀ s, R s (reload_mtu s)) → respects R (connect dangerous timeout env).
Proof.
  intros Hreload. unfold connect. apply respects_api_error_as_bleak_error.
  respects_tac;
    first [ by apply respects_establish_connection
          | apply respects_discover_or_disconnect ].
Qed.

Lemma respects_call (c : call) s :
  is_connect (Call c) = false → R s (exec_call c s).
Proof.
  destruct c; simpl; [done|intros _..].
  - apply (respects_api_error_as_bleak_error _ (respects__disconnect env)).
  - unfold pair. apply respects_verify_connected, respects_api_error_as_bleak_error.
    respects_tac.
  - unfold unpair. apply respects_verify_connected, respects_api_error_as_bleak_error.
    respects_tac.
  - apply (respects_api_error_as_bleak_error _ (respects__get_services _ _)).
  - unfold clear_cache. apply respects_verify_connected, respects_api_error_as_bleak_error.
    respects_tac.
    + apply (stable_cache_clear_services R HR).
    + apply (stable_cache_clear_mtu R HR).
    + by apply (stable_emit R HR).
  - unfold read_gatt_char.
    apply respects_verify_connected, respects_api_error_as_bleak_error.
    respects_tac. apply respects_resolve_characteristic.
  - unfold read_gatt_descriptor.
    apply respects_verify_connected, respects_api_error_as_bleak_error. respects_tac.
  - unfold write_gatt_char.
    apply respects_verify_connected, respects_api_error_as_bleak_error.
    respects_tac. apply respects_resolve_characteristic.
  - unfold write_gatt_descriptor.
    apply respects_verify_connected, respects_api_error_as_bleak_error. respects_tac.
  - unfold start_notify.
    apply respects_verify_connected, respects_api_error_as_bleak_error.
    respects_tac; apply (stable_notify_cancels R HR).
  - unfold stop_notify.
    apply respects_verify_connected, respects_api_error_as_bleak_error.
    respects_tac;
      first [apply respects_resolve_characteristic|apply (stable_notify_cancels R HR)].
Qed.

Lemma respects_step (st : step) s :
  is_connect st = false → R s (exec_step st s).
Proof.
  destruct st as [c|ev]; simpl.
  - apply respects_call.
  - intros _. apply stable_handle_event.
Qed.


Lemma respects_exec_all (steps : list step) s :
  (∀ s, R s (reload_mtu s)) → R s (exec steps s).
Proof.
  intros Hreload. unfold exec. revert s.
  induction steps as [|st steps IH]; intros s; simpl; [apply HR|].
  eapply (stable_trans R HR); [|apply IH].
  destruct (is_connect st) eqn:Hc; [|by apply respects_step].
  destruct st as [[]|]; try done. simpl. by apply respects_connect.
Qed.

End Respects.

(** ** The relations at hand are stable *)

Lemma callback_calls_emit e s :
  callback_calls (emit e s)
  = (callback_calls s + if is_disconnected_callback e then 1 else 0)%nat.
Proof.
  unfold callback_calls, emit. simpl. rewrite filter_app, length_app. f_equal.
  destruct e; simpl; try done.
Qed.

Lemma trace_extends_stable : stable trace_extends.
Proof.
  assert (Hscoped : ∀ A (func : M A),
            respects trace_extends func → respects trace_extends (verify_connected func)).
  { apply verify_connected_respects; unfold trace_extends; intros;
      try (by destruct s); by etrans. }
  split; try exact Hscoped; clear Hscoped;
    unfold trace_extends; intros; try (by destruct s); try done.
  - by etrans.
  - simpl. by apply prefix_app_r.
  - unfold _async_call_bleak_disconnected_callback.
    destruct (_disconnected_callback s); [|done]. simpl. by apply prefix_app_r.
Qed.

Lemma keeps_mtu_stable : stable keeps_mtu.
Proof.
  assert (Htrans : ∀ s1 s2 s3, keeps_mtu s1 s2 → keeps_mtu s2 s3 → keeps_mtu s1 s3).
  { unfold keeps_mtu. intros s1 s2 s3 H12 H23 H1.
    rewrite H23; rewrite H12; done. }
  assert (Hscoped : ∀ A (func : M A),
            respects keeps_mtu func → respects keeps_mtu (verify_connected func)).
  { apply verify_connected_respects; [exact Htrans|..];
      unfold keeps_mtu; intros; by destruct s. }
  split; try exact Hscoped; try exact Htrans; clear Hscoped Htrans;
    unfold keeps_mtu; intros; try (by destruct s); try done.
  - unfold _async_call_bleak_disconnected_callback.
    by destruct (_disconnected_callback s).
  - congruence.
Qed.

Lemma spends_callback_stable : stable spends_callback.
Proof.
  assert (Hscoped : ∀ A (func : M A),
            respects spends_callback func → respects spends_callback (verify_connected func)).
  { apply verify_connected_respects; unfold spends_callback; intros;
      try (by destruct s); lia. }
  split; try exact Hscoped; clear Hscoped;
    unfold spends_callback; intros; try (by destruct s); try done.
  - lia.
  - unfold callback_budget. rewrite callback_calls_emit, H. simpl. lia.
  - unfold _async_call_bleak_disconnected_callback, callback_budget.
    destruct (_disconnected_callback s) eqn:Hcb; [|by rewrite Hcb].
    cbv zeta. change (_disconnected_callback (set_disconnected_callback None _)) with (@None nat).
    change (callback_calls (set_disconnected_callback None ?x)) with (callback_calls x).
    rewrite callback_calls_emit. simpl. lia.
Qed.

Lemma build_descriptors_services (f : BluetoothGATTDescriptor → BleakGATTDescriptorESPHome)
  ds acc :
  collection_services (foldl (λ services d, add_descriptor (f d) services) acc ds)
  = collection_services acc
  ∧ collection_characteristics (foldl (λ services d, add_descriptor (f d) services) acc ds)
    = collection_characteristics acc.
Proof. revert acc. induction ds as [|d ds IH]; intros acc; simpl; [done|]. by rewrite !(proj1 (IH _)), !(proj2 (IH _)). Qed.

Lemma same_identity_stable : stable same_identity.
Proof.
  assert (Htrans : ∀ s1 s2 s3,
            same_identity s1 s2 → same_identity s2 s3 → same_identity s1 s3).
  { unfold same_identity. intros s1 s2 s3 [? ?] [? ?]. split; congruence. }
  assert (Hscoped : ∀ A (func : M A),
            respects same_identity func → respects same_identity (verify_connected func)).
  { apply verify_connected_respects; [exact Htrans|..];
      unfold same_identity; intros; by destruct s. }
  split; try exact Hscoped; try exact Htrans; clear Hscoped Htrans;
    unfold same_identity; intros; try (by destruct s); try done.
  - unfold _async_call_bleak_disconnected_callback.
    by destruct (_disconnected_callback s).
Qed.

Lemma spends_callback_reload s : spends_callback s (reload_mtu s).
Proof. by unfold spends_callback. Qed.




(** *** What the three loops of the discovery build *)

Lemma build_characteristics_services
  (g : BluetoothGATTCharacteristic → BleakGATTCharacteristicESPHome)
  (f : BluetoothGATTCharacteristic → BluetoothGATTDescriptor → BleakGATTDescriptorESPHome)
  cs acc :
  let r := foldl (λ services c,
             foldl (λ services d, add_descriptor (f c d) services)
               (add_characteristic (g c) services) (char_descriptors c)) acc cs in
  collection_services r = collection_services acc
  ∧ collection_characteristics r = collection_characteristics acc ++ (g <$> cs).
Proof.
  revert acc. induction cs as [|c cs IH]; intros acc; simpl.
  - by rewrite app_nil_r.
  - destruct (IH (foldl (λ services d, add_descriptor (f c d) services)
                    (add_characteristic (g c) acc) (char_descriptors c))) as [IH1 IH2].
    rewrite IH1, IH2.
    destruct (build_descriptors_services (f c) (char_descriptors c)
                (add_characteristic (g c) acc)) as [-> ->].
    simpl. by rewrite <- app_assoc.
Qed.

Lemma build_services_eq max_write svcs :
  collection_services (build_services max_write svcs)
  = (λ service, {| service_obj := service |}) <$> svcs
  ∧ collection_characteristics (build_services max_write svcs)
    = svcs ≫= (λ service, wrap_characteristic max_write service
                             <$> svc_characteristics service).
Proof.
  unfold build_services.
  assert (H : ∀ acc,
    let r := foldl (λ services service,
      let services := add_service {| service_obj := service |} services in
      foldl (λ services characteristic,
        let services :=
          add_characteristic
            {| characteristic_obj := characteristic;
               max_write_without_response_size := max_write;
               service_uuid := svc_uuid service;
               service_handle := svc_handle service |} services in
        foldl (λ services descriptor,
          add_descriptor
            {| descriptor_obj := descriptor;
               characteristic_uuid := char_uuid characteristic;
               characteristic_handle := char_handle characteristic |} services)
          services (char_descriptors characteristic))
        services (svc_characteristics service)) acc svcs in
    collection_services r
    = collection_services acc ++ ((λ service, {| service_obj := service |}) <$> svcs)
    ∧ collection_characteristics r
      = collection_characteristics acc
        ++ (svcs ≫= (λ service, wrap_characteristic max_write service
                                  <$> svc_characteristics service))).
  { induction svcs as [|svc svcs IH]; intros acc; simpl.
    - by rewrite !app_nil_r.
    - match goal with |- context [foldl _ (foldl ?F ?A ?L) svcs] =>
        destruct (IH (foldl F A L)) as [IH1 IH2] end.
      cbv zeta in IH1, IH2. rewrite IH1, IH2.
      destruct (build_characteristics_services (wrap_characteristic max_write svc)
                  (λ c d, {| descriptor_obj := d; characteristic_uuid := char_uuid c;
                             characteristic_handle := char_handle c |})
                  (svc_characteristics svc)
                  (add_service {| service_obj := svc |} acc)) as [H1 H2].
      cbv zeta in H1, H2. unfold wrap_characteristic in H1, H2 |- *.
      rewrite H1, H2. simpl. by rewrite <- !app_assoc. }
  apply (H empty_collection).
Qed.



(** ** The disconnect callback of the consumer *)

Lemma callback_calls_cleanup s :
  callback_calls (_async_disconnected_cleanup s) = callback_calls s.
Proof.
  unfold callback_calls. rewrite cleanup_eq. simpl.
  rewrite !filter_app, !length_app.
  assert (H1 : filter (λ e, is_disconnected_callback e = true)
                 ((λ kv : Z * nat, NotifyAbort kv.2) <$> map_to_list (_notify_cancels s)) = []).
  { induction (map_to_list (_notify_cancels s)) as [|kv l IH]; [done|].
    simpl. rewrite filter_cons_False; [exact IH|done]. }
  rewrite H1. destruct (_cancel_connection_state s); simpl; lia.
Qed.

Lemma cleanup_disconnected_callback s :
  _disconnected_callback (_async_disconnected_cleanup s) = _disconnected_callback s.
Proof. by rewrite cleanup_eq. Qed.

Lemma callback_calls_ble_device_disconnected s :
  callback_calls (_async_ble_device_disconnected s)
  = (callback_calls s
     + if _is_connected s
       then match _disconnected_callback s with Some _ => 1 | None => 0 end
       else 0)%nat.
Proof.
  rewrite ble_device_disconnected_eq. destruct (_is_connected s).
  - unfold _async_call_bleak_disconnected_callback.
    rewrite cleanup_disconnected_callback.
    destruct (_disconnected_callback s).
    + cbv zeta.
      change (callback_calls (set_disconnected_callback None ?x)) with (callback_calls x).
      rewrite callback_calls_emit, callback_calls_cleanup. done.
    + rewrite callback_calls_cleanup. lia.
  - rewrite callback_calls_cleanup. lia.
Qed.

(** C6. The disconnect callback of the consumer is called at most once, and
    only for a client that was connected: a link drop that finds the client
    disconnected is the cleanup alone and calls nothing, a second link drop
    right after a first calls nothing, and over any run of calls and events
    the number of calls grows by at most one. *)
Theorem disconnected_callback_at_most_once (s : ESPHomeClient) (steps : list step) :
  (_is_connected s = false →
     _async_ble_device_disconnected s = _async_disconnected_cleanup s
     ∧ callback_calls (_async_ble_device_disconnected s) = callback_calls s)
  ∧ callback_calls (_async_ble_device_disconnected (_async_ble_device_disconnected s))
    = callback_calls (_async_ble_device_disconnected s)
  ∧ (callback_calls (_async_ble_device_disconnected s) ≤ callback_calls s + 1)%nat
  ∧ (callback_calls (exec steps s) ≤ callback_calls s + 1)%nat.
Proof.
  split; [intros H; split|split; [|split]].
  - by rewrite ble_device_disconnected_eq, H.
  - rewrite callback_calls_ble_device_disconnected, H. lia.
  - rewrite (callback_calls_ble_device_disconnected (_async_ble_device_disconnected s)).
    rewrite ble_device_disconnected_is_connected. lia.
  - rewrite callback_calls_ble_device_disconnected.
    destruct (_is_connected s), (_disconnected_callback s); lia.
  - pose proof (respects_exec_all spends_callback spends_callback_stable steps s
                  spends_callback_reload) as H.
    unfold spends_callback, callback_budget in H.
    destruct (_disconnected_callback s), (_disconnected_callback (exec steps s)); lia.
Qed.

(** ** The connection-state callback *)

Lemma apply_connection_state_keeps_done f connected mtu s :
  done (futures s) f = true →
  futures (apply_connection_state connected mtu s) !! f = futures s !! f.
Proof.
  intros Hd. unfold apply_connection_state. destruct connected.
  - cbv zeta. by destruct (mtu_falsy _).
  - rewrite ble_device_disconnected_eq.
    assert (H : futures (_async_disconnected_cleanup s) !! f = futures s !! f).
    { rewrite cleanup_futures. by apply resolve_all_keeps_done. }
    destruct (_is_connected s); [|done].
    unfold _async_call_bleak_disconnected_callback.
    by destruct (_disconnected_callback _).
Qed.

Lemma done_lookup fs fs' (f : future) : fs' !! f = fs !! f → done fs' f = done fs f.
Proof. unfold done. by intros ->. Qed.

Lemma ble_device_disconnected_disconnect_callbacks s :
  _disconnect_callbacks (_async_ble_device_disconnected s) = _disconnect_callbacks s.
Proof.
  rewrite ble_device_disconnected_eq.
  assert (H : _disconnect_callbacks (_async_disconnected_cleanup s) = _disconnect_callbacks s)
    by by rewrite cleanup_eq.
  destruct (_is_connected s); [|done].
  unfold _async_call_bleak_disconnected_callback.
  by destruct (_disconnected_callback _).
Qed.

(** C8, as the code has it.  A connection-state callback that finds the
    future of its connect done still applies the signal to the client (lines
    269-275): a signal that reports connected sets the flag and latches the
    MTU when none is set, a signal that reports disconnected runs the
    link-drop handling.  What it leaves alone is the future, which keeps its
    state, and the list of disconnect callbacks of the proxy. *)
Theorem late_connection_state_applies_signal_only
  (s : ESPHomeClient) (f : future) (connected : bool) (mtu error : Z) :
  done (futures s) f = true →
  let s' := _on_bluetooth_connection_state f connected mtu error s in
  s' = apply_connection_state connected mtu s
  ∧ s' = (if connected
          then (if mtu_falsy (_mtu s)
                then set_cache (set_gatt_mtu_cache (_address_as_int s) mtu (_cache s))
                       (set_mtu (Some mtu) (set_is_connected true s))
                else set_is_connected true s)
          else _async_ble_device_disconnected s)
  ∧ futures s' !! f = futures s !! f
  ∧ _disconnect_callbacks s' = _disconnect_callbacks s.
Proof.
  intros Hd. cbv zeta. unfold _on_bluetooth_connection_state. cbv zeta.
  pose proof (apply_connection_state_keeps_done f connected mtu s Hd) as Hf.
  unfold complete_connected_future. rewrite (done_lookup _ _ _ Hf), Hd.
  repeat split; try done.
  unfold apply_connection_state. destruct connected.
  - cbv zeta. by destruct (mtu_falsy _).
  - apply ble_device_disconnected_disconnect_callbacks.
Qed.

(** ** The error translator *)

Lemma api_error_as_bleak_error_return {A} (func : M A) s s1 a :
  func s = (s1, Return a) → api_error_as_bleak_error func s = (s1, Return a).
Proof. intros H. unfold api_error_as_bleak_error, try_except. by rewrite H. Qed.

Lemma api_error_as_bleak_error_raise {A} (func : M A) s s1 e :
  func s = (s1, Raise e) →
  api_error_as_bleak_error func s
  = match e with
    | TimeoutAPIError msg => (s1, Raise (TimeoutError msg))
    | BluetoothGATTAPIError error msg =>
        (if error =? -1 then _async_ble_device_disconnected s1 else s1,
         Raise (BleakError msg))
    | APIConnectionError msg => (s1, Raise (BleakError msg))
    | _ => (s1, Raise e)
    end.
Proof.
  intros H. unfold api_error_as_bleak_error, try_except. rewrite H.
  destruct e; try done. unfold bind. by destruct (error =? -1).
Qed.

(** C5. A failure inside a wrapped call leaves the error translator as
    exactly one error: a [TimeoutAPIError] as a timeout, a
    [BluetoothGATTAPIError] or any other [APIConnectionError] as a
    [BleakError] with the same text, anything else as it came.  For the GATT
    error with the code -1 the link-drop handling has run when the error
    reaches the caller, who finds the client disconnected, its topology
    empty, and no subscription and no waiter left. *)
Theorem api_error_translation {A} (func : M A) (s s1 : ESPHomeClient) (e : exn) :
  func s = (s1, Raise e) →
  api_error_as_bleak_error func s
  = match e with
    | TimeoutAPIError msg => (s1, Raise (TimeoutError msg))
    | BluetoothGATTAPIError error msg =>
        (if error =? -1 then _async_ble_device_disconnected s1 else s1,
         Raise (BleakError msg))
    | APIConnectionError msg => (s1, Raise (BleakError msg))
    | _ => (s1, Raise e)
    end
  ∧ (∀ msg, e = BluetoothGATTAPIError (-1) msg →
       let s' := (api_error_as_bleak_error func s).1 in
       (api_error_as_bleak_error func s).2 = Raise (BleakError msg)
       ∧ s' = _async_ble_device_disconnected s1
       ∧ _is_connected s' = false
       ∧ services s' = Some empty_collection
       ∧ _notify_cancels s' = ∅
       ∧ _disconnected_futures s' = ∅).
Proof.
  intros H. pose proof (api_error_as_bleak_error_raise func s s1 e H) as Heq.
  split; [exact Heq|].
  intros msg ->. rewrite Heq. simpl.
  rewrite ble_device_disconnected_eq.
  assert (Hc : ∀ x, _is_connected (_async_call_bleak_disconnected_callback x) = _is_connected x
               ∧ services (_async_call_bleak_disconnected_callback x) = services x
               ∧ _notify_cancels (_async_call_bleak_disconnected_callback x) = _notify_cancels x
               ∧ _disconnected_futures (_async_call_bleak_disconnected_callback x)
                 = _disconnected_futures x).
  { intros x. unfold _async_call_bleak_disconnected_callback.
    by destruct (_disconnected_callback x). }
  destruct (_is_connected s1).
  - destruct (Hc (_async_disconnected_cleanup s1)) as (-> & -> & -> & ->).
    by rewrite cleanup_is_connected, cleanup_services, cleanup_notify_cancels,
      cleanup_disconnected_futures.
  - by rewrite cleanup_is_connected, cleanup_services, cleanup_notify_cancels,
      cleanup_disconnected_futures.
Qed.

Lemma apply_connection_state_keeps_pending f connected mtu s :
  f ∉ _disconnected_futures s →
  futures (apply_connection_state connected mtu s) !! f = futures s !! f.
Proof.
  intros Hf. unfold apply_connection_state. destruct connected.
  - cbv zeta. by destruct (mtu_falsy _).
  - rewrite ble_device_disconnected_eq.
    assert (H : futures (_async_disconnected_cleanup s) !! f = futures s !! f).
    { rewrite cleanup_futures, resolve_all_lookup. by rewrite decide_False. }
    destruct (_is_connected s); [|done].
    unfold _async_call_bleak_disconnected_callback.
    by destruct (_disconnected_callback _).
Qed.

Lemma await_future_exception f evs s e :
  futures s !! f = Some (Exception e) → await_future f evs s = (s, Raise e).
Proof.
  intros H. unfold await_future, done. rewrite H. simpl. by rewrite H.
Qed.

(** A wrapped call that is cancelled at its await, with its waiter completed
    by a link drop meanwhile, fails with "Disconnected during operation". *)
Lemma interrupted_call_fails {A} (c : awaited) (r : reply A) s :
  result r = Raise CancelledError →
  done (futures (run_events (during r) (emit (Await c) (registered s)))) (waiter_of s) = true →
  (verify_connected (api_error_as_bleak_error (await c r)) s).2
  = Raise (BleakError (disconnect_message s)).
Proof.
  intros Hr Hd. rewrite verify_connected_eq.
  unfold api_error_as_bleak_error, try_except, await. rewrite Hr. simpl.
  by rewrite Hd.
Qed.

Lemma run_events_trace evs s : trace s `prefix_of` trace (run_events evs s).
Proof. apply (stable_run_events trace_extends trace_extends_stable). Qed.

Lemma read_gatt_descriptor_eq handle r s :
  read_gatt_descriptor handle r s
  = verify_connected (api_error_as_bleak_error
      (await (bluetooth_gatt_read_descriptor (_address_as_int s) handle GATT_READ_TIMEOUT) r)) s.
Proof.
  unfold read_gatt_descriptor. rewrite !verify_connected_eq.
  unfold api_error_as_bleak_error, try_except, bind, gets. done.
Qed.

Lemma resolve_characteristic_empty handle s :
  services s = Some empty_collection →
  _resolve_characteristic (ByHandle handle) s
  = (s, Raise (BleakError ("Characteristic " +:+ pretty handle +:+ " was not found!"))).
Proof. intros H. unfold _resolve_characteristic, bind, gets. by rewrite H. Qed.

(** C10. The wrapper [verify_connected] never looks at the connection flag.
    On a disconnected client the wrapped function is run, on the client
    with the waiter registered and still disconnected, and its outcome is
    the outcome of the call, unless a link drop interrupts it.  So a read of
    a descriptor goes to the remote client and returns what it answers, and
    a read of a characteristic by handle fails only at the resolution, with
    "was not found", against the empty topology that the cleanup left. *)
Theorem verify_connected_never_rejects {A} (func : M A) (s : ESPHomeClient)
  (handle : Z) (r : reply (list Byte.byte)) :
  _is_connected s = false →
  _is_connected (registered s) = false
  ∧ waiter_of s ∈ _disconnected_futures (registered s)
  ∧ (verify_connected func s).1
    = discard_disconnected_future (waiter_of s) (func (registered s)).1
  ∧ ((func (registered s)).2 ≠ Raise CancelledError →
     (verify_connected func s).2 = (func (registered s)).2)
  ∧ (∀ data, result r = Return data →
       (read_gatt_descriptor handle r s).2 = Return data
       ∧ Await (bluetooth_gatt_read_descriptor (_address_as_int s) handle GATT_READ_TIMEOUT)
         ∈ trace (read_gatt_descriptor handle r s).1)
  ∧ (read_gatt_char (ByHandle handle) r (_async_disconnected_cleanup s)).2
    = Raise (BleakError ("Characteristic " +:+ pretty handle +:+ " was not found!")).
Proof.
  intros Hc. split; [done|]. split.
  { rewrite registered_eq. simpl. apply elem_of_union. left. by apply elem_of_singleton. }
  split.
  { rewrite verify_connected_eq. by destruct (func (registered s)). }
  split.
  { intros Hr. rewrite verify_connected_eq.
    destruct (func (registered s)) as [s1 [a|e]]; simpl in *; [done|].
    by destruct e. }
  split.
  { intros data Hdata. rewrite read_gatt_descriptor_eq, verify_connected_eq.
    unfold api_error_as_bleak_error, try_except, await. rewrite Hdata. simpl.
    split; [done|].
    eapply elem_of_prefix; [|apply run_events_trace].
    simpl. apply elem_of_app. right. by apply list_elem_of_singleton. }
  unfold read_gatt_char. rewrite verify_connected_eq.
  unfold api_error_as_bleak_error, try_except, bind.
  rewrite resolve_characteristic_empty; [done|].
  change (services (registered ?x)) with (services x). apply cleanup_services.
Qed.



(** ** The service discovery *)

Lemma get_services_hit dangerous r s topology :
  has_feature (_feature_flags s) BluetoothProxyFeature.REMOTE_CACHING || dangerous = true →
  get_gatt_services_cache (_address_as_int s) (_cache s) = Some topology →
  _get_services dangerous r s
  = (discard_disconnected_future (waiter_of s)
       (set_services (Some topology) (registered s)),
     Return topology).
Proof.
  intros Hu Hc. unfold _get_services. rewrite verify_connected_eq.
  unfold bind at 1. unfold gets at 1. unfold bind at 1. unfold gets at 1.
  unfold bind at 1. unfold gets at 1.
  change (_feature_flags (registered s)) with (_feature_flags s).
  change (_cache (registered s)) with (_cache s).
  change (_address_as_int (registered s)) with (_address_as_int s).
  by rewrite Hu, Hc.
Qed.

Lemma get_services_miss dangerous r s :
  cache_miss dangerous s →
  _get_services dangerous r s
  = let w := waiter_of s in
    let s1 := run_events (during r)
                (emit (Await (bluetooth_gatt_get_services (_address_as_int s)))
                   (registered s)) in
    match result r with
    | Return x =>
        if no_services x
        then (discard_disconnected_future w s1,
              Raise (BleakError "Failed to get services from remote esp"))
        else
          let topology := build_services (mtu_size s1 - GATT_HEADER_SIZE) (gatt_services x) in
          (discard_disconnected_future w
             (set_cache (set_gatt_services_cache (_address_as_int s) topology (_cache s1))
                (set_services (Some topology) s1)),
           Return topology)
    | Raise e =>
        (discard_disconnected_future w s1,
         match e with
         | CancelledError =>
             if done (futures s1) w
             then Raise (BleakError (disconnect_message s))
             else Raise CancelledError
         | _ => Raise e
         end)
    end.
Proof.
  intros Hm. unfold _get_services. rewrite verify_connected_eq.
  unfold bind at 1. unfold gets at 1. unfold bind at 1. unfold gets at 1.
  unfold bind at 1. unfold gets at 1.
  change (_feature_flags (registered s)) with (_feature_flags s).
  change (_cache (registered s)) with (_cache s).
  change (_address_as_int (registered s)) with (_address_as_int s).
  assert (Hnone : (if has_feature (_feature_flags s) BluetoothProxyFeature.REMOTE_CACHING
                      || dangerous
                   then get_gatt_services_cache (_address_as_int s) (_cache s)
                   else None) = None).
  { destruct Hm as [-> | ->]; [done|]. by destruct (_ || _). }
  rewrite Hnone. cbv zeta. unfold bind, await, gets, modify.
  destruct (result r) as [x|e]; [|by destruct e].
  by destruct (no_services x).
Qed.

(** C9. A discovery that goes to the remote client and succeeds builds one
    characteristic for each characteristic of each service of the tree it
    was given, each with the maximum write-without-response size of the
    MTU of the client, [mtu_size], less the GATT header size of 3; with an
    MTU of 185 that is 182.  The MTU is the one the client holds: when the
    client has an MTU [mtu] other than 0, before the discovery or after it,
    the size of every characteristic is [mtu - 3], and the discovery has not
    changed the MTU; when the client has none ([None] or 0), the size is
    that of the default MTU of 23, which is 20. *)
Theorem discovery_max_write_without_response (dangerous : bool)
  (r : reply ESPHomeBluetoothGATTServices) (s s' : ESPHomeClient)
  (topology : BleakGATTServiceCollection) :
  cache_miss dangerous s →
  _get_services dangerous r s = (s', Return topology) →
  GATT_HEADER_SIZE = 3
  ∧ (∃ esphome_services,
       result r = Return esphome_services
       ∧ collection_characteristics topology
         = gatt_services esphome_services ≫=
             (λ service, wrap_characteristic (mtu_size s' - GATT_HEADER_SIZE) service
                           <$> svc_characteristics service))
  ∧ (∀ c, c ∈ collection_characteristics topology →
       max_write_without_response_size c = mtu_size s' - GATT_HEADER_SIZE)
  ∧ (_mtu s' = Some 185 →
     ∀ c, c ∈ collection_characteristics topology →
       max_write_without_response_size c = 182)
  ∧ (∀ mtu, mtu ≠ 0 → _mtu s = Some mtu ∨ _mtu s' = Some mtu →
       _mtu s' = Some mtu
       ∧ ∀ c, c ∈ collection_characteristics topology →
           max_write_without_response_size c = mtu - 3)
  ∧ (mtu_falsy (_mtu s') = true →
     ∀ c, c ∈ collection_characteristics topology →
       max_write_without_response_size c = DEFAULT_MTU - 3
       ∧ max_write_without_response_size c = 20).
Proof.
  intros Hm H.
  pose proof (respects__get_services keeps_mtu keeps_mtu_stable dangerous r s) as Hkeep.
  rewrite H in Hkeep. cbn [fst] in Hkeep.
  rewrite (get_services_miss _ _ _ Hm) in H. cbv zeta in H.
  destruct (result r) as [x|e] eqn:Hr; [|by destruct e; try destruct (done _ _)].
  destruct (no_services x); [done|].
  injection H as <- <-.
  match goal with |- context [mtu_size ?a] =>
    match a with discard_disconnected_future _ (set_cache _ (set_services _ ?b)) =>
      change (mtu_size a) with (mtu_size b);
      change (_mtu a) with (_mtu b); set (s1 := b) end end.
  assert (Hall : ∀ c, c ∈ collection_characteristics
                        (build_services (mtu_size s1 - GATT_HEADER_SIZE) (gatt_services x)) →
                 max_write_without_response_size c = mtu_size s1 - GATT_HEADER_SIZE).
  { intros c. rewrite (proj2 (build_services_eq _ _)).
    intros (svc & Hc & _)%list_elem_of_bind.
    apply list_elem_of_fmap in Hc as (c0 & -> & _). done. }
  split; [done|]. split.
  { exists x. split; [done|]. apply build_services_eq. }
  split; [exact Hall|].
  split.
  { intros H185 c Hc. rewrite (Hall c Hc). unfold mtu_size. by rewrite H185. }
  split.
  - intros mtu Hne Hmtu.
    assert (Hs1 : _mtu s1 = Some mtu).
    { destruct Hmtu as [Hs|Hs']; [|exact Hs'].
      rewrite <- Hs. apply Hkeep. rewrite Hs. simpl. by apply Z.eqb_neq. }
    split; [exact Hs1|].
    intros c Hc. rewrite (Hall c Hc). unfold mtu_size. rewrite Hs1.
    by rewrite (proj2 (Z.eqb_neq mtu 0) Hne).
  - intros Hfalsy c Hc. rewrite (Hall c Hc). unfold mtu_size, mtu_falsy in *.
    destruct (_mtu s1) as [v|]; [|done]. by rewrite Hfalsy.
Qed.

(** ** Disconnect *)

Lemma _disconnect_succeeds env s :
  disconnect_succeeds env → _disconnect env s = (disconnected env s, Return true).
Proof.
  intros [H1 H2]. unfold _disconnect, disconnected.
  unfold bind at 1. unfold modify at 1. unfold bind at 1. unfold gets at 1.
  unfold bind at 1. unfold await at 1. rewrite H1.
  change (_address_as_int (_async_disconnected_cleanup s)) with (_address_as_int s)
    || (rewrite cleanup_eq; simpl).
  unfold bind, _wait_for_free_connection_slot, bind, gets. cbv zeta.
  destruct (negb (_ =? 0)); [done|].
  unfold await. by rewrite H2.
Qed.

Lemma disconnected_trace env s :
  ∃ t, trace (disconnected env s)
       = trace (_async_disconnected_cleanup s)
         ++ Await (bluetooth_device_disconnect (_address_as_int s)) :: t.
Proof.
  unfold disconnected. cbv zeta.
  set (s0 := emit _ (_async_disconnected_cleanup s)).
  destruct (run_events_trace (during (disconnect_reply env)) s0) as [t1 Ht1].
  set (s1 := run_events (during (disconnect_reply env)) s0) in *.
  assert (H0 : trace s0 = trace (_async_disconnected_cleanup s)
                 ++ [Await (bluetooth_device_disconnect (_address_as_int s))]) by done.
  destruct (negb (_ =? 0)).
  - exists t1. rewrite Ht1, H0. by rewrite <- app_assoc.
  - destruct (run_events_trace (during (disconnect_slot env))
                (emit (Await (wait_for_ble_connections_free DISCONNECT_TIMEOUT)) s1))
      as [t2 Ht2].
    rewrite Ht2. simpl. rewrite Ht1, H0. rewrite <- !app_assoc. simpl. eauto.
Qed.

Lemma disconnected_identity env s :
  _address_as_int (disconnected env s) = _address_as_int s.
Proof.
  unfold disconnected. cbv zeta.
  pose proof (stable_run_events same_identity same_identity_stable) as Hr.
  assert (H1 : _address_as_int
                 (run_events (during (disconnect_reply env))
                    (emit (Await (bluetooth_device_disconnect (_address_as_int s)))
                       (_async_disconnected_cleanup s)))
               = _address_as_int s).
  { match goal with |- _address_as_int (run_events ?e ?x) = _ =>
      destruct (Hr e x) as [-> _] end.
    by rewrite cleanup_eq. }
  destruct (negb (_ =? 0)); [exact H1|].
  match goal with |- _address_as_int (run_events ?e ?x) = _ =>
    destruct (Hr e x) as [-> _] end.
  exact H1.
Qed.

(** C3. When the disconnect request and the wait for a slot return, a
    disconnect returns True on every client, connected or not, and so does a
    second disconnect right after it.  Each of the two runs the cleanup
    first and sends the disconnect request after it: the trace is the trace
    of the cleanup, then the request, then what follows.  On a client that
    the first disconnect left alone while it waited, the cleanup of the
    second changes nothing. *)
Theorem disconnect_is_idempotent (s : ESPHomeClient) (env1 env2 : disconnect_env) :
  disconnect_succeeds env1 →
  disconnect_succeeds env2 →
  let request := Await (bluetooth_device_disconnect (_address_as_int s)) in
  let s1 := (disconnect env1 s).1 in
  let s2 := (disconnect env2 s1).1 in
  (disconnect env1 s).2 = Return true
  ∧ (disconnect env2 s1).2 = Return true
  ∧ s1 = disconnected env1 s
  ∧ s2 = disconnected env2 s1
  ∧ (∃ t, trace s1 = trace (_async_disconnected_cleanup s) ++ request :: t)
  ∧ (∃ t, trace s2 = trace (_async_disconnected_cleanup s1) ++ request :: t)
  ∧ trace (_async_disconnected_cleanup s)
    = (trace s ++ ((λ kv, NotifyAbort kv.2) <$> map_to_list (_notify_cancels s)))
      ++ match _cancel_connection_state s with
         | Some cancel => [Unsubscribe cancel]
         | None => []
         end
  ∧ (services (_async_disconnected_cleanup s) = Some empty_collection
     ∧ _is_connected (_async_disconnected_cleanup s) = false
     ∧ _notify_cancels (_async_disconnected_cleanup s) = ∅
     ∧ _disconnected_futures (_async_disconnected_cleanup s) = ∅
     ∧ (∀ f, f ∈ _disconnected_futures s →
          done (futures (_async_disconnected_cleanup s)) f = true)
     ∧ _cancel_connection_state (_async_disconnected_cleanup s) = None)
  ∧ _async_disconnected_cleanup (_async_disconnected_cleanup s)
    = _async_disconnected_cleanup s
  ∧ (during (disconnect_reply env1) = [] → during (disconnect_slot env1) = [] →
     _async_disconnected_cleanup s1 = s1).
Proof.
  intros H1 H2. cbv zeta.
  assert (E1 : disconnect env1 s = (disconnected env1 s, Return true)).
  { unfold disconnect.
    by apply api_error_as_bleak_error_return, _disconnect_succeeds. }
  assert (E2 : disconnect env2 (disconnected env1 s)
               = (disconnected env2 (disconnected env1 s), Return true)).
  { unfold disconnect.
    by apply api_error_as_bleak_error_return, _disconnect_succeeds. }
  rewrite E1. simpl. rewrite E2. simpl.
  split; [done|]. split; [done|]. split; [done|]. split; [done|].
  split; [apply disconnected_trace|].
  split; [rewrite <- (disconnected_identity env1 s); apply disconnected_trace|].
  split; [by rewrite cleanup_eq|].
  split.
  { rewrite cleanup_services, cleanup_is_connected, cleanup_notify_cancels,
      cleanup_disconnected_futures, cleanup_cancel_connection_state.
    repeat split; try done.
    intros f Hf. rewrite cleanup_futures. by apply resolve_all_done. }
  split; [apply cleanup_idempotent|].
  intros D1 D2. unfold disconnected. rewrite D1, D2. simpl.
    destruct (negb (_ =? 0)).
    + apply cleanup_clean; by rewrite cleanup_eq.
    + apply cleanup_clean; by rewrite cleanup_eq.
Qed.

(** ** The MTU *)


(** ** A failed discovery *)






Lemma api_error_as_bleak_error_return_inv {A} (func : M A) s s' a :
  api_error_as_bleak_error func s = (s', Return a) → func s = (s', Return a).
Proof.
  unfold api_error_as_bleak_error, try_except.
  destruct (func s) as [s1 [b|e]]; [done|].
  destruct e; try done. unfold bind. by destruct (error =? -1).
Qed.




(** ** A connect that fails *)

Lemma connection_state_failure s f connected mtu error :
  done (futures s) f = false →
  f ∉ _disconnected_futures s →
  connected = false ∨ error ≠ 0 →
  futures (_on_bluetooth_connection_state f connected mtu error s) !! f
  = Some (Exception (BleakError (if error =? 0 then "Disconnected"
                                 else connect_error_message error))).
Proof.
  intros Hd Hf Hfail.
  pose proof (apply_connection_state_keeps_pending f connected mtu s Hf) as Hk.
  unfold _on_bluetooth_connection_state. cbv zeta.
  unfold complete_connected_future. rewrite (done_lookup _ _ _ Hk), Hd.
  destruct (error =? 0) eqn:He; simpl.
  - destruct Hfail as [->|Hne]; [|by apply Z.eqb_eq in He].
    simpl. by rewrite lookup_insert_eq.
  - by rewrite lookup_insert_eq.
Qed.

Lemma wait_for_free_connection_slot_returns timeout w s :
  result w = Return tt →
  (_wait_for_free_connection_slot timeout w s).2 = Return tt.
Proof.
  intros Hw. unfold _wait_for_free_connection_slot, bind, gets.
  destruct (negb (_ =? 0)); [done|]. unfold await. by rewrite Hw.
Qed.

Lemma open_connection_fails dangerous timeout env s connected mtu error cancel :
  (∀ f, connect_reply env f
        = mkReply [ConnectionState f connected mtu error] (Return cancel)) →
  connected = false ∨ error ≠ 0 →
  (open_connection dangerous timeout env s).2
  = Raise (BleakError (if error =? 0 then "Disconnected"
                       else connect_error_message error)).
Proof.
  intros Hreply Hfail. unfold open_connection.
  unfold bind at 1. unfold gets at 1. unfold bind at 1.
  rewrite (surjective_pairing (create_future s)), create_future_fresh.
  set (f := fresh (dom (futures s) ∪ _disconnected_futures s)).
  set (s3 := (create_future s).1).
  unfold bind at 1. unfold gets at 1. unfold bind at 1. unfold gets at 1.
  unfold bind at 1. unfold try_except. unfold bind at 1. unfold await at 1.
  rewrite Hreply. cbn [during result run_events foldl handle_event].
  unfold modify at 1.
  set (s4 := _on_bluetooth_connection_state f connected mtu error _).
  assert (H4 : futures s4 !! f
               = Some (Exception (BleakError (if error =? 0 then "Disconnected"
                                              else connect_error_message error)))).
  { unfold s4. apply connection_state_failure; [| |done].
    - unfold done, s3. simpl. by rewrite lookup_insert_eq.
    - exact (fresh_future_not_waiting s). }
  unfold bind.
  rewrite (await_future_exception f (connect_state env f)
             (set_cancel_connection_state (Some cancel) s4) _ H4).
  done.
Qed.

Lemma connect_fails_with_signal dangerous timeout env s connected mtu error cancel :
  result (connect_slot env) = Return tt →
  (∀ f, connect_reply env f
        = mkReply [ConnectionState f connected mtu error] (Return cancel)) →
  connected = false ∨ error ≠ 0 →
  (connect dangerous timeout env s).2
  = Raise (BleakError (if error =? 0 then "Disconnected"
                       else connect_error_message error)).
Proof.
  intros Hslot Hreply Hfail. unfold connect.
  assert (He : ∃ s1, (connected_future <- establish_connection dangerous timeout env ;;
                      discover_or_disconnect dangerous (connect_services env connected_future)
                        (connect_disconnect env connected_future) ;;;
                      ret true) s
                     = (s1, Raise (BleakError (if error =? 0 then "Disconnected"
                                               else connect_error_message error)))).
  { unfold bind at 1. unfold establish_connection. unfold bind at 1.
    pose proof (wait_for_free_connection_slot_returns CONNECT_FREE_SLOT_TIMEOUT
                  (connect_slot env) s Hslot) as Hw.
    destruct (_wait_for_free_connection_slot _ _ s) as [s1 r1]. simpl in Hw. subst r1.
    unfold bind at 1. unfold modify at 1.
    pose proof (open_connection_fails dangerous timeout env (reload_mtu s1)
                  connected mtu error cancel Hreply Hfail) as Ho.
    destruct (open_connection dangerous timeout env (reload_mtu s1)) as [s2 r2].
    simpl in Ho. subst r2. by exists s2. }
  destruct He as [s1 He].
  by rewrite (api_error_as_bleak_error_raise _ _ _ _ He).
Qed.

(** C7. When the connection-state callback finds the future of the connect
    pending: a signal that reports disconnected without an error code makes
    the connect fail with the plain "Disconnected"; a signal with an error
    code makes it fail with "Error <name> while connecting: <description>",
    where name and description come from the tables of the remote client
    when they know the code, and otherwise the name is the number, and the
    description is the one [ESPHOME_GATT_ERRORS] has for it or, when it has
    none, "Unknown error code <number>".  The future holds the error, the
    await of the future raises it, and a connect whose request is answered
    with such a signal ends with it. *)
Theorem connect_failure_messages (s : ESPHomeClient) (f : future)
  (connected : bool) (mtu error : Z) (evs : list env_event)
  (dangerous : bool) (timeout : option Z) (env : connect_env) (cancel : CALLBACK_TYPE) :
  done (futures s) f = false →
  f ∉ _disconnected_futures s →
  let s' := _on_bluetooth_connection_state f connected mtu error s in
  (connected = false → error = 0 →
     futures s' !! f = Some (Exception (BleakError "Disconnected"))
     ∧ await_future f evs s' = (s', Raise (BleakError "Disconnected")))
  ∧ (error ≠ 0 →
     futures s' !! f = Some (Exception (BleakError (connect_error_message error)))
     ∧ await_future f evs s' = (s', Raise (BleakError (connect_error_message error)))
     ∧ ∃ name human,
         connect_error_message error
         = "Error " +:+ name +:+ " while connecting: " +:+ human
         ∧ ((BLEConnectionError !! error = Some name
             ∧ ESP_CONNECTION_ERROR_DESCRIPTION !! error = Some human)
            ∨ ((BLEConnectionError !! error = None
                ∨ ESP_CONNECTION_ERROR_DESCRIPTION !! error = None)
               ∧ name = pretty error
               ∧ (ESPHOME_GATT_ERRORS !! error = Some human
                  ∨ (ESPHOME_GATT_ERRORS !! error = None
                     ∧ human = "Unknown error code " +:+ pretty error)))))
  ∧ (result (connect_slot env) = Return tt →
     (∀ f, connect_reply env f
           = mkReply [ConnectionState f connected mtu error] (Return cancel)) →
     (connected = false ∧ error = 0 →
      (connect dangerous timeout env s).2 = Raise (BleakError "Disconnected"))
     ∧ (error ≠ 0 →
        (connect dangerous timeout env s).2
        = Raise (BleakError (connect_error_message error)))).
Proof.
  intros Hd Hf. cbv zeta. split; [|split].
  - intros -> ->.
    pose proof (connection_state_failure s f false mtu 0 Hd Hf (or_introl eq_refl)) as H0.
    simpl in H0. split; [exact H0|]. by apply await_future_exception.
  - intros Hne.
    pose proof (connection_state_failure s f connected mtu error Hd Hf (or_intror Hne)) as H0.
    apply Z.eqb_neq in Hne. rewrite Hne in H0.
    split; [exact H0|]. split; [by apply await_future_exception|].
    unfold connect_error_message, describe_connection_error.
    destruct (BLEConnectionError !! error) as [n|] eqn:H1;
      [destruct (ESP_CONNECTION_ERROR_DESCRIPTION !! error) as [h|] eqn:H2|].
    + exists n, h. split; [done|]. by left.
    + eexists _, _. split; [done|]. right. split; [by right|]. split; [done|].
      destruct (ESPHOME_GATT_ERRORS !! error); simpl; [by left|by right].
    + eexists _, _. split; [done|]. right. split; [by left|]. split; [done|].
      destruct (ESPHOME_GATT_ERRORS !! error); simpl; [by left|by right].
  - intros Hslot Hreply. split.
    + intros [-> ->].
      by rewrite (connect_fails_with_signal dangerous timeout env s false mtu 0 cancel
                    Hslot Hreply (or_introl eq_refl)).
    + intros Hne.
      rewrite (connect_fails_with_signal dangerous timeout env s connected mtu error cancel
                 Hslot Hreply (or_intror Hne)).
      apply Z.eqb_neq in Hne. by rewrite Hne.
Qed.

(** ** The address as an integer *)
Lemma digit_value_range c d : digit_value c = Some d → 0 ≤ d < 16.
Proof.
  unfold digit_value. cbv zeta.
  repeat case_match; intros [= <-]; lia.
Qed.

Lemma digit_value_code c d :
  digit_value c = Some d → 48 ≤ code_point c ≤ 57 ∨ 65 ≤ code_point c ≤ 70 ∨ 97 ≤ code_point c ≤ 102.
Proof.
  unfold digit_value. cbv zeta.
  repeat case_match; intros [= <-]; lia.
Qed.

Lemma digit_not_space c : is_Some (digit_value c) → int_space c = false.
Proof.
  intros [d Hd]. apply digit_value_code in Hd.
  unfold int_space. apply bool_decide_eq_false. intros Hin.
  repeat (apply elem_of_cons in Hin as [Hin|Hin]; [lia|]).
  by apply elem_of_nil in Hin.
Qed.

Lemma digit_not_char c (x : ascii) :
  digit_value x = None → is_Some (digit_value c) → c ≠ x.
Proof. intros Hx [d Hd] ->. congruence. Qed.

Lemma replace_char_colons address :
  String.list_ascii_of_string (replace_char ":" "" address)
  = filter (λ c, c ≠ ":"%char) (String.list_ascii_of_string address).
Proof.
  induction address as [|c rest IH]; [done|]. simpl.
  destruct (decide (c = ":"%char)) as [->|Hne].
  - by rewrite filter_cons_False by (intros H; by apply H).
  - rewrite filter_cons_True by done. simpl. by rewrite IH.
Qed.

Lemma colon_separated_digits l :
  Forall (λ c, c = ":"%char ∨ is_Some (digit_value c)) l →
  Forall (λ c, is_Some (digit_value c)) (filter (λ c, c ≠ ":"%char) l)
  ∧ omap digit_value (filter (λ c, c ≠ ":"%char) l) = omap digit_value l.
Proof.
  induction 1 as [|c l Hc Hl [IH1 IH2]]; [done|].
  destruct (decide (c = ":"%char)) as [->|Hne].
  - rewrite filter_cons_False by (intros H; by apply H). by split.
  - rewrite filter_cons_True by done. destruct Hc as [->|[d Hd]]; [done|].
    split; [constructor; eauto|]. simpl. rewrite Hd. f_equal. exact IH2.
Qed.

Lemma scan_digits_hex h value :
  Forall (λ c, is_Some (digit_value c)) h →
  scan_digits false value h
  = Some (foldl (λ value d, value * 16 + d) value (omap digit_value h), []).
Proof.
  intros Hh. revert value. induction Hh as [|c h [d Hd] Hh IH]; intros value; [done|].
  simpl. rewrite decide_False by (apply (digit_not_char c "_"); eauto).
  rewrite Hd. simpl. apply IH.
Qed.

Lemma int_base16_hex text :
  Forall (λ c, is_Some (digit_value c)) (String.list_ascii_of_string text) →
  int_base16 text
  = match String.list_ascii_of_string text with
    | [] => None
    | _ => Some (hex_value (omap digit_value (String.list_ascii_of_string text)))
    end.
Proof.
  unfold int_base16. generalize (String.list_ascii_of_string text). intros h Hh.
  destruct Hh as [|c h Hc Hh]; [done|].
  cbn [skip_spaces]. rewrite (digit_not_space c Hc).
  rewrite decide_False by (apply (digit_not_char c "+"); eauto).
  rewrite decide_False by (apply (digit_not_char c "-"); eauto).
  assert (Hprefix : match h with
                    | x :: rest =>
                        if decide (c = "0"%char ∧ (x = "x"%char ∨ x = "X"%char)) then
                          match rest with
                          | u :: rest' => if decide (u = "_"%char) then rest' else rest
                          | [] => rest
                          end
                        else c :: h
                    | [] => c :: h
                    end = c :: h).
  { destruct Hh as [|x rest Hx Hrest]; [done|].
    rewrite decide_False; [done|].
    intros [_ [->| ->]]; destruct Hx as [d Hd]; vm_compute in Hd; discriminate. }
  cbv zeta. 
  match goal with |- context [match ?m with [] => None | c0 :: _ => _ end] =>
    change m with (match h with
                    | x :: rest =>
                        if decide (c = "0"%char ∧ (x = "x"%char ∨ x = "X"%char)) then
                          match rest with
                          | u :: rest' => if decide (u = "_"%char) then rest' else rest
                          | [] => rest
                          end
                        else c :: h
                    | [] => c :: h
                    end) end.
  rewrite Hprefix.
  destruct Hc as [d Hd]. rewrite Hd.
  rewrite scan_digits_hex by (constructor; eauto).
  cbn [skip_spaces]. f_equal. unfold hex_value. lia.
Qed.

Lemma hex_value_snoc l d : hex_value (l ++ [d]) = hex_value l * 16 + d.
Proof. unfold hex_value. by rewrite foldl_snoc. Qed.

Lemma hex_value_bounds l :
  Forall (λ d, 0 ≤ d < 16) l → 0 ≤ hex_value l < 16 ^ Z.of_nat (length l).
Proof.
  induction l as [|d l IH] using rev_ind; intros Hl; [done|].
  apply Forall_app in Hl as [Hl Hd]. rewrite Forall_singleton in Hd.
  specialize (IH Hl). rewrite hex_value_snoc, length_app. simpl.
  replace (Z.of_nat (length l + 1)) with (Z.of_nat (length l) + 1) by lia.
  rewrite Z.pow_add_r by lia. change (16 ^ 1) with 16.
  generalize dependent (16 ^ Z.of_nat (length l)). intros p Hp. lia.
Qed.

Lemma hex_value_inj l1 l2 :
  Forall (λ d, 0 ≤ d < 16) l1 → Forall (λ d, 0 ≤ d < 16) l2 →
  length l1 = length l2 → hex_value l1 = hex_value l2 → l1 = l2.
Proof.
  revert l2. induction l1 as [|d1 l1 IH] using rev_ind; intros l2 H1 H2 Hlen Hv.
  - destruct l2; [done|]. done.
  - destruct l2 as [|d2 l2 _] using rev_ind.
    { rewrite length_app in Hlen. simpl in Hlen. lia. }
    apply Forall_app in H1 as [H1 Hd1]. rewrite Forall_singleton in Hd1.
    apply Forall_app in H2 as [H2 Hd2]. rewrite Forall_singleton in Hd2.
    rewrite !length_app in Hlen. simpl in Hlen.
    rewrite !hex_value_snoc in Hv.
    assert (d1 = d2) by lia. subst d2.
    f_equal. apply IH; [done|done|lia|lia].
Qed.

Lemma hex_digits_range address : Forall (λ d, 0 ≤ d < 16) (hex_digits address).
Proof.
  unfold hex_digits. apply Forall_forall. intros d Hd.
  apply list_elem_of_omap in Hd as (c & _ & Hc). by apply (digit_value_range c).
Qed.

Lemma mac_to_int_eq address :
  colon_separated address →
  mac_to_int address
  = match hex_digits address with
    | [] => None
    | digits => Some (hex_value digits)
    end.
Proof.
  intros Hc. unfold mac_to_int, hex_digits.
  destruct (colon_separated_digits _ Hc) as [H1 H2].
  rewrite int_base16_hex by by rewrite replace_char_colons.
  rewrite replace_char_colons, H2.
  destruct (filter _ _) as [|c h] eqn:Hf.
  - simpl in H2. by rewrite <- H2.
  - inversion H1 as [|? ? [d Hd] _]; subst. simpl in H2. rewrite Hd in H2.
    by rewrite <- H2.
Qed.

(** X14. [mac_to_int] reads an address written with hexadecimal digits and
    colons as the number that its digits write in base 16, the colons left
    out wherever they stand and upper and lower case alike; the number is
    not negative and below 16 to the number of digits, so below 2^48 for
    the twelve digits of a MAC address.  An address without a digit is a
    ValueError. *)
Theorem mac_to_int_value (address : string) :
  colon_separated address →
  (hex_digits address = [] → mac_to_int address = None)
  ∧ (hex_digits address ≠ [] →
     mac_to_int address = Some (hex_value (hex_digits address))
     ∧ 0 ≤ hex_value (hex_digits address) < 16 ^ Z.of_nat (length (hex_digits address))
     ∧ (length (hex_digits address) = 12%nat →
        hex_value (hex_digits address) < 2 ^ 48)).
Proof.
  intros Hc. rewrite (mac_to_int_eq _ Hc).
  pose proof (hex_value_bounds _ (hex_digits_range address)) as Hb.
  split; [by intros ->|]. intros Hne.
  split; [by destruct (hex_digits address)|]. split; [exact Hb|].
  intros H12. rewrite H12 in Hb. change (16 ^ Z.of_nat 12) with (2 ^ 48) in Hb. lia.
Qed.

(** X15. Two addresses with the same number of digits that [mac_to_int] reads as
    the same number have the same digits: the peers of two different MAC
    addresses never share a number, and so never a key of the cache. *)
Theorem mac_to_int_injective (a b : string) :
  colon_separated a → colon_separated b →
  length (hex_digits a) = length (hex_digits b) →
  mac_to_int a = mac_to_int b →
  hex_digits a = hex_digits b.
Proof.
  intros Ha Hb Hlen. rewrite (mac_to_int_eq _ Ha), (mac_to_int_eq _ Hb).
  intros Heq.
  apply hex_value_inj; [apply hex_digits_range|apply hex_digits_range|done|].
  destruct (hex_digits a) as [|da la] eqn:Ea, (hex_digits b) as [|db lb] eqn:Eb;
    try done. by injection Heq.
Qed.

(** ** What the events leave alone *)

(** The link-drop handling is the cleanup, followed by the callback of the
    consumer when the client was connected. *)
Lemma device_disconnected_from_cleanup (R : relation ESPHomeClient) :
  (∀ s1 s2 s3, R s1 s2 → R s2 s3 → R s1 s3) →
  (∀ s, R s (_async_disconnected_cleanup s)) →
  (∀ s, R s (_async_call_bleak_disconnected_callback s)) →
  ∀ s, R s (_async_ble_device_disconnected s).
Proof.
  intros Htrans Hcleanup Hcallback s. rewrite ble_device_disconnected_eq.
  destruct (_is_connected s); [|apply Hcleanup].
  eapply Htrans; [apply Hcleanup|apply Hcallback].
Qed.

Section Events.

Variable R : relation ESPHomeClient.

Section Drop.
Hypothesis HR : drop_stable R.

Lemma drop_ble_device_disconnected s : R s (_async_ble_device_disconnected s).
Proof. apply (drop_device_disconnected R HR). Qed.

Lemma drop_esp_disconnected s : R s (_async_esp_disconnected s).1.
Proof.
  unfold _async_esp_disconnected.
  destruct (list_remove _ _); simpl; [|apply (drop_refl R HR)].
  eapply (drop_trans R HR); [|apply drop_ble_device_disconnected].
  apply (drop_disconnect_callbacks R HR).
Qed.

Lemma drop_complete_connected_future f error s :
  R s (complete_connected_future f false error s).
Proof.
  unfold complete_connected_future.
  destruct (done (futures s) f) eqn:Hd; [apply (drop_refl R HR)|].
  destruct (negb (error =? 0)); by apply (drop_set_exception R HR).
Qed.

Lemma drop_handle_event ev s :
  connected_signal ev = false → R s (handle_event ev s).
Proof.
  destruct ev as [f [] mtu error| |n]; simpl; try done; intros _.
  - unfold _on_bluetooth_connection_state, apply_connection_state. cbv zeta.
    eapply (drop_trans R HR); [apply drop_ble_device_disconnected|].
    apply drop_complete_connected_future.
  - apply drop_esp_disconnected.
  - apply (drop_connections_free R HR).
Qed.

Lemma drop_run_events evs s :
  no_connected_signal evs = true → R s (run_events evs s).
Proof.
  unfold run_events, no_connected_signal. revert s.
  induction evs as [|ev evs IH]; intros s; simpl; [intros _; apply (drop_refl R HR)|].
  intros [H1 H2]%andb_prop. apply negb_true_iff in H1.
  eapply (drop_trans R HR); [by apply drop_handle_event|by apply IH].
Qed.

End Drop.

Hypothesis HR : event_stable R.

Lemma event_complete_connected_future f connected error s :
  R s (complete_connected_future f connected error s).
Proof.
  pose proof (event_drop R HR) as HD.
  unfold complete_connected_future.
  destruct (done (futures s) f) eqn:Hd; [apply (drop_refl R HD)|].
  destruct (negb (error =? 0)); [by apply (drop_set_exception R HD)|].
  destruct connected; simpl; [|by apply (drop_set_exception R HD)].
  eapply (drop_trans R HD); [apply (drop_disconnect_callbacks R HD)|].
  by apply (event_set_result R HR).
Qed.

Lemma event_apply_connection_state connected mtu s :
  R s (apply_connection_state connected mtu s).
Proof.
  pose proof (event_drop R HR) as HD.
  unfold apply_connection_state.
  destruct connected; [|by apply drop_ble_device_disconnected]. cbv zeta.
  eapply (drop_trans R HD); [apply (event_connected R HR)|].
  destruct (mtu_falsy _) eqn:Hm; [|apply (drop_refl R HD)].
  exact (event_latch R HR mtu (set_is_connected true s) Hm).
Qed.

Lemma event_handle_event ev s : R s (handle_event ev s).
Proof.
  pose proof (event_drop R HR) as HD.
  destruct ev as [f connected mtu error| |n]; simpl.
  - unfold _on_bluetooth_connection_state. cbv zeta.
    eapply (drop_trans R HD); [apply event_apply_connection_state|].
    apply event_complete_connected_future.
  - by apply drop_esp_disconnected.
  - apply (drop_connections_free R HD).
Qed.

Lemma event_run_events evs s : R s (run_events evs s).
Proof.
  pose proof (event_drop R HR) as HD.
  unfold run_events. revert s.
  induction evs as [|ev evs IH]; intros s; simpl; [apply (drop_refl R HD)|].
  eapply (drop_trans R HD); [apply event_handle_event|apply IH].
Qed.

End Events.

Lemma requests_emit e s :
  requests (emit e s)
  = requests s ++ match e with Await c => [c] | _ => [] end.
Proof.
  unfold requests, emit. simpl. rewrite omap_app. f_equal. by destruct e.
Qed.

Lemma requests_cleanup s : requests (_async_disconnected_cleanup s) = requests s.
Proof.
  unfold requests. rewrite cleanup_eq. simpl. rewrite !omap_app.
  assert (H : omap (λ e, match e with Await c => Some c | _ => None end)
                ((λ kv : Z * nat, NotifyAbort kv.2) <$> map_to_list (_notify_cancels s)) = []).
  { induction (map_to_list (_notify_cancels s)) as [|kv l IH]; [done|]. exact IH. }
  rewrite H. destruct (_cancel_connection_state s); simpl; by rewrite !app_nil_r.
Qed.

Lemma event_frame_stable : event_stable event_frame.
Proof.
  assert (Htrans : ∀ s1 s2 s3, event_frame s1 s2 → event_frame s2 s3 → event_frame s1 s3).
  { unfold event_frame.
    intros s1 s2 s3 (I12 & Q12 & C12 & M12 & U12 & N12 & S12 & D12)
      (I23 & Q23 & C23 & M23 & U23 & N23 & S23 & D23).
    destruct I12 as (? & ? & Ha & ? & ? & ? & ?), I23 as (? & ? & ? & ? & ? & ? & ?).
    split; [repeat split; congruence|].
    split; [congruence|]. split; [congruence|].
    split; [intros a Hne; rewrite M23 by congruence; by apply M12|].
    split; [destruct U23 as [->| ->]; [done|by right]|].
    split; [destruct N23 as [->| ->]; [done|by right]|].
    split; [destruct S23 as [->| ->]; [done|by right]|].
    destruct D23 as [->| ->]; [done|by right]. }
  assert (Hrefl : ∀ s, event_frame s s).
  { intros s. unfold event_frame. repeat split; try done; by left. }
  assert (Hsame : ∀ s s' : ESPHomeClient,
            trace s' = trace s → _cache s' = _cache s →
            _ble_device s' = _ble_device s → _source_name s' = _source_name s →
            _address_as_int s' = _address_as_int s → _address_type s' = _address_type s →
            _feature_flags s' = _feature_flags s → _timeout s' = _timeout s →
            device_name s' = device_name s →
            _cancel_connection_state s' = _cancel_connection_state s →
            _notify_cancels s' = _notify_cancels s → services s' = services s →
            _disconnected_callback s' = _disconnected_callback s →
            event_frame s s').
  { intros s s' Ht Hc ? ? ? ? ? ? ? ? ? ? ?. unfold event_frame, requests.
    rewrite Ht, Hc. repeat split; try done; by left. }
  split; [split|..].
  - exact Hrefl.
  - exact Htrans.
  - apply (device_disconnected_from_cleanup event_frame Htrans).
    + intros s. unfold event_frame. rewrite requests_cleanup. rewrite cleanup_eq. simpl.
      repeat split; try done; try (by left); by right.
    + intros s. unfold _async_call_bleak_disconnected_callback.
      destruct (_disconnected_callback s) eqn:Hcb; [|apply Hrefl].
      unfold event_frame. cbv zeta.
      change (requests (set_disconnected_callback None ?x)) with (requests x).
      rewrite requests_emit. simpl. rewrite app_nil_r.
      repeat split; try done; try (by left); by right.
  - intros f msg s _. by apply Hsame.
  - intros v s. by apply Hsame.
  - intros v s. by apply Hsame.
  - intros s. by apply Hsame.
  - intros mtu s _. unfold event_frame. simpl.
    repeat split; try done; try (by left).
    intros a Hne. by rewrite lookup_insert_ne.
  - intros f s _. by apply Hsame.
Qed.

(** ** The two wrappers around a body *)

Lemma bind_raise_eq {A B} (m : M A) (k : A → M B) s s' e :
  m s = (s', Raise e) → bind m k s = (s', Raise e).
Proof. intros H. unfold bind. by rewrite H. Qed.

Lemma bind_return_eq {A B} (m : M A) (k : A → M B) s s' a :
  m s = (s', Return a) → bind m k s = k a s'.
Proof. intros H. unfold bind. by rewrite H. Qed.

Lemma api_error_pass {A} (func : M A) s s' e :
  func s = (s', Raise e) → is_api_error e = false →
  api_error_as_bleak_error func s = (s', Raise e).
Proof.
  intros H He. rewrite (api_error_as_bleak_error_raise func s s' e H). by destruct e.
Qed.

Lemma api_error_ext {A} (f g : M A) s :
  f s = g s → api_error_as_bleak_error f s = api_error_as_bleak_error g s.
Proof. intros H. unfold api_error_as_bleak_error, try_except. by rewrite H. Qed.

Lemma verify_connected_ext {A} (f g : M A) s :
  f (registered s) = g (registered s) → verify_connected f s = verify_connected g s.
Proof. intros H. by rewrite !verify_connected_eq, H. Qed.

Lemma discard_registered s :
  discard_disconnected_future (waiter_of s) (registered s)
  = set_futures (<[waiter_of s := Pending]> (futures s)) s.
Proof.
  rewrite registered_eq. unfold discard_disconnected_future. simpl.
  assert (H : ({[waiter_of s]} ∪ _disconnected_futures s) ∖ {[waiter_of s]}
              = _disconnected_futures s).
  { apply set_eq. intros f.
    rewrite elem_of_difference, elem_of_union, elem_of_singleton.
    pose proof (fresh_future_not_waiting s) as Hfresh.
    split; [intros [[->|?] ?]; done|].
    intros Hf. split; [by right|]. intros ->. by apply Hfresh. }
  unfold set_disconnected_futures, set_futures. simpl. by rewrite H.
Qed.

(** A wrapped function that leaves the client alone and is not cancelled:
    the call leaves the client alone, too. *)
Lemma verify_connected_quiet {A} (func : M A) s r :
  func (registered s) = (registered s, r) → r ≠ Raise CancelledError →
  verify_connected func s
  = (set_futures (<[waiter_of s := Pending]> (futures s)) s, r).
Proof.
  intros H Hr. rewrite verify_connected_eq, H, discard_registered.
  f_equal. destruct r as [a|e]; [done|]. by destruct e.
Qed.

Lemma untouched_set_futures v s : untouched s (set_futures v s).
Proof. done. Qed.

Lemma requests_ble_device_disconnected s :
  requests (_async_ble_device_disconnected s) = requests s.
Proof.
  apply (drop_ble_device_disconnected event_frame (event_drop _ event_frame_stable)).
Qed.

Lemma requests_run_events evs s : requests (run_events evs s) = requests s.
Proof. apply (event_run_events event_frame event_frame_stable). Qed.

Lemma requests_await {A} (c : awaited) (r : reply A) s :
  requests (await c r s).1 = requests s ++ [c].
Proof. unfold await. simpl. by rewrite requests_run_events, requests_emit. Qed.

Lemma requests_api_error {A} (func : M A) s :
  requests (api_error_as_bleak_error func s).1 = requests (func s).1.
Proof.
  destruct (func s) as [s1 [a|e]] eqn:H.
  - by rewrite (api_error_as_bleak_error_return func s s1 a H).
  - rewrite (api_error_as_bleak_error_raise func s s1 e H).
    destruct e; try done. simpl.
    destruct (error =? -1); [apply requests_ble_device_disconnected|done].
Qed.

Lemma requests_verify_connected {A} (func : M A) s :
  requests (verify_connected func s).1 = requests (func (registered s)).1.
Proof. rewrite verify_connected_eq. by destruct (func (registered s)). Qed.

(** A remote call inside the two wrappers: the request goes out, once, and
    what the remote client answers is what the caller gets. *)
Lemma wrapped_await_requests {A} (c : awaited) (r : reply A) s :
  requests (verify_connected (api_error_as_bleak_error (await c r)) s).1
  = requests s ++ [c].
Proof. by rewrite requests_verify_connected, requests_api_error, requests_await. Qed.

Lemma wrapped_await_return {A} (c : awaited) (r : reply A) s a :
  result r = Return a →
  (verify_connected (api_error_as_bleak_error (await c r)) s).2 = Return a.
Proof.
  intros Hr. rewrite verify_connected_eq.
  unfold api_error_as_bleak_error, try_except, await. by rewrite Hr.
Qed.

(** ** The resolution of a characteristic *)

Lemma resolve_characteristic_state sp s : (_resolve_characteristic sp s).1 = s.
Proof.
  unfold _resolve_characteristic, bind, gets.
  destruct (services s) as [c|]; [|done].
  destruct sp as [x|h|u]; simpl; try done.
  - by destruct (head _).
  - destruct (filter _ _) as [|x [|y l]]; done.
Qed.

Lemma resolve_characteristic_services sp s s' :
  services s' = services s →
  (_resolve_characteristic sp s').2 = (_resolve_characteristic sp s).2.
Proof.
  intros H. unfold _resolve_characteristic, bind, gets. rewrite H.
  destruct (services s) as [c|]; [|done].
  destruct sp as [x|h|u]; simpl; try done.
  - by destruct (head _).
  - destruct (filter _ _) as [|x [|y l]]; done.
Qed.

Lemma resolve_characteristic_registered sp s :
  _resolve_characteristic sp (registered s)
  = (registered s, (_resolve_characteristic sp s).2).
Proof.
  rewrite (surjective_pairing (_resolve_characteristic sp (registered s))).
  by rewrite resolve_characteristic_state, (resolve_characteristic_services sp s).
Qed.

Lemma resolve_characteristic_none sp s :
  services s = None →
  _resolve_characteristic sp s = (s, Raise (BleakError "Services have not been resolved")).
Proof. intros H. unfold _resolve_characteristic, bind, gets. by rewrite H. Qed.

Lemma resolve_characteristic_object c s :
  services s ≠ None → _resolve_characteristic (ByObject c) s = (s, Return c).
Proof.
  intros H. unfold _resolve_characteristic, bind, gets.
  by destruct (services s).
Qed.

Lemma resolve_characteristic_not_found sp s :
  services s = Some empty_collection → (∀ c, sp ≠ ByObject c) →
  _resolve_characteristic sp s
  = (s, Raise (BleakError ("Characteristic " +:+ specifier_str sp +:+ " was not found!"))).
Proof.
  intros H Hsp. unfold _resolve_characteristic, bind, gets. rewrite H.
  destruct sp as [x|h|u]; [by destruct (Hsp x)|done|done].
Qed.

(** The three operations that start with the resolution, when it fails. *)
Lemma unresolved_operation {B} (sp : char_specifier)
  (k : BleakGATTCharacteristicESPHome → M B) s msg :
  (_resolve_characteristic sp s).2 = Raise (BleakError msg) →
  verify_connected (api_error_as_bleak_error
    (characteristic <- _resolve_characteristic sp ;; k characteristic)) s
  = (set_futures (<[waiter_of s := Pending]> (futures s)) s, Raise (BleakError msg)).
Proof.
  intros H. apply verify_connected_quiet; [|done].
  apply api_error_pass; [|done].
  apply bind_raise_eq. by rewrite resolve_characteristic_registered, H.
Qed.

Lemma resolved_operation {B} (sp : char_specifier)
  (k : BleakGATTCharacteristicESPHome → M B) s c :
  (_resolve_characteristic sp s).2 = Return c →
  verify_connected (api_error_as_bleak_error
    (characteristic <- _resolve_characteristic sp ;; k characteristic)) s
  = verify_connected (api_error_as_bleak_error (k c)) s.
Proof.
  intros H. apply verify_connected_ext, api_error_ext.
  apply bind_return_eq. by rewrite resolve_characteristic_registered, H.
Qed.

(** X1. Before the services of the peer have been resolved, no operation on
    a characteristic goes to the remote client: a read, a write and the end
    of a notification fail with the BleakError "Services have not been
    resolved", however the characteristic is named, and leave the client as
    it was. *)
Theorem characteristic_operations_need_services (s : ESPHomeClient)
  (sp : char_specifier) (data : list Byte.byte) (response : bool)
  (r : reply (list Byte.byte)) (w : reply unit) :
  services s = None →
  let failure := BleakError "Services have not been resolved" in
  (read_gatt_char sp r s).2 = Raise failure
  ∧ (write_gatt_char sp data response w s).2 = Raise failure
  ∧ (stop_notify sp w s).2 = Raise failure
  ∧ untouched s (read_gatt_char sp r s).1
  ∧ untouched s (write_gatt_char sp data response w s).1
  ∧ untouched s (stop_notify sp w s).1.
Proof.
  intros Hs. cbv zeta.
  assert (H : (_resolve_characteristic sp s).2
              = Raise (BleakError "Services have not been resolved"))
    by by rewrite resolve_characteristic_none.
  unfold read_gatt_char, write_gatt_char, stop_notify.
  rewrite !(unresolved_operation sp _ s _ H). done.
Qed.

(** X2. Against the empty topology that the cleanup of a disconnect leaves,
    a characteristic named by its handle or by its UUID is not found: the
    read, the write and the end of a notification fail with "Characteristic
    ... was not found!", nothing goes to the remote client and the client
    stays as the cleanup left it. *)
Theorem lookups_fail_after_cleanup (s : ESPHomeClient)
  (sp : char_specifier) (data : list Byte.byte) (response : bool)
  (r : reply (list Byte.byte)) (w : reply unit) :
  (∀ c, sp ≠ ByObject c) →
  let s1 := _async_disconnected_cleanup s in
  let failure :=
    BleakError ("Characteristic " +:+ specifier_str sp +:+ " was not found!") in
  (read_gatt_char sp r s1).2 = Raise failure
  ∧ (write_gatt_char sp data response w s1).2 = Raise failure
  ∧ (stop_notify sp w s1).2 = Raise failure
  ∧ untouched s1 (read_gatt_char sp r s1).1
  ∧ untouched s1 (write_gatt_char sp data response w s1).1
  ∧ untouched s1 (stop_notify sp w s1).1.
Proof.
  intros Hsp. cbv zeta.
  assert (H : (_resolve_characteristic sp (_async_disconnected_cleanup s)).2
              = Raise (BleakError ("Characteristic " +:+ specifier_str sp
                                   +:+ " was not found!"))).
  { rewrite resolve_characteristic_not_found; [done| |done]. apply cleanup_services. }
  unfold read_gatt_char, write_gatt_char, stop_notify.
  rewrite !(unresolved_operation sp _ _ _ H). done.
Qed.

(** X3. A characteristic that is handed over as an object is taken as it
    is: it is not looked up in the topology of the client, which may be any,
    the empty one of a disconnected client included.  The read and the write
    go to the remote client with the handle of the object, as the one
    request of the call, and a read returns what the remote client
    answers. *)
Theorem characteristic_object_is_not_looked_up (s : ESPHomeClient)
  (c : BleakGATTCharacteristicESPHome) (data : list Byte.byte) (response : bool)
  (r : reply (list Byte.byte)) (w : reply unit) :
  services s ≠ None →
  _resolve_characteristic (ByObject c) s = (s, Return c)
  ∧ requests (read_gatt_char (ByObject c) r s).1
    = requests s ++ [bluetooth_gatt_read (_address_as_int s) (handle c) GATT_READ_TIMEOUT]
  ∧ requests (write_gatt_char (ByObject c) data response w s).1
    = requests s ++ [bluetooth_gatt_write (_address_as_int s) (handle c) data response]
  ∧ (∀ answer, result r = Return answer →
       (read_gatt_char (ByObject c) r s).2 = Return answer)
  ∧ (result w = Return tt →
       (write_gatt_char (ByObject c) data response w s).2 = Return tt).
Proof.
  intros Hs.
  pose proof (resolve_characteristic_object c s Hs) as Hc.
  assert (H : (_resolve_characteristic (ByObject c) s).2 = Return c) by by rewrite Hc.
  split; [exact Hc|].
  unfold read_gatt_char, write_gatt_char.
  rewrite !(resolved_operation (ByObject c) _ s c H).
  assert (Hr : verify_connected (api_error_as_bleak_error
                 (address_as_int <- gets _address_as_int ;;
                  await (bluetooth_gatt_read address_as_int (handle c) GATT_READ_TIMEOUT) r)) s
               = verify_connected (api_error_as_bleak_error
                   (await (bluetooth_gatt_read (_address_as_int s) (handle c)
                             GATT_READ_TIMEOUT) r)) s)
    by by apply verify_connected_ext, api_error_ext.
  assert (Hw : verify_connected (api_error_as_bleak_error
                 (address_as_int <- gets _address_as_int ;;
                  await (bluetooth_gatt_write address_as_int (handle c) data response) w)) s
               = verify_connected (api_error_as_bleak_error
                   (await (bluetooth_gatt_write (_address_as_int s) (handle c)
                             data response) w)) s)
    by by apply verify_connected_ext, api_error_ext.
  rewrite Hr, Hw.
  split; [apply wrapped_await_requests|]. split; [apply wrapped_await_requests|].
  split; [intros answer; apply wrapped_await_return|apply wrapped_await_return].
Qed.

(** ** Notifications *)

Lemma frame_ble_device_disconnected s : event_frame s (_async_ble_device_disconnected s).
Proof.
  apply (drop_ble_device_disconnected event_frame (event_drop _ event_frame_stable)).
Qed.

Lemma frame_run_events evs s : event_frame s (run_events evs s).
Proof. apply (event_run_events event_frame event_frame_stable). Qed.

Lemma frame_api_error {A} (func : M A) s :
  event_frame (func s).1 (api_error_as_bleak_error func s).1.
Proof.
  pose proof (event_drop _ event_frame_stable) as HD.
  destruct (func s) as [s1 [a|e]] eqn:H.
  - rewrite (api_error_as_bleak_error_return func s s1 a H). apply (drop_refl _ HD).
  - rewrite (api_error_as_bleak_error_raise func s s1 e H).
    destruct e; try apply (drop_refl _ HD). simpl.
    destruct (error =? -1); [apply frame_ble_device_disconnected|apply (drop_refl _ HD)].
Qed.

Lemma start_notify_eq (c : BleakGATTCharacteristicESPHome)
  (r : reply notify_cancel) (w : reply unit) s :
  start_notify c r w s
  = verify_connected (api_error_as_bleak_error (λ s0,
      if bool_decide (is_Some (_notify_cancels s !! handle c)) then
        (s0, Raise (BleakError ("Notifications are already enabled on service:"
                                +:+ service_uuid c +:+ " characteristic:"
                                +:+ uuid c +:+ " handle:" +:+ pretty (handle c))))
      else if negb (bool_decide ("notify" ∈ properties c))
              && negb (bool_decide ("indicate" ∈ properties c)) then
        (s0, Raise (BleakError ("Characteristic " +:+ uuid c
                                +:+ " does not have notify or indicate property set.")))
      else
        let s1 := run_events (during r)
                    (emit (Await (bluetooth_gatt_start_notify (_address_as_int s) (handle c)))
                       s0) in
        match result r with
        | Raise e => (s1, Raise e)
        | Return cancel =>
            let s2 := set_notify_cancels (<[handle c := cancel]> (_notify_cancels s1)) s1 in
            if negb (has_feature (_feature_flags s) BluetoothProxyFeature.REMOTE_CACHING)
            then (s2, Return tt)
            else
              match get_descriptor c CCCD_UUID with
              | None =>
                  (s2, Raise (BleakError
                                ("Characteristic " +:+ uuid c
                                 +:+ " does not have a characteristic client config descriptor.")))
              | Some d =>
                  await (bluetooth_gatt_write_descriptor (_address_as_int s) (desc_handle d)
                           (if bool_decide ("notify" ∈ properties c)
                            then CCCD_NOTIFY_BYTES else CCCD_INDICATE_BYTES)
                           false) w s2
              end
        end)) s.
Proof.
  unfold start_notify. apply verify_connected_ext, api_error_ext.
  cbv zeta. unfold bind at 1. unfold gets at 1.
  change (_notify_cancels (registered s)) with (_notify_cancels s).
  destruct (bool_decide (is_Some (_notify_cancels s !! handle c))); [done|].
  destruct (negb _ && negb _); [done|].
  unfold bind at 1. unfold gets at 1.
  change (_address_as_int (registered s)) with (_address_as_int s).
  unfold bind at 1. unfold await at 1. cbn [during result fst snd].
  destruct (result r) as [cancel|e]; [|done].
  unfold bind at 1. unfold modify at 1. unfold bind at 1. unfold gets at 1.
  match goal with |- context [_feature_flags (set_notify_cancels ?v (run_events ?evs ?x))] =>
    change (_feature_flags (set_notify_cancels v (run_events evs x)))
      with (_feature_flags (run_events evs x));
    destruct (frame_run_events evs x) as ((_ & _ & _ & _ & -> & _) & _)
  end.
  change (_feature_flags (emit ?e (registered s))) with (_feature_flags s).
  destruct (negb _); [done|]. by destruct (get_descriptor c CCCD_UUID).
Qed.

Lemma start_notify_enabled s c r w :
  is_Some (_notify_cancels s !! handle c) →
  start_notify c r w s
  = (set_futures (<[waiter_of s := Pending]> (futures s)) s,
     Raise (BleakError ("Notifications are already enabled on service:"
                        +:+ service_uuid c +:+ " characteristic:"
                        +:+ uuid c +:+ " handle:" +:+ pretty (handle c)))).
Proof.
  intros Hon. rewrite start_notify_eq.
  apply verify_connected_quiet; [|done].
  apply api_error_pass; [|done]. by rewrite bool_decide_eq_true_2.
Qed.

(** X4. [start_notify] refuses a characteristic whose notifications are on
    already, and one that can neither notify nor indicate, each with its
    BleakError; nothing goes to the remote client and the client stays as
    it was, its registry of notifications included. *)
Theorem start_notify_refuses (s : ESPHomeClient) (c : BleakGATTCharacteristicESPHome)
  (r : reply notify_cancel) (w : reply unit) :
  (is_Some (_notify_cancels s !! handle c) →
     (start_notify c r w s).2
     = Raise (BleakError ("Notifications are already enabled on service:"
                          +:+ service_uuid c +:+ " characteristic:"
                          +:+ uuid c +:+ " handle:" +:+ pretty (handle c)))
     ∧ untouched s (start_notify c r w s).1)
  ∧ (_notify_cancels s !! handle c = None →
     "notify" ∉ properties c → "indicate" ∉ properties c →
     (start_notify c r w s).2
     = Raise (BleakError ("Characteristic " +:+ uuid c
                          +:+ " does not have notify or indicate property set."))
     ∧ untouched s (start_notify c r w s).1).
Proof.
  split.
  - intros Hon. by rewrite start_notify_enabled.
  - intros Hoff Hn Hi. rewrite start_notify_eq.
    erewrite verify_connected_quiet; [done| |done].
    apply api_error_pass; [|done].
    rewrite bool_decide_eq_false_2 by (rewrite Hoff; by intros [? ?]).
    by rewrite !bool_decide_eq_false_2.
Qed.

Lemma notify_cancels_api_error {A} (func : M A) s h cancel :
  (∀ msg, (func s).2 ≠ Raise (BluetoothGATTAPIError (-1) msg)) →
  _notify_cancels (func s).1 !! h = Some cancel →
  _notify_cancels (api_error_as_bleak_error func s).1 !! h = Some cancel.
Proof.
  intros Hne H. destruct (func s) as [s1 [a|e]] eqn:Hf.
  - by rewrite (api_error_as_bleak_error_return func s s1 a Hf).
  - rewrite (api_error_as_bleak_error_raise func s s1 e Hf).
    destruct e; try done. simpl.
    destruct (error =? -1) eqn:He; [|done].
    apply Z.eqb_eq in He. subst error. by destruct (Hne msg).
Qed.

Lemma start_notify_supported c :
  "notify" ∈ properties c ∨ "indicate" ∈ properties c →
  negb (bool_decide ("notify" ∈ properties c))
  && negb (bool_decide ("indicate" ∈ properties c)) = false.
Proof.
  intros [H|H].
  - by rewrite (bool_decide_eq_true_2 _ H).
  - rewrite (bool_decide_eq_true_2 _ H). by destruct (bool_decide _).
Qed.

Lemma start_notify_registered_eq s c r w cancel :
  _notify_cancels s !! handle c = None →
  "notify" ∈ properties c ∨ "indicate" ∈ properties c →
  result r = Return cancel →
  has_feature (_feature_flags s) BluetoothProxyFeature.REMOTE_CACHING = false
  ∨ get_descriptor c CCCD_UUID = None →
  start_notify c r w s
  = let s1 := run_events (during r)
                (emit (Await (bluetooth_gatt_start_notify (_address_as_int s) (handle c)))
                   (registered s)) in
    (discard_disconnected_future (waiter_of s)
       (set_notify_cancels (<[handle c := cancel]> (_notify_cancels s1)) s1),
     if has_feature (_feature_flags s) BluetoothProxyFeature.REMOTE_CACHING
     then Raise (BleakError
                   ("Characteristic " +:+ uuid c
                    +:+ " does not have a characteristic client config descriptor."))
     else Return tt).
Proof.
  intros Hoff Hsup Hr Hcase. rewrite start_notify_eq.
  rewrite bool_decide_eq_false_2 by (rewrite Hoff; by intros [? ?]).
  rewrite (start_notify_supported c Hsup), Hr. cbv zeta.
  rewrite verify_connected_eq.
  unfold api_error_as_bleak_error, try_except.
  destruct (has_feature _ _) eqn:Hf; cbn [negb]; [|done].
  destruct Hcase as [?|Hd]; [done|]. by rewrite Hd.
Qed.

(** X5. Once the remote client has answered the start of a notification,
    the subscription is in the registry of the client under the handle of
    the characteristic, and the start request is the one request made.
    That is so when the call returns, on a proxy without remote caching,
    and also when it fails afterwards because the characteristic has no
    client configuration descriptor to write to, on a proxy with remote
    caching: the call raises, the subscription stays, and a second start
    is refused as already enabled. *)
Theorem start_notify_registers (s : ESPHomeClient) (c : BleakGATTCharacteristicESPHome)
  (r r' : reply notify_cancel) (w w' : reply unit) (cancel : notify_cancel) :
  _notify_cancels s !! handle c = None →
  "notify" ∈ properties c ∨ "indicate" ∈ properties c →
  result r = Return cancel →
  let s' := (start_notify c r w s).1 in
  let request := bluetooth_gatt_start_notify (_address_as_int s) (handle c) in
  (has_feature (_feature_flags s) BluetoothProxyFeature.REMOTE_CACHING = false →
     (start_notify c r w s).2 = Return tt
     ∧ requests s' = requests s ++ [request]
     ∧ _notify_cancels s' !! handle c = Some cancel)
  ∧ (has_feature (_feature_flags s) BluetoothProxyFeature.REMOTE_CACHING = true →
     get_descriptor c CCCD_UUID = None →
     (start_notify c r w s).2
     = Raise (BleakError
                ("Characteristic " +:+ uuid c
                 +:+ " does not have a characteristic client config descriptor."))
     ∧ requests s' = requests s ++ [request]
     ∧ _notify_cancels s' !! handle c = Some cancel
     ∧ (start_notify c r' w' s').2
       = Raise (BleakError ("Notifications are already enabled on service:"
                            +:+ service_uuid c +:+ " characteristic:"
                            +:+ uuid c +:+ " handle:" +:+ pretty (handle c)))).
Proof.
  intros Hoff Hsup Hr. cbv zeta.
  assert (Hreg : ∀ f v x, _notify_cancels (discard_disconnected_future f
                              (set_notify_cancels (<[handle c := cancel]> v) x))
                          !! handle c = Some cancel).
  { intros f v x.
    change (_notify_cancels (discard_disconnected_future f (set_notify_cancels ?m x)))
      with m.
    by rewrite lookup_insert_eq. }
  assert (Hreq : ∀ f v evs,
            requests (discard_disconnected_future f
                        (set_notify_cancels v
                           (run_events evs
                              (emit (Await (bluetooth_gatt_start_notify (_address_as_int s)
                                              (handle c))) (registered s)))))
            = requests s ++ [bluetooth_gatt_start_notify (_address_as_int s) (handle c)]).
  { intros f v evs.
    change (requests (discard_disconnected_future f (set_notify_cancels v ?x)))
      with (requests x).
    by rewrite requests_run_events, requests_emit. }
  split.
  - intros Hf.
    rewrite (start_notify_registered_eq s c r w cancel Hoff Hsup Hr (or_introl Hf)).
    cbv zeta. rewrite Hf. cbn [fst snd].
    split; [done|]. split; [apply Hreq|apply Hreg].
  - intros Hf Hd.
    rewrite (start_notify_registered_eq s c r w cancel Hoff Hsup Hr (or_intror Hd)).
    cbv zeta. rewrite Hf. cbn [fst snd].
    split; [done|]. split; [apply Hreq|]. split; [apply Hreg|].
    rewrite start_notify_enabled; [done|]. by rewrite Hreg.
Qed.

(** X6. On a proxy with remote caching the client itself turns the
    notifications on at the peer: after the start request it writes the
    client configuration descriptor of the characteristic, without waiting
    for a response, the bytes 01 00 when the characteristic can notify and
    otherwise 02 00 to have it indicate.  The call returns when the write
    does; when the write fails for another reason than a lost link the
    subscription stays in the registry. *)
Theorem start_notify_writes_cccd (s : ESPHomeClient) (c : BleakGATTCharacteristicESPHome)
  (r : reply notify_cancel) (w : reply unit) (cancel : notify_cancel)
  (d : BluetoothGATTDescriptor) :
  _notify_cancels s !! handle c = None →
  "notify" ∈ properties c ∨ "indicate" ∈ properties c →
  result r = Return cancel →
  has_feature (_feature_flags s) BluetoothProxyFeature.REMOTE_CACHING = true →
  get_descriptor c CCCD_UUID = Some d →
  let s' := (start_notify c r w s).1 in
  let value := if bool_decide ("notify" ∈ properties c)
               then CCCD_NOTIFY_BYTES else CCCD_INDICATE_BYTES in
  requests s'
  = requests s
    ++ [bluetooth_gatt_start_notify (_address_as_int s) (handle c);
        bluetooth_gatt_write_descriptor (_address_as_int s) (desc_handle d) value false]
  ∧ ("notify" ∈ properties c → value = [Byte.x01; Byte.x00])
  ∧ ("notify" ∉ properties c → value = [Byte.x02; Byte.x00])
  ∧ (result w = Return tt → (start_notify c r w s).2 = Return tt)
  ∧ (during w = [] →
     (∀ msg, result w ≠ Raise (BluetoothGATTAPIError (-1) msg)) →
     _notify_cancels s' !! handle c = Some cancel).
Proof.
  intros Hoff Hsup Hr Hf Hd. cbv zeta.
  rewrite start_notify_eq.
  rewrite bool_decide_eq_false_2 by (rewrite Hoff; by intros [? ?]).
  rewrite (start_notify_supported c Hsup), Hr, Hf, Hd. cbn [negb]. cbv zeta.
  split; [|split; [|split; [|split]]].
  - rewrite requests_verify_connected, requests_api_error, requests_await.
    change (requests (set_notify_cancels ?v ?x)) with (requests x).
    rewrite requests_run_events, requests_emit. by rewrite <- app_assoc.
  - intros H. by rewrite (bool_decide_eq_true_2 _ H).
  - intros H. by rewrite (bool_decide_eq_false_2 _ H).
  - intros Hw. rewrite verify_connected_eq.
    unfold api_error_as_bleak_error, try_except, await. by rewrite Hw.
  - intros Hquiet Hne. rewrite verify_connected_eq.
    match goal with |- context [api_error_as_bleak_error ?f ?x] =>
      pose proof (notify_cancels_api_error f x (handle c) cancel) as Hk;
      destruct (api_error_as_bleak_error f x) as [s3 o3] end.
    cbn [fst snd] in *.
    change (_notify_cancels (discard_disconnected_future ?f s3)) with (_notify_cancels s3).
    apply Hk.
    + intros msg. unfold await. cbn [snd]. apply Hne.
    + unfold await. rewrite Hquiet. cbn [fst run_events foldl].
      change (_notify_cancels (emit ?e (set_notify_cancels ?v ?x))) with v.
      by rewrite lookup_insert_eq.
Qed.

Lemma set_notify_cancels_id s : set_notify_cancels (_notify_cancels s) s = s.
Proof. by destruct s. Qed.

Lemma stop_notify_eq sp r s c :
  (_resolve_characteristic sp s).2 = Return c →
  stop_notify sp r s
  = verify_connected (api_error_as_bleak_error (λ s0,
      let s1 := set_notify_cancels (delete (handle c) (_notify_cancels s)) s0 in
      match _notify_cancels s !! handle c with
      | Some cancel => await (notify_stop cancel) r s1
      | None => (s1, Return tt)
      end)) s.
Proof.
  intros H. unfold stop_notify. rewrite (resolved_operation sp _ s c H).
  apply verify_connected_ext, api_error_ext.
  unfold bind at 1. unfold gets at 1. unfold bind at 1. unfold modify at 1.
  change (_notify_cancels (registered s)) with (_notify_cancels s). cbv zeta.
  by destruct (_notify_cancels s !! handle c).
Qed.

(** X7. [stop_notify] takes the subscription of the characteristic out of
    the registry before it asks the remote client to stop, so after the
    call the handle is not in the registry, whatever the remote client
    answers.  The one request of the call is the stop of the subscription
    that was registered; without a subscription the call returns at once,
    without an error and without a request, and leaves the client as it
    was. *)
Theorem stop_notify_unregisters (s : ESPHomeClient) (sp : char_specifier)
  (r : reply unit) (c : BleakGATTCharacteristicESPHome) :
  (_resolve_characteristic sp s).2 = Return c →
  let s' := (stop_notify sp r s).1 in
  _notify_cancels s' !! handle c = None
  ∧ (_notify_cancels s' = delete (handle c) (_notify_cancels s) ∨ _notify_cancels s' = ∅)
  ∧ (_notify_cancels s !! handle c = None →
     (stop_notify sp r s).2 = Return tt ∧ untouched s s')
  ∧ (∀ cancel, _notify_cancels s !! handle c = Some cancel →
       requests s' = requests s ++ [notify_stop cancel]
       ∧ (result r = Return tt → (stop_notify sp r s).2 = Return tt)).
Proof.
  intros Hc. cbv zeta.
  assert (Hcases : _notify_cancels (stop_notify sp r s).1
                   = delete (handle c) (_notify_cancels s)
                   ∨ _notify_cancels (stop_notify sp r s).1 = ∅).
  { rewrite (stop_notify_eq sp r s c Hc), verify_connected_eq.
    match goal with |- context [api_error_as_bleak_error ?f ?x] =>
      pose proof (frame_api_error f x) as Hapi;
      destruct (api_error_as_bleak_error f x) as [s3 o3] end.
    cbn [fst snd] in *.
    change (_notify_cancels (discard_disconnected_future ?f s3)) with (_notify_cancels s3).
    destruct Hapi as (_ & _ & _ & _ & _ & [Hn|Hn] & _); [|by right].
    rewrite Hn. cbv zeta.
    destruct (_notify_cancels s !! handle c) as [cancel|]; [|by left].
    unfold await. cbn [fst].
    match goal with |- context [run_events ?evs ?x] =>
      destruct (frame_run_events evs x) as (_ & _ & _ & _ & _ & [Hn'|Hn'] & _) end;
      [|by right].
    rewrite Hn'. by left. }
  split; [|split; [exact Hcases|split]].
  - destruct Hcases as [-> | ->]; [apply lookup_delete_eq|apply lookup_empty].
  - intros Hoff. rewrite (stop_notify_eq sp r s c Hc), Hoff. cbv zeta.
    rewrite (delete_id _ _ Hoff).
    erewrite verify_connected_quiet; [done| |done].
    apply api_error_as_bleak_error_return.
    change (_notify_cancels s) with (_notify_cancels (registered s)).
    by rewrite set_notify_cancels_id.
  - intros cancel Hon. rewrite (stop_notify_eq sp r s c Hc), Hon. cbv zeta.
    split.
    + rewrite requests_verify_connected, requests_api_error, requests_await. done.
    + intros Hr. rewrite verify_connected_eq.
      unfold api_error_as_bleak_error, try_except, await. by rewrite Hr.
Qed.

Lemma same_attributes_intro (s s' : ESPHomeClient) :
  _ble_device s' = _ble_device s → _source_name s' = _source_name s →
  _address_as_int s' = _address_as_int s → _address_type s' = _address_type s →
  _feature_flags s' = _feature_flags s → _timeout s' = _timeout s →
  device_name s' = device_name s → services s' = services s →
  _is_connected s' = _is_connected s → _mtu s' = _mtu s →
  _cancel_connection_state s' = _cancel_connection_state s →
  _notify_cancels s' = _notify_cancels s →
  _disconnected_futures s' = _disconnected_futures s →
  _disconnected_callback s' = _disconnected_callback s →
  _disconnect_callbacks s' = _disconnect_callbacks s →
  _cache s' = _cache s → ble_connections_free s' = ble_connections_free s →
  same_attributes s s'.
Proof.
  unfold same_attributes. destruct s, s'. simpl. intros. by subst.
Qed.

Lemma waiters_discard_registered s :
  _disconnected_futures (registered s) ∖ {[waiter_of s]} = _disconnected_futures s.
Proof.
  change (_disconnected_futures (registered s) ∖ {[waiter_of s]})
    with (_disconnected_futures (discard_disconnected_future (waiter_of s) (registered s))).
  by rewrite discard_registered.
Qed.

(** X8. A notification that is started and then stopped leaves the client as
    it was: on a proxy without remote caching, when the remote client
    answers both requests and no event comes in between, both calls
    return, the stop goes out for the very subscription that the start
    returned, and afterwards the registry and every other attribute of the
    client are what they were before the start. *)
Theorem start_then_stop_notify (s : ESPHomeClient) (c : BleakGATTCharacteristicESPHome)
  (w : reply unit) (cancel : notify_cancel) :
  services s ≠ None →
  _notify_cancels s !! handle c = None →
  "notify" ∈ properties c ∨ "indicate" ∈ properties c →
  has_feature (_feature_flags s) BluetoothProxyFeature.REMOTE_CACHING = false →
  let s1 := (start_notify c (mkReply [] (Return cancel)) w s).1 in
  let s2 := (stop_notify (ByObject c) (mkReply [] (Return tt)) s1).1 in
  (start_notify c (mkReply [] (Return cancel)) w s).2 = Return tt
  ∧ (stop_notify (ByObject c) (mkReply [] (Return tt)) s1).2 = Return tt
  ∧ requests s2
    = requests s ++ [bluetooth_gatt_start_notify (_address_as_int s) (handle c);
                     notify_stop cancel]
  ∧ _notify_cancels s1 !! handle c = Some cancel
  ∧ _notify_cancels s2 = _notify_cancels s
  ∧ same_attributes s s2.
Proof.
  intros Hs Hoff Hsup Hf. cbv zeta.
  rewrite (start_notify_registered_eq s c (mkReply [] (Return cancel)) w cancel
             Hoff Hsup eq_refl (or_introl Hf)).
  cbv zeta. rewrite Hf. cbn [fst snd during run_events foldl].
  set (s1 := discard_disconnected_future (waiter_of s) _).
  assert (Hs1 : services s1 ≠ None) by done.
  assert (Hn1 : _notify_cancels s1 = <[handle c := cancel]> (_notify_cancels s)) by done.
  assert (Hon : _notify_cancels s1 !! handle c = Some cancel)
    by by rewrite Hn1, lookup_insert_eq.
  assert (Hc : (_resolve_characteristic (ByObject c) s1).2 = Return c)
    by by rewrite resolve_characteristic_object.
  rewrite (stop_notify_eq (ByObject c) _ s1 c Hc), Hon. cbv zeta.
  rewrite verify_connected_eq.
  unfold api_error_as_bleak_error, try_except, await. cbn [fst snd during result run_events foldl].
  split; [done|]. split; [done|]. split; [|split; [done|]].
  - change (requests (discard_disconnected_future ?f (emit ?e (set_notify_cancels ?v ?x))))
      with (requests (emit e x)).
    rewrite requests_emit.
    change (requests (registered s1)) with (requests s1).
    unfold s1.
    change (requests (discard_disconnected_future ?f (set_notify_cancels ?v ?x)))
      with (requests x).
    rewrite requests_emit. by rewrite <- app_assoc.
  - assert (Hreg : _notify_cancels
                     (discard_disconnected_future (waiter_of s1)
                        (emit (Await (notify_stop cancel))
                           (set_notify_cancels (delete (handle c) (_notify_cancels s1))
                              (registered s1))))
                   = _notify_cancels s).
    { change (_notify_cancels (discard_disconnected_future ?f (emit ?e (set_notify_cancels ?v ?x))))
        with v.
      rewrite Hn1. by apply delete_insert_id. }
    split; [exact Hreg|].
    apply same_attributes_intro; try done.
    change (_disconnected_futures
              (discard_disconnected_future (waiter_of s1)
                 (emit (Await (notify_stop cancel))
                    (set_notify_cancels (delete (handle c) (_notify_cancels s1))
                       (registered s1)))))
      with (_disconnected_futures (registered s1) ∖ {[waiter_of s1]}).
    rewrite waiters_discard_registered. unfold s1.
    change (_disconnected_futures (discard_disconnected_future (waiter_of s) ?x))
      with (_disconnected_futures (registered s) ∖ {[waiter_of s]}).
    apply waiters_discard_registered.
Qed.

(** ** Pairing *)

Lemma wrapped_flag_eq (c : awaited) (r : reply bool) s :
  verify_connected (api_error_as_bleak_error
    (flag <- await c r ;; if flag : bool then ret true else ret false)) s
  = verify_connected (api_error_as_bleak_error (await c r)) s.
Proof.
  apply verify_connected_ext, api_error_ext.
  unfold bind, await. by destruct (result r) as [[]|].
Qed.

Lemma pair_eq r s :
  pair r s
  = if has_feature (_feature_flags s) BluetoothProxyFeature.PAIRING
    then verify_connected (api_error_as_bleak_error
           (await (bluetooth_device_pair (_address_as_int s)) r)) s
    else (set_futures (<[waiter_of s := Pending]> (futures s)) s,
          Raise (NotImplementedError
                   ("Pairing is not available in this version ESPHome; "
                    +:+ "Upgrade the ESPHome version on the " +:+ device_name s
                    +:+ " device."))).
Proof.
  unfold pair. destruct (has_feature _ _) eqn:Hf.
  - rewrite <- wrapped_flag_eq. apply verify_connected_ext, api_error_ext.
    unfold bind at 1. unfold gets at 1.
    change (_feature_flags (registered s)) with (_feature_flags s). by rewrite Hf.
  - apply verify_connected_quiet; [|done]. apply api_error_pass; [|done].
    unfold bind at 1. unfold gets at 1.
    change (_feature_flags (registered s)) with (_feature_flags s). by rewrite Hf.
Qed.

Lemma unpair_eq r s :
  unpair r s
  = if has_feature (_feature_flags s) BluetoothProxyFeature.PAIRING
    then verify_connected (api_error_as_bleak_error
           (await (bluetooth_device_unpair (_address_as_int s)) r)) s
    else (set_futures (<[waiter_of s := Pending]> (futures s)) s,
          Raise (NotImplementedError
                   ("Unpairing is not available in this version ESPHome; "
                    +:+ "Upgrade the ESPHome version on the " +:+ device_name s
                    +:+ " device."))).
Proof.
  unfold unpair. destruct (has_feature _ _) eqn:Hf.
  - rewrite <- wrapped_flag_eq. apply verify_connected_ext, api_error_ext.
    unfold bind at 1. unfold gets at 1.
    change (_feature_flags (registered s)) with (_feature_flags s). by rewrite Hf.
  - apply verify_connected_quiet; [|done]. apply api_error_pass; [|done].
    unfold bind at 1. unfold gets at 1.
    change (_feature_flags (registered s)) with (_feature_flags s). by rewrite Hf.
Qed.

(** X9. Pairing needs the pairing feature of the proxy.  Without it [pair]
    and [unpair] fail with a NotImplementedError that names the device to
    upgrade, nothing goes to the remote client and the client stays as it
    was.  With it each sends its one request for the peer and returns the
    flag of the answer: True when the remote client reports the pairing or
    the unpairing done, False when it reports an error. *)
Theorem pairing_needs_the_feature (s : ESPHomeClient) (r : reply bool) :
  (has_feature (_feature_flags s) BluetoothProxyFeature.PAIRING = false →
     (pair r s).2
     = Raise (NotImplementedError
                ("Pairing is not available in this version ESPHome; "
                 +:+ "Upgrade the ESPHome version on the " +:+ device_name s
                 +:+ " device."))
     ∧ (unpair r s).2
       = Raise (NotImplementedError
                  ("Unpairing is not available in this version ESPHome; "
                   +:+ "Upgrade the ESPHome version on the " +:+ device_name s
                   +:+ " device."))
     ∧ untouched s (pair r s).1
     ∧ untouched s (unpair r s).1)
  ∧ (has_feature (_feature_flags s) BluetoothProxyFeature.PAIRING = true →
     requests (pair r s).1 = requests s ++ [bluetooth_device_pair (_address_as_int s)]
     ∧ requests (unpair r s).1 = requests s ++ [bluetooth_device_unpair (_address_as_int s)]
     ∧ ∀ flag, result r = Return flag →
         (pair r s).2 = Return flag ∧ (unpair r s).2 = Return flag).
Proof.
  rewrite pair_eq, unpair_eq. split; intros Hf; rewrite Hf.
  - done.
  - split; [apply wrapped_await_requests|]. split; [apply wrapped_await_requests|].
    intros flag Hr. split; by apply wrapped_await_return.
Qed.

(** ** The cache *)

Lemma keeps_cache_drop_stable : drop_stable keeps_cache.
Proof.
  assert (Htrans : ∀ s1 s2 s3, keeps_cache s1 s2 → keeps_cache s2 s3 → keeps_cache s1 s3).
  { unfold keeps_cache. intros s1 s2 s3 [? ?] [? ?]. split; congruence. }
  split; try exact Htrans; try done.
  apply (device_disconnected_from_cleanup keeps_cache Htrans); unfold keeps_cache.
  - intros s. by rewrite cleanup_eq.
  - intros s. unfold _async_call_bleak_disconnected_callback.
    by destruct (_disconnected_callback s).
Qed.

Lemma clear_cache_eq r s :
  clear_cache r s
  = verify_connected (api_error_as_bleak_error (λ s0,
      let s1 := set_cache (clear_gatt_mtu_cache (_address_as_int s)
                             (clear_gatt_services_cache (_address_as_int s) (_cache s))) s0 in
      if has_feature (_feature_flags s) BluetoothProxyFeature.CACHE_CLEARING
      then await (bluetooth_device_clear_cache (_address_as_int s)) r s1
      else (emit (Warning "On device cache clear is not available with this ESPHome version")
              s1, Return true))) s.
Proof.
  unfold clear_cache. apply verify_connected_ext, api_error_ext.
  unfold bind at 1. unfold modify at 1. unfold bind at 1. unfold modify at 1.
  unfold bind at 1. unfold gets at 1.
  change (_feature_flags (set_cache ?c (set_cache ?c' (registered s))))
    with (_feature_flags s).
  cbv zeta. destruct (has_feature _ _); cbn [negb]; [|done].
  unfold bind, gets, await. cbn [fst snd].
  by destruct (result r) as [[]|].
Qed.

Lemma keeps_cache_api_error {A} (func : M A) s :
  keeps_cache (func s).1 (api_error_as_bleak_error func s).1.
Proof.
  destruct (func s) as [s1 [a|e]] eqn:H.
  - by rewrite (api_error_as_bleak_error_return func s s1 a H).
  - rewrite (api_error_as_bleak_error_raise func s s1 e H).
    destruct e; try done. simpl.
    destruct (error =? -1); [|done].
    apply (drop_ble_device_disconnected keeps_cache keeps_cache_drop_stable).
Qed.

Lemma address_api_error {A} (func : M A) s :
  _address_as_int (api_error_as_bleak_error func s).1 = _address_as_int (func s).1
  ∧ _feature_flags (api_error_as_bleak_error func s).1 = _feature_flags (func s).1.
Proof.
  destruct (frame_api_error func s) as ((_ & _ & Ha & _ & Hf & _) & _). by split.
Qed.

(** What an await leaves of the cache. *)
Lemma await_cache {A} (c : awaited) (r : reply A) s :
  let s' := (await c r s).1 in
  _address_as_int s' = _address_as_int s
  ∧ _feature_flags s' = _feature_flags s
  ∧ _gatt_services_cache (_cache s') = _gatt_services_cache (_cache s)
  ∧ (∀ a, a ≠ _address_as_int s →
       _gatt_mtu_cache (_cache s') !! a = _gatt_mtu_cache (_cache s) !! a)
  ∧ (no_connected_signal (during r) = true → keeps_cache s s').
Proof.
  cbv zeta. unfold await. cbn [fst].
  destruct (frame_run_events (during r) (emit (Await c) s))
    as ((_ & _ & Ha & _ & Hf & _) & _ & Hc & Hm & _).
  split; [exact Ha|]. split; [exact Hf|]. split; [exact Hc|]. split; [exact Hm|].
  intros Hq.
  apply (drop_run_events keeps_cache keeps_cache_drop_stable (during r) (emit (Await c) s) Hq).
Qed.

Lemma clear_cache_facts (s : ESPHomeClient) (r : reply bool) :
  let s' := (clear_cache r s).1 in
  _address_as_int s' = _address_as_int s
  ∧ get_gatt_services_cache (_address_as_int s) (_cache s') = None
  ∧ (no_connected_signal (during r) = true →
     get_gatt_mtu_cache (_address_as_int s) (_cache s') = None)
  ∧ (∀ a, a ≠ _address_as_int s →
       get_gatt_services_cache a (_cache s') = get_gatt_services_cache a (_cache s)
       ∧ get_gatt_mtu_cache a (_cache s') = get_gatt_mtu_cache a (_cache s)).
Proof.
  cbv zeta. rewrite clear_cache_eq, verify_connected_eq.
  match goal with |- context [api_error_as_bleak_error ?f ?x] =>
    pose proof (keeps_cache_api_error f x) as [Hcache _];
    pose proof (address_api_error f x) as [Haddr _];
    destruct (api_error_as_bleak_error f x) as [s3 o3];
    set (body := f x) in * end.
  cbn [fst snd] in *.
  change (_cache (discard_disconnected_future ?f s3)) with (_cache s3).
  change (_address_as_int (discard_disconnected_future ?f s3)) with (_address_as_int s3).
  rewrite Hcache, Haddr. clear Hcache Haddr s3 o3.
  unfold get_gatt_services_cache, get_gatt_mtu_cache.
  subst body. cbv beta zeta.
  set (s1 := set_cache _ (registered s)).
  assert (H1 : _gatt_services_cache (_cache s1)
               = delete (_address_as_int s) (_gatt_services_cache (_cache s))) by done.
  assert (H2 : _gatt_mtu_cache (_cache s1)
               = delete (_address_as_int s) (_gatt_mtu_cache (_cache s))) by done.
  destruct (has_feature _ _).
  - destruct (await_cache (bluetooth_device_clear_cache (_address_as_int s)) r s1)
      as (Ha & _ & Hc & Hm & Hq).
    split; [exact Ha|]. rewrite Hc, H1.
    split; [apply lookup_delete_eq|]. split.
    + intros Hquiet. destruct (Hq Hquiet) as [-> _]. rewrite H2. apply lookup_delete_eq.
    + intros a Hne. rewrite (Hm a Hne), H2. by rewrite !lookup_delete_ne.
  - cbn [fst]. split; [done|].
    change (_cache (emit ?e s1)) with (_cache s1). rewrite H1, H2.
    split; [apply lookup_delete_eq|]. split; [intros _; apply lookup_delete_eq|].
    intros a Hne. by rewrite !lookup_delete_ne.
Qed.

(** X10. [clear_cache] empties the memory cache for its peer before anything
    else, so whatever the proxy can do and whatever it answers, the cache
    holds no topology for the peer afterwards, and no MTU either unless a
    signal that reports connected came in while the call waited and latched
    one.  What the cache holds for other peers is not touched. *)
Theorem clear_cache_clears_memory (s : ESPHomeClient) (r : reply bool) :
  let s' := (clear_cache r s).1 in
  _address_as_int s' = _address_as_int s
  ∧ get_gatt_services_cache (_address_as_int s) (_cache s') = None
  ∧ (no_connected_signal (during r) = true →
     get_gatt_mtu_cache (_address_as_int s) (_cache s') = None)
  ∧ (∀ a, a ≠ _address_as_int s →
       get_gatt_services_cache a (_cache s') = get_gatt_services_cache a (_cache s)
       ∧ get_gatt_mtu_cache a (_cache s') = get_gatt_mtu_cache a (_cache s)).
Proof.
  apply clear_cache_facts.
Qed.

(** X11. On a proxy that cannot clear its own cache, [clear_cache] clears
    the memory cache only: it logs the warning, sends nothing to the remote
    client and returns True.  The client itself keeps the MTU and the
    topology it has.  On a proxy that can, the one request of the call asks
    it to clear the cache for the peer, and the call returns the flag of
    the answer. *)
Theorem clear_cache_without_device_support (s : ESPHomeClient) (r : reply bool) :
  let s' := (clear_cache r s).1 in
  (has_feature (_feature_flags s) BluetoothProxyFeature.CACHE_CLEARING = false →
     (clear_cache r s).2 = Return true
     ∧ trace s'
       = trace s ++ [Warning "On device cache clear is not available with this ESPHome version"]
     ∧ requests s' = requests s
     ∧ _mtu s' = _mtu s
     ∧ services s' = services s
     ∧ _is_connected s' = _is_connected s)
  ∧ (has_feature (_feature_flags s) BluetoothProxyFeature.CACHE_CLEARING = true →
     requests s' = requests s ++ [bluetooth_device_clear_cache (_address_as_int s)]
     ∧ ∀ flag, result r = Return flag → (clear_cache r s).2 = Return flag).
Proof.
  cbv zeta. rewrite clear_cache_eq. split; intros Hf; rewrite Hf.
  - rewrite verify_connected_eq. unfold api_error_as_bleak_error, try_except.
    cbn [fst snd]. repeat split; try done.
    unfold requests. simpl. rewrite omap_app. simpl. by rewrite app_nil_r.
  - split.
    + rewrite requests_verify_connected, requests_api_error. cbv beta zeta.
      by rewrite requests_await.
    + intros flag Hr. rewrite verify_connected_eq.
      unfold api_error_as_bleak_error, try_except, await. by rewrite Hr.
Qed.

(** ** The discovery and the cache *)

Lemma requests_discard f s : requests (discard_disconnected_future f s) = requests s.
Proof. done. Qed.

Lemma requests_set_cache v s : requests (set_cache v s) = requests s.
Proof. done. Qed.

Lemma requests_set_services v s : requests (set_services v s) = requests s.
Proof. done. Qed.

Lemma requests_registered s : requests (registered s) = requests s.
Proof. done. Qed.

Lemma get_services_miss_requests dangerous r s :
  cache_miss dangerous s →
  requests (_get_services dangerous r s).1
  = requests s ++ [bluetooth_gatt_get_services (_address_as_int s)].
Proof.
  intros Hm. rewrite (get_services_miss dangerous r s Hm). cbv zeta.
  destruct (result r) as [x|e]; [destruct (no_services x)|]; cbn [fst];
    rewrite requests_discard, ?requests_set_cache, ?requests_set_services,
      requests_run_events, requests_emit; done.
Qed.

Lemma get_services_hit_requests dangerous r s topology :
  has_feature (_feature_flags s) BluetoothProxyFeature.REMOTE_CACHING || dangerous = true →
  get_gatt_services_cache (_address_as_int s) (_cache s) = Some topology →
  requests (_get_services dangerous r s).1 = requests s.
Proof. intros Hu Hc. by rewrite (get_services_hit dangerous r s topology Hu Hc). Qed.

(** X12. After [clear_cache] the next discovery goes to the remote client:
    whatever the two calls are answered, and whether or not the caller asks
    for the cache to be used, the discovery sends the request for the
    services of the peer. *)
Theorem discovery_after_clear_cache (s : ESPHomeClient) (r : reply bool)
  (dangerous : bool) (r' : reply ESPHomeBluetoothGATTServices) :
  let s1 := (clear_cache r s).1 in
  cache_miss dangerous s1
  ∧ requests (get_services dangerous r' s1).1
    = requests s1 ++ [bluetooth_gatt_get_services (_address_as_int s)].
Proof.
  cbv zeta. destruct (clear_cache_facts s r) as (Ha & Hc & _).
  assert (Hm : cache_miss dangerous (clear_cache r s).1).
  { right. by rewrite Ha. }
  split; [exact Hm|].
  unfold get_services. rewrite requests_api_error.
  by rewrite (get_services_miss_requests dangerous r' _ Hm), Ha.
Qed.

Lemma set_services_id s : set_services (services s) s = s.
Proof. by destruct s. Qed.

(** What a discovery that returns leaves behind. *)
Lemma get_services_returned dangerous r s s' topology :
  _get_services dangerous r s = (s', Return topology) →
  _address_as_int s' = _address_as_int s
  ∧ _feature_flags s' = _feature_flags s
  ∧ services s' = Some topology
  ∧ get_gatt_services_cache (_address_as_int s) (_cache s') = Some topology.
Proof.
  intros H.
  assert (Hmiss : cache_miss dangerous s →
                  _address_as_int s' = _address_as_int s
                  ∧ _feature_flags s' = _feature_flags s
                  ∧ services s' = Some topology
                  ∧ get_gatt_services_cache (_address_as_int s) (_cache s') = Some topology).
  { intros Hm. rewrite (get_services_miss dangerous r s Hm) in H. cbv zeta in H.
    destruct (result r) as [x|e]; [|by destruct e; try destruct (done _ _)].
    destruct (no_services x); [done|]. injection H as <- <-.
    destruct (frame_run_events (during r)
                (emit (Await (bluetooth_gatt_get_services (_address_as_int s))) (registered s)))
      as ((_ & _ & Ha & _ & Hf & _) & _).
    split; [exact Ha|]. split; [exact Hf|]. split; [done|].
    unfold get_gatt_services_cache. simpl. by rewrite lookup_insert_eq. }
  destruct (has_feature (_feature_flags s) BluetoothProxyFeature.REMOTE_CACHING || dangerous)
    eqn:Hu; [|by apply Hmiss; left].
  destruct (get_gatt_services_cache (_address_as_int s) (_cache s)) as [cached|] eqn:Hc;
    [|by apply Hmiss; right].
  rewrite (get_services_hit _ _ _ _ Hu Hc) in H. by injection H as <- <-.
Qed.

(** X13. What a discovery returns is what the cache holds for the peer
    afterwards.  So a discovery that follows, on a proxy with remote caching
    or at the request of the caller, returns the same topology without
    asking the remote client, and leaves the client as it was. *)
Theorem discovery_is_cached (s s' : ESPHomeClient) (dangerous dangerous' : bool)
  (r r' : reply ESPHomeBluetoothGATTServices) (topology : BleakGATTServiceCollection) :
  _get_services dangerous r s = (s', Return topology) →
  services s' = Some topology
  ∧ get_gatt_services_cache (_address_as_int s') (_cache s') = Some topology
  ∧ (has_feature (_feature_flags s') BluetoothProxyFeature.REMOTE_CACHING || dangerous' = true →
     (get_services dangerous' r' s').2 = Return topology
     ∧ requests (get_services dangerous' r' s').1 = requests s'
     ∧ untouched s' (get_services dangerous' r' s').1).
Proof.
  intros H. destruct (get_services_returned _ _ _ _ _ H) as (Ha & Hf & Hs & Hc).
  rewrite <- Ha in Hc.
  split; [exact Hs|]. split; [exact Hc|].
  intros Hu. unfold get_services.
  rewrite (api_error_as_bleak_error_return _ _ _ _ (get_services_hit _ r' _ _ Hu Hc)).
  cbn [fst snd]. split; [done|]. split; [done|].
  rewrite <- Hs.
  change (set_services (services s') (registered s'))
    with (set_services (services (registered s')) (registered s')).
  rewrite set_services_id, discard_registered. apply untouched_set_futures.
Qed.

(** ** The errors that reach the caller *)

Lemma api_error_never_api {A} (func : M A) s e :
  (api_error_as_bleak_error func s).2 = Raise e → is_api_error e = false.
Proof.
  destruct (func s) as [s1 [a|e0]] eqn:H.
  - by rewrite (api_error_as_bleak_error_return func s s1 a H).
  - rewrite (api_error_as_bleak_error_raise func s s1 e0 H).
    destruct e0; simpl; intros [= <-]; done.
Qed.

Lemma verify_connected_raise {A} (func : M A) s e :
  (verify_connected func s).2 = Raise e →
  (func (registered s)).2 = Raise e ∨ ∃ msg, e = BleakError msg.
Proof.
  rewrite verify_connected_eq. destruct (func (registered s)) as [s1 [a|e0]]; [done|].
  cbn [snd]. destruct e0; try (intros [= <-]; by left).
  destruct (done _ _); intros [= <-]; [right; by eexists|by left].
Qed.

Lemma wrapped_never_api {A} (body : M A) s e :
  (verify_connected (api_error_as_bleak_error body) s).2 = Raise e →
  is_api_error e = false.
Proof.
  intros [H|[msg ->]]%verify_connected_raise; [|done].
  by apply (api_error_never_api body (registered s)).
Qed.

Lemma raised_Some {A} (x : ESPHomeClient * outcome A) e :
  raised x = Some e → x.2 = Raise e.
Proof. unfold raised. destruct x.2; by intros [= <-]. Qed.

(** X16. No error of aioesphomeapi leaves a public method of the client:
    whatever a call of [connect], [disconnect], [pair], [unpair],
    [get_services], [clear_cache], of a read, a write or of the start or the
    stop of a notification ends with, it is not a TimeoutAPIError, a
    BluetoothGATTAPIError or another APIConnectionError. *)
Theorem no_api_error_escapes (c : call) (s : ESPHomeClient) (e : exn) :
  call_raises c s = Some e → is_api_error e = false.
Proof.
  destruct c; simpl; intros H%raised_Some;
    unfold connect, disconnect, get_services, pair, unpair, clear_cache, read_gatt_char,
      read_gatt_descriptor, write_gatt_char, write_gatt_descriptor, start_notify,
      stop_notify in H;
    first [ exact (wrapped_never_api _ s e H)
          | exact (api_error_never_api _ s e H) ].
Qed.

(** ** The proxy goes away *)

Lemma list_remove_None x l : list_remove x l = None ↔ x ∉ l.
Proof.
  induction l as [|y l IH]; simpl.
  - split; [intros _; apply not_elem_of_nil|done].
  - destruct (decide (x = y)) as [->|Hne].
    + split; [done|]. intros H. destruct H. by left.
    + rewrite not_elem_of_cons. destruct (list_remove x l); simpl.
      * split; [done|]. intros [_ H]. by apply IH in H.
      * split; [|done]. intros _. split; [done|]. by apply IH.
Qed.

Lemma list_remove_Some x l l' :
  list_remove x l = Some l' →
  ∃ before after, l = before ++ x :: after ∧ (x ∉ before) ∧ l' = before ++ after.
Proof.
  revert l'. induction l as [|y l IH]; intros l'; simpl; [done|].
  destruct (decide (x = y)) as [->|Hne].
  - intros [= <-]. exists [], l. split; [done|]. split; [apply not_elem_of_nil|done].
  - destruct (list_remove x l) as [l0|] eqn:Hl; simpl; [|done].
    intros [= <-]. destruct (IH l0 eq_refl) as (before & after & -> & Hb & ->).
    exists (y :: before), after. split; [done|]. split; [|done].
    by apply not_elem_of_cons.
Qed.

(** X17. [_async_esp_disconnected] first takes itself off the list of
    disconnect callbacks of the proxy: the first entry that is the callback
    of this client goes, every other entry stays in its place.  Then it runs
    the link-drop handling, which leaves the client disconnected, without a
    waiter and without a notification.  When the callback is not on the
    list, the removal fails with a ValueError and nothing else happens; the
    client is as it was. *)
Theorem esp_disconnect_deregisters_once (s : ESPHomeClient) :
  let self := async_esp_disconnected_of (_address_as_int s) in
  (self ∉ _disconnect_callbacks s →
     _async_esp_disconnected s
     = (s, Raise (OtherException "ValueError" "list.remove(x): x not in list"))
     ∧ handle_event EspDisconnected s = s)
  ∧ (self ∈ _disconnect_callbacks s →
     ∃ before after,
       _disconnect_callbacks s = before ++ self :: after
       ∧ (self ∉ before)
       ∧ _async_esp_disconnected s
         = (_async_ble_device_disconnected (set_disconnect_callbacks (before ++ after) s),
            Return tt)
       ∧ _disconnect_callbacks (_async_esp_disconnected s).1 = before ++ after
       ∧ _is_connected (_async_esp_disconnected s).1 = false
       ∧ _disconnected_futures (_async_esp_disconnected s).1 = ∅
       ∧ _notify_cancels (_async_esp_disconnected s).1 = ∅).
Proof.
  cbv zeta. split.
  - intros Hn. apply list_remove_None in Hn.
    unfold handle_event, _async_esp_disconnected. by rewrite Hn.
  - intros Hin.
    destruct (list_remove (async_esp_disconnected_of (_address_as_int s))
                (_disconnect_callbacks s)) as [l'|] eqn:Hl;
      [|by apply list_remove_None in Hl].
    destruct (list_remove_Some _ _ _ Hl) as (before & after & Heq & Hb & ->).
    exists before, after. split; [exact Heq|]. split; [exact Hb|].
    unfold _async_esp_disconnected. rewrite Hl. cbn [fst].
    split; [done|]. rewrite ble_device_disconnected_disconnect_callbacks.
    split; [done|]. split; [apply ble_device_disconnected_is_connected|].
    rewrite ble_device_disconnected_eq.
    assert (Hc : ∀ x, _notify_cancels (_async_call_bleak_disconnected_callback x)
                      = _notify_cancels x
                      ∧ _disconnected_futures (_async_call_bleak_disconnected_callback x)
                        = _disconnected_futures x).
    { intros x. unfold _async_call_bleak_disconnected_callback.
      by destruct (_disconnected_callback x). }
    destruct (_is_connected _).
    + destruct (Hc (_async_disconnected_cleanup
                      (set_disconnect_callbacks (before ++ after) s))) as [-> ->].
      by rewrite cleanup_disconnected_futures, cleanup_notify_cancels.
    + by rewrite cleanup_disconnected_futures, cleanup_notify_cancels.
Qed.

(** ** The teardown *)

Lemma cleanup_address s :
  _address_as_int (_async_disconnected_cleanup s) = _address_as_int s.
Proof. by rewrite cleanup_eq. Qed.

Lemma _disconnect_eq env s :
  _disconnect env s
  = match await (bluetooth_device_disconnect (_address_as_int s)) (disconnect_reply env)
            (_async_disconnected_cleanup s) with
    | (s2, Return _) =>
        match _wait_for_free_connection_slot DISCONNECT_TIMEOUT (disconnect_slot env) s2 with
        | (s3, Return _) => (s3, Return true)
        | (s3, Raise e) => (s3, Raise e)
        end
    | (s2, Raise e) => (s2, Raise e)
    end.
Proof.
  unfold _disconnect.
  unfold bind at 1. unfold modify at 1. unfold bind at 1. unfold gets at 1.
  rewrite cleanup_address.
  unfold bind at 1.
  destruct (await _ _ _) as [s2 [[]|e]]; [|done].
  unfold bind. by destruct (_wait_for_free_connection_slot _ _ s2) as [s3 [[]|e]].
Qed.

Section Teardown.

Variable R : relation ESPHomeClient.
Variable ok : list env_event → Prop.
Hypothesis Hrefl : ∀ s, R s s.
Hypothesis Htrans : ∀ s1 s2 s3, R s1 s2 → R s2 s3 → R s1 s3.
Hypothesis Hemit : ∀ c s, R s (emit (Await c) s).
Hypothesis Hevents : ∀ evs s, ok evs → R s (run_events evs s).
Hypothesis Hdrop : ∀ s, R s (_async_ble_device_disconnected s).

Lemma teardown_await {A} (c : awaited) (r : reply A) s :
  ok (during r) → R s (await c r s).1.
Proof.
  intros Hok. unfold await. cbn [fst].
  eapply Htrans; [apply Hemit|by apply Hevents].
Qed.

Lemma teardown_wait timeout w s :
  ok (during w) → R s (_wait_for_free_connection_slot timeout w s).1.
Proof.
  intros Hok. unfold _wait_for_free_connection_slot, bind, gets.
  destruct (negb (_ =? 0)); [apply Hrefl|by apply teardown_await].
Qed.

Lemma teardown_api_error {A} (func : M A) s :
  R (func s).1 (api_error_as_bleak_error func s).1.
Proof.
  destruct (func s) as [s1 [a|e]] eqn:H.
  - rewrite (api_error_as_bleak_error_return func s s1 a H). apply Hrefl.
  - rewrite (api_error_as_bleak_error_raise func s s1 e H).
    destruct e; try apply Hrefl. simpl.
    destruct (error =? -1); [apply Hdrop|apply Hrefl].
Qed.

Lemma teardown__disconnect env s :
  ok (during (disconnect_reply env)) → ok (during (disconnect_slot env)) →
  R (_async_disconnected_cleanup s) (_disconnect env s).1.
Proof.
  intros H1 H2. rewrite _disconnect_eq.
  pose proof (teardown_await (bluetooth_device_disconnect (_address_as_int s))
                (disconnect_reply env) (_async_disconnected_cleanup s) H1) as Ha.
  destruct (await _ _ _) as [s2 [[]|e]]; [|exact Ha]. cbn [fst] in Ha.
  pose proof (teardown_wait DISCONNECT_TIMEOUT (disconnect_slot env) s2 H2) as Hw.
  destruct (_wait_for_free_connection_slot _ _ s2) as [s3 [[]|e]]; cbn [fst] in *;
    by eapply Htrans.
Qed.

Lemma teardown_disconnect env s :
  ok (during (disconnect_reply env)) → ok (during (disconnect_slot env)) →
  R (_async_disconnected_cleanup s) (disconnect env s).1.
Proof.
  intros H1 H2. unfold disconnect.
  eapply Htrans; [by apply teardown__disconnect|apply teardown_api_error].
Qed.

End Teardown.

Lemma stays_clean_stable : event_stable stays_clean.
Proof.
  assert (Htrans : ∀ s1 s2 s3, stays_clean s1 s2 → stays_clean s2 s3 → stays_clean s1 s3).
  { unfold stays_clean. intros s1 s2 s3 (A1 & A2 & A3 & A4) (B1 & B2 & B3 & B4).
    repeat split; eauto. }
  assert (Hkeep : ∀ s s' : ESPHomeClient,
            _cancel_connection_state s' = _cancel_connection_state s →
            _notify_cancels s' = _notify_cancels s →
            _disconnected_futures s' = _disconnected_futures s →
            services s' = services s → stays_clean s s').
  { unfold stays_clean. intros s s' -> -> -> ->. done. }
  split; [split|..]; try (intros; by apply Hkeep).
  - exact Htrans.
  - apply (device_disconnected_from_cleanup stays_clean Htrans).
    + intros s. unfold stays_clean. by rewrite cleanup_eq.
    + intros s. apply Hkeep; unfold _async_call_bleak_disconnected_callback;
        by destruct (_disconnected_callback s).
Qed.

Lemma callback_calls_emit_await c s : callback_calls (emit (Await c) s) = callback_calls s.
Proof. rewrite callback_calls_emit. simpl. lia. Qed.

Lemma stays_silent_stable : drop_stable stays_silent.
Proof.
  assert (Hkeep : ∀ s s' : ESPHomeClient,
            _is_connected s' = _is_connected s → trace s' = trace s →
            _disconnected_callback s' = _disconnected_callback s →
            _mtu s' = _mtu s → _cache s' = _cache s → stays_silent s s').
  { unfold stays_silent, callback_calls. intros s s' -> -> -> -> ->. done. }
  split; try (intros; by apply Hkeep).
  - unfold stays_silent. intros s1 s2 s3 H12 H23 H1.
    destruct (H12 H1) as (A1 & A2 & A3 & A4 & A5).
    destruct (H23 A1) as (B1 & B2 & B3 & B4 & B5).
    repeat split; congruence.
  - intros s Hc. rewrite ble_device_disconnected_eq, Hc.
    rewrite callback_calls_cleanup. by rewrite cleanup_eq.
Qed.

Lemma disconnect_requests env s :
  ∃ t, requests (disconnect env s).1
       = requests s ++ bluetooth_device_disconnect (_address_as_int s) :: t
       ∧ (t = [] ∨ t = [wait_for_ble_connections_free DISCONNECT_TIMEOUT]).
Proof.
  unfold disconnect. rewrite requests_api_error, _disconnect_eq.
  pose proof (requests_await (bluetooth_device_disconnect (_address_as_int s))
                (disconnect_reply env) (_async_disconnected_cleanup s)) as Ha.
  rewrite requests_cleanup in Ha.
  destruct (await _ _ _) as [s2 [[]|e]]; cbn [fst] in *;
    [|exists []; split; [exact Ha|by left]].
  unfold _wait_for_free_connection_slot, bind, gets.
  destruct (negb (_ =? 0)); cbn [fst]; [exists []; split; [exact Ha|by left]|].
  pose proof (requests_await (wait_for_ble_connections_free DISCONNECT_TIMEOUT)
                (disconnect_slot env) s2) as Hw.
  exists [wait_for_ble_connections_free DISCONNECT_TIMEOUT].
  split; [|by right].
  destruct (await _ _ s2) as [s3 [[]|e]]; cbn [fst] in *;
    by rewrite Hw, Ha, <- app_assoc.
Qed.

Lemma disconnect_clean env s : stays_clean (_async_disconnected_cleanup s) (disconnect env s).1.
Proof.
  pose proof (event_drop _ stays_clean_stable) as HD.
  assert (Hemit : ∀ c x, stays_clean x (emit (Await c) x)) by done.
  assert (Hevents : ∀ evs x, True → stays_clean x (run_events evs x)).
  { intros evs x _. apply (event_run_events stays_clean stays_clean_stable). }
  exact (teardown_disconnect stays_clean (λ _, True) (drop_refl _ HD) (drop_trans _ HD)
           Hemit Hevents (drop_device_disconnected _ HD) env s I I).
Qed.

Lemma disconnect_cancel_connection_state env s :
  _cancel_connection_state (disconnect env s).1 = None.
Proof.
  destruct (disconnect_clean env s) as (H & _). apply H, cleanup_cancel_connection_state.
Qed.

(** X18. A disconnect leaves the client cleaned up however it ends.  The
    cleanup comes first and the disconnect request always goes out, followed
    at most by the wait for a slot; whatever the proxy answers, returns or
    errors, the client has no subscription to the connection state, no
    notification, no waiter and an empty topology afterwards.  When no
    signal reports connected during the teardown, the client is
    disconnected afterwards, the disconnect callback of the consumer has not
    been called and is still registered, and the MTU and the cache are
    what they were. *)
Theorem disconnect_always_cleans_up (s : ESPHomeClient) (env : disconnect_env) :
  let s' := (disconnect env s).1 in
  _cancel_connection_state s' = None
  ∧ _notify_cancels s' = ∅
  ∧ _disconnected_futures s' = ∅
  ∧ services s' = Some empty_collection
  ∧ (∃ t, requests s' = requests s ++ bluetooth_device_disconnect (_address_as_int s) :: t
          ∧ (t = [] ∨ t = [wait_for_ble_connections_free DISCONNECT_TIMEOUT]))
  ∧ (teardown_quiet env →
     _is_connected s' = false
     ∧ callback_calls s' = callback_calls s
     ∧ _disconnected_callback s' = _disconnected_callback s
     ∧ _mtu s' = _mtu s
     ∧ _cache s' = _cache s).
Proof.
  cbv zeta. destruct (disconnect_clean env s) as (H1 & H2 & H3 & H4).
  split; [apply H1, cleanup_cancel_connection_state|].
  split; [apply H2, cleanup_notify_cancels|].
  split; [apply H3, cleanup_disconnected_futures|].
  split; [apply H4, cleanup_services|].
  split; [apply disconnect_requests|].
  intros [Q1 Q2].
  pose proof stays_silent_stable as HD.
  assert (Hemit : ∀ c x, stays_silent x (emit (Await c) x)).
  { intros c x Hc. by rewrite callback_calls_emit_await. }
  assert (Hevents : ∀ evs x, no_connected_signal evs = true →
                             stays_silent x (run_events evs x)).
  { intros evs x Hq. by apply (drop_run_events stays_silent HD). }
  destruct (teardown_disconnect stays_silent (λ evs, no_connected_signal evs = true)
              (drop_refl _ HD) (drop_trans _ HD) Hemit Hevents
              (drop_device_disconnected _ HD) env s Q1 Q2 (cleanup_is_connected s))
    as (A1 & A2 & A3 & A4 & A5).
  rewrite A2, A3, A4, A5, callback_calls_cleanup. by rewrite cleanup_eq.
Qed.

(** X19. The finalizer warns about a client that still holds its
    subscription to the connection state, and about no other; unless the
    loop is closed it hands the cleanup to the loop, and the cleanup calls
    the unsubscribe function and drops it.  A client that went through
    [disconnect], however that ended, holds no subscription, so its
    finalizer logs nothing. *)
Theorem finalizer_warns_when_subscribed (s : ESPHomeClient) (env : disconnect_env)
  (loop_is_closed : bool) :
  (__del__ loop_is_closed (disconnect env s).1).1 = (disconnect env s).1
  ∧ (_cancel_connection_state s = None → (__del__ loop_is_closed s).1 = s)
  ∧ (__del__ true s).2 = None
  ∧ (∀ cancel, _cancel_connection_state s = Some cancel →
       let warning :=
         Warning (_source_name s +:+ ": " +:+ name (_ble_device s) +:+ " - "
                  +:+ address (_ble_device s)
                  +:+ ": ESPHomeClient bleak client was not properly"
                  +:+ " disconnected before destruction") in
       (__del__ loop_is_closed s).1 = emit warning s
       ∧ ∃ cleanup, (__del__ false s).2 = Some cleanup
           ∧ trace (cleanup (__del__ false s).1)
             = trace s ++ [warning]
               ++ ((λ kv, NotifyAbort kv.2) <$> map_to_list (_notify_cancels s))
               ++ [Unsubscribe cancel]
           ∧ _cancel_connection_state (cleanup (__del__ false s).1) = None).
Proof.
  split; [|split; [|split; [done|]]].
  - unfold __del__. by rewrite disconnect_cancel_connection_state.
  - intros H. unfold __del__. by rewrite H.
  - intros cancel H. cbv zeta. unfold __del__. rewrite H. cbn [fst snd].
    split; [done|]. exists _async_disconnected_cleanup. split; [done|].
    rewrite cleanup_eq. cbn [trace _cancel_connection_state emit set_trace _notify_cancels].
    rewrite H. split; [|done]. by rewrite <- !app_assoc.
Qed.

(** ** The discovery that ends a connect *)





(** ** The wait for a connection slot *)

Lemma wait_for_free_connection_slot_free timeout w s :
  ble_connections_free s ≠ 0 → _wait_for_free_connection_slot timeout w s = (s, Return tt).
Proof.
  intros Hf. unfold _wait_for_free_connection_slot, bind, gets.
  apply Z.eqb_neq in Hf. by rewrite Hf.
Qed.

Lemma wait_for_free_connection_slot_busy timeout w s :
  ble_connections_free s = 0 →
  _wait_for_free_connection_slot timeout w s
  = await (wait_for_ble_connections_free timeout) w s.
Proof.
  intros Hf. unfold _wait_for_free_connection_slot, bind, gets. by rewrite Hf.
Qed.

(** X21. The wait for a free connection slot costs nothing when the proxy
    has one: it returns at once and leaves the client as it is.  When the
    proxy has none, [connect] waits for one before anything else, and when
    the wait ends with an error, a timeout for one, the connect ends with
    that error: the wait is the one thing awaited, the MTU has not been
    reloaded, and neither a future nor a connect request has been made. *)
Theorem connect_waits_for_a_slot (s : ESPHomeClient) (dangerous : bool)
  (timeout : option Z) (env : connect_env) (seconds : Z) (w : reply unit) :
  (ble_connections_free s ≠ 0 →
     _wait_for_free_connection_slot seconds w s = (s, Return tt))
  ∧ (ble_connections_free s = 0 →
     ∀ e, result (connect_slot env) = Raise e → is_api_error e = false →
       connect dangerous timeout env s
       = (run_events (during (connect_slot env))
            (emit (Await (wait_for_ble_connections_free CONNECT_FREE_SLOT_TIMEOUT)) s),
          Raise e)
       ∧ requests (connect dangerous timeout env s).1
         = requests s ++ [wait_for_ble_connections_free CONNECT_FREE_SLOT_TIMEOUT]).
Proof.
  split; [apply wait_for_free_connection_slot_free|].
  intros Hf e He Hapi.
  assert (H : connect dangerous timeout env s
              = (run_events (during (connect_slot env))
                   (emit (Await (wait_for_ble_connections_free CONNECT_FREE_SLOT_TIMEOUT)) s),
                 Raise e)).
  { unfold connect. apply api_error_pass; [|exact Hapi].
    apply bind_raise_eq. unfold establish_connection. apply bind_raise_eq.
    rewrite (wait_for_free_connection_slot_busy _ _ _ Hf). unfold await. by rewrite He. }
  split; [exact H|]. rewrite H. cbn [fst].
  by rewrite requests_run_events, requests_emit.
Qed.

(** ** The connect request *)

Lemma open_connection_eq dangerous timeout env s :
  open_connection dangerous timeout env s
  = let f := waiter_of s in
    let s3 := set_futures (<[f := Pending]> (futures s)) s in
    let s4 := run_events (during (connect_reply env f))
                (emit (Await (connect_request dangerous timeout s)) s3) in
    match result (connect_reply env f) with
    | Return cancel =>
        match await_future f (connect_state env f)
                (set_cancel_connection_state (Some cancel) s4) with
        | (s5, Return _) => (s5, Return f)
        | (s5, Raise e) => (s5, Raise e)
        end
    | Raise ex =>
        match drain f s4 with
        | (s5, Return _) =>
            (if is_Exception ex
             then cancel_future f ("Unhandled exception in connect call: " +:+ exn_str ex) s5
             else s5,
             Raise ex)
        | (s5, Raise e) => (s5, Raise e)
        end
    end.
Proof.
  unfold open_connection.
  unfold bind at 1. unfold gets at 1. unfold bind at 1.
  rewrite (surjective_pairing (create_future s)), create_future_fresh.
  change (create_future s).1 with (set_futures (<[waiter_of s := Pending]> (futures s)) s).
  change (fresh (dom (futures s) ∪ _disconnected_futures s)) with (waiter_of s).
  unfold bind at 1. unfold gets at 1. unfold bind at 1. unfold gets at 1.
  cbv zeta. unfold connect_request.
  set (request := bluetooth_device_connect _ _ _ _ _).
  unfold bind at 1. unfold try_except. unfold bind at 1. unfold await at 1.
  cbn [fst snd].
  destruct (result (connect_reply env (waiter_of s))) as [cancel|ex].
  - unfold modify at 1. unfold bind.
    by destruct (await_future _ _ _) as [s5 [v|e]].
  - destruct ex; unfold bind;
      destruct (drain (waiter_of s) _) as [s5 [[]|e]]; done.
Qed.

Lemma requests_await_future f evs s : requests (await_future f evs s).1 = requests s.
Proof.
  unfold await_future. cbn [fst].
  destruct (done (futures s) f); [done|apply requests_run_events].
Qed.

Lemma await_future_done f evs s :
  done (futures s) f = true → (await_future f evs s).1 = s.
Proof. intros H. unfold await_future. by rewrite H. Qed.

Lemma drain_state f s : (drain f s).1 = s.
Proof.
  unfold drain, bind, gets.
  destruct (done (futures s) f) eqn:Hd; [|done].
  unfold suppress, try_except, bind.
  pose proof (await_future_done f [] s Hd) as H.
  destruct (await_future f [] s) as [s1 [v|e]]; cbn [fst] in H; subst s1; [done|].
  by destruct (is_BleakError e).
Qed.

Lemma requests_cancel_future f msg s : requests (cancel_future f msg s) = requests s.
Proof. unfold cancel_future. by destruct (done _ _). Qed.

Lemma open_connection_requests dangerous timeout env s :
  requests (open_connection dangerous timeout env s).1
  = requests s ++ [connect_request dangerous timeout s].
Proof.
  rewrite open_connection_eq. cbv zeta.
  set (s4 := run_events _ _).
  assert (H4 : requests s4 = requests s ++ [connect_request dangerous timeout s]).
  { unfold s4. by rewrite requests_run_events, requests_emit. }
  destruct (result _) as [cancel|ex].
  - pose proof (requests_await_future (waiter_of s) (connect_state env (waiter_of s))
                  (set_cancel_connection_state (Some cancel) s4)) as Ha.
    destruct (await_future _ _ _) as [s5 [v|e]]; cbn [fst] in *; by rewrite Ha.
  - pose proof (drain_state (waiter_of s) s4) as Hd.
    destruct (drain _ _) as [s5 [[]|e]]; cbn [fst] in *; subst s5; [|done].
    destruct (is_Exception ex); [by rewrite requests_cancel_future|done].
Qed.

Section Connecting.

Variable R : relation ESPHomeClient.
Hypothesis Hrefl : ∀ s, R s s.
Hypothesis Htrans : ∀ s1 s2 s3, R s1 s2 → R s2 s3 → R s1 s3.
Hypothesis Hemit : ∀ c s, R s (emit (Await c) s).
Hypothesis Hevents : ∀ evs s, R s (run_events evs s).
Hypothesis Hfutures : ∀ v s, R s (set_futures v s).
Hypothesis Hsubscription : ∀ v s, R s (set_cancel_connection_state v s).

Lemma connecting_await_future f evs s : R s (await_future f evs s).1.
Proof.
  unfold await_future. cbn [fst]. destruct (done _ _); [apply Hrefl|apply Hevents].
Qed.

Lemma connecting_open_connection dangerous timeout env s :
  R s (open_connection dangerous timeout env s).1.
Proof.
  rewrite open_connection_eq. cbv zeta.
  set (s4 := run_events _ _).
  assert (H4 : R s s4).
  { unfold s4. eapply Htrans; [apply Hfutures|].
    eapply Htrans; [apply Hemit|apply Hevents]. }
  destruct (result _) as [cancel|ex].
  - pose proof (connecting_await_future (waiter_of s) (connect_state env (waiter_of s))
                  (set_cancel_connection_state (Some cancel) s4)) as Ha.
    assert (H5 : R s (await_future (waiter_of s) (connect_state env (waiter_of s))
                        (set_cancel_connection_state (Some cancel) s4)).1).
    { eapply Htrans; [exact H4|]. eapply Htrans; [apply Hsubscription|exact Ha]. }
    by destruct (await_future _ _ _) as [s5 [v|e]].
  - pose proof (drain_state (waiter_of s) s4) as Hd.
    destruct (drain _ _) as [s5 [[]|e]]; cbn [fst] in *; subst s5; [|done].
    destruct (is_Exception ex); [|done].
    eapply Htrans; [exact H4|]. unfold cancel_future.
    destruct (done _ _); [apply Hrefl|apply Hfutures].
Qed.

End Connecting.

Lemma same_topologies_trans s1 s2 s3 :
  same_topologies s1 s2 → same_topologies s2 s3 → same_topologies s1 s3.
Proof. unfold same_topologies. intros (? & ? & ?) (? & ? & ?). repeat split; congruence. Qed.

Lemma same_topologies_events evs s : same_topologies s (run_events evs s).
Proof.
  destruct (frame_run_events evs s) as ((_ & _ & Ha & _ & Hf & _) & _ & Hc & _).
  by repeat split.
Qed.

Lemma open_connection_topologies dangerous timeout env s :
  same_topologies s (open_connection dangerous timeout env s).1.
Proof.
  apply connecting_open_connection; try done.
  - apply same_topologies_trans.
  - apply same_topologies_events.
Qed.

Lemma establish_connection_free dangerous timeout env s :
  ble_connections_free s ≠ 0 →
  establish_connection dangerous timeout env s
  = open_connection dangerous timeout env (reload_mtu s).
Proof.
  intros Hf. unfold establish_connection.
  unfold bind at 1. rewrite (wait_for_free_connection_slot_free _ _ _ Hf).
  done.
Qed.

Lemma connect_eq dangerous timeout env s :
  connect dangerous timeout env s
  = api_error_as_bleak_error (λ s,
      match establish_connection dangerous timeout env s with
      | (s1, Return f) =>
          match discover_or_disconnect dangerous (connect_services env f)
                  (connect_disconnect env f) s1 with
          | (s2, Return _) => (s2, Return true)
          | (s2, Raise e) => (s2, Raise e)
          end
      | (s1, Raise e) => (s1, Raise e)
      end) s.
Proof.
  unfold connect. apply api_error_ext. unfold bind.
  destruct (establish_connection _ _ _ s) as [s1 [f|e]]; [|done].
  by destruct (discover_or_disconnect _ _ _ s1) as [s2 [[]|e]].
Qed.

Lemma discover_or_disconnect_return dangerous r env s s1 topology :
  _get_services dangerous r s = (s1, Return topology) →
  discover_or_disconnect dangerous r env s = (s1, Return tt).
Proof.
  intros H. unfold discover_or_disconnect, try_except.
  by rewrite (bind_return_eq _ _ _ _ _ H).
Qed.

Lemma api_error_step (R : relation ESPHomeClient) (HR : stable R) {A} (func : M A) s :
  R (func s).1 (api_error_as_bleak_error func s).1.
Proof.
  destruct (func s) as [s1 [a|e]] eqn:H.
  - rewrite (api_error_as_bleak_error_return func s s1 a H). apply (stable_refl R HR).
  - rewrite (api_error_as_bleak_error_raise func s s1 e H).
    destruct e; try apply (stable_refl R HR). cbn [fst].
    destruct (error =? -1); [apply (stable_ble_device_disconnected R HR)|apply (stable_refl R HR)].
Qed.

(** X22. A connect that tells the proxy it has a cache lives on the cache.
    With the caller's consent, on a proxy with remote caching and with a
    topology and an MTU in the cache for the peer, the connect request
    carries the flag [has_cache], and it is the one request of the whole
    call, whatever the environment answers: the discovery that follows is
    served from the cache.  The client keeps the MTU of the cache, and a
    connect that returns has the topology of the cache. *)
Theorem connect_with_cache (s : ESPHomeClient) (timeout : option Z) (env : connect_env)
  (topology : BleakGATTServiceCollection) (mtu : Z) :
  ble_connections_free s ≠ 0 →
  has_feature (_feature_flags s) BluetoothProxyFeature.REMOTE_CACHING = true →
  get_gatt_services_cache (_address_as_int s) (_cache s) = Some topology →
  get_gatt_mtu_cache (_address_as_int s) (_cache s) = Some mtu →
  mtu ≠ 0 →
  let s' := (connect true timeout env s).1 in
  requests s'
  = requests s ++ [bluetooth_device_connect (_address_as_int s) (default (_timeout s) timeout)
                     true (_feature_flags s) (_address_type s)]
  ∧ _mtu s' = Some mtu
  ∧ (∀ b, (connect true timeout env s).2 = Return b →
       b = true ∧ services s' = Some topology).
Proof.
  intros Hfree Hcaching Htopology Hmtu Hne. cbv zeta.
  assert (Hfalsy : mtu_falsy (_mtu (reload_mtu s)) = false).
  { unfold reload_mtu. simpl. rewrite Hmtu. simpl. by apply Z.eqb_neq. }
  assert (Hrequest : connect_request true timeout (reload_mtu s)
                     = bluetooth_device_connect (_address_as_int s) (default (_timeout s) timeout)
                         true (_feature_flags s) (_address_type s)).
  { unfold connect_request. rewrite Hfalsy.
    change (_feature_flags (reload_mtu s)) with (_feature_flags s).
    change (_address_as_int (reload_mtu s)) with (_address_as_int s).
    change (_cache (reload_mtu s)) with (_cache s).
    by rewrite Hcaching, Htopology, bool_decide_eq_true_2. }
  rewrite connect_eq.
  pose proof (requests_api_error
                (λ s, match establish_connection true timeout env s with
                      | (s1, Return f) =>
                          match discover_or_disconnect true (connect_services env f)
                                  (connect_disconnect env f) s1 with
                          | (s2, Return _) => (s2, Return true)
                          | (s2, Raise e) => (s2, Raise e)
                          end
                      | (s1, Raise e) => (s1, Raise e)
                      end) s) as Hreq.
  match type of Hreq with context [api_error_as_bleak_error ?f s] =>
    pose proof (api_error_as_bleak_error_return_inv f s) as Hinv;
    pose proof (api_error_step keeps_mtu keeps_mtu_stable f s) as Hkeep;
    set (body := f) in * end.
  assert (Hbody : requests (body s).1
                  = requests s ++ [bluetooth_device_connect (_address_as_int s)
                                     (default (_timeout s) timeout) true (_feature_flags s)
                                     (_address_type s)]
                  ∧ _mtu (body s).1 = Some mtu
                  ∧ (∀ s2 b, body s = (s2, Return b) → b = true ∧ services s2 = Some topology)).
  { unfold body. rewrite (establish_connection_free _ _ _ _ Hfree).
    pose proof (open_connection_requests true timeout env (reload_mtu s)) as Ho.
    rewrite Hrequest in Ho. change (requests (reload_mtu s)) with (requests s) in Ho.
    pose proof (open_connection_topologies true timeout env (reload_mtu s)) as (Ta & Tf & Tc).
    pose proof (respects_open_connection keeps_mtu keeps_mtu_stable true timeout env
                  (reload_mtu s) Hfalsy) as Hm.
    destruct (open_connection true timeout env (reload_mtu s)) as [s1 [f|e]];
      cbn [fst] in *.
    - assert (Hhit : get_gatt_services_cache (_address_as_int s1) (_cache s1) = Some topology).
      { unfold get_gatt_services_cache in *. by rewrite Ta, Tc. }
      assert (Hu : has_feature (_feature_flags s1) BluetoothProxyFeature.REMOTE_CACHING
                   || true = true) by by rewrite orb_true_r.
      pose proof (get_services_hit true (connect_services env f) s1 topology Hu Hhit) as Hg.
      rewrite (discover_or_disconnect_return _ _ _ _ _ _ Hg). cbn [fst].
      split; [exact Ho|]. split.
      + change (_mtu (discard_disconnected_future ?w (set_services ?v (registered s1))))
          with (_mtu s1). rewrite Hm. unfold reload_mtu. simpl. exact Hmtu.
      + intros s2 b [= <- <-]. done.
    - split; [exact Ho|]. split; [|done].
      rewrite Hm. unfold reload_mtu. simpl. exact Hmtu. }
  destruct Hbody as (B1 & B2 & B3).
  split; [by rewrite Hreq|]. split.
  - rewrite Hkeep; [exact B2|].
    rewrite B2. simpl. by apply Z.eqb_neq.
  - intros b Hb.
    destruct (api_error_as_bleak_error body s) as [s2 o] eqn:Hs2. cbn [fst snd] in *. subst o.
    by apply (B3 s2 b), Hinv.
Qed.

(** ** A connect request that fails *)

Lemma callback_futures s :
  futures (_async_call_bleak_disconnected_callback s) = futures s.
Proof. unfold _async_call_bleak_disconnected_callback. by destruct (_disconnected_callback s). Qed.

Lemma callback_cancel_connection_state s :
  _cancel_connection_state (_async_call_bleak_disconnected_callback s)
  = _cancel_connection_state s.
Proof. unfold _async_call_bleak_disconnected_callback. by destruct (_disconnected_callback s). Qed.

Lemma stays_retrievable_stable f : event_stable (stays_retrievable f).
Proof.
  assert (Htrans : ∀ s1 s2 s3, stays_retrievable f s1 s2 → stays_retrievable f s2 s3 →
                     stays_retrievable f s1 s3).
  { unfold stays_retrievable. auto. }
  assert (Hset : ∀ g v s, done (futures s) g = false →
            match v with Exception e => is_BleakError e = true | Cancelled _ => False | _ => True end →
            stays_retrievable f s (set_futures (<[g := v]> (futures s)) s)).
  { intros g v s Hg Hv. unfold stays_retrievable, retrievable. simpl.
    destruct (decide (f = g)) as [->|Hne].
    - rewrite lookup_insert_eq. intros _. by destruct v.
    - by rewrite lookup_insert_ne. }
  assert (Hdrop : drop_stable (stays_retrievable f)).
  { split.
    - intros; unfold stays_retrievable, retrievable; simpl; auto.
    - exact Htrans.
    - apply device_disconnected_from_cleanup; [exact Htrans|..].
      + intros s. unfold stays_retrievable, retrievable.
        rewrite cleanup_futures, resolve_all_lookup.
        destruct (decide (f ∈ _disconnected_futures s)); [|done].
        by destruct (done (futures s) f).
      + intros s. unfold stays_retrievable, retrievable. by rewrite callback_futures.
    - intros g msg s Hg. by apply Hset.
    - intros; unfold stays_retrievable, retrievable; simpl; auto.
    - intros; unfold stays_retrievable, retrievable; simpl; auto. }
  split.
  - exact Hdrop.
  - intros; unfold stays_retrievable, retrievable; simpl; auto.
  - intros; unfold stays_retrievable, retrievable; simpl; auto.
  - intros g s Hg. by apply Hset.
Qed.

Lemma settles_stable f : event_stable (settles f).
Proof.
  assert (Htrans : ∀ s1 s2 s3, settles f s1 s2 → settles f s2 s3 → settles f s1 s3).
  { unfold settles. intros s1 s2 s3 [? ?] [? ?]. auto. }
  assert (Hset : ∀ g v s, done (futures s) g = false → v ≠ Pending →
            settles f s (set_futures (<[g := v]> (futures s)) s)).
  { intros g v s Hg Hv. unfold settles. simpl. split; [|done].
    unfold done. destruct (decide (f = g)) as [->|Hne].
    - rewrite lookup_insert_eq. intros _. by destruct v.
    - by rewrite lookup_insert_ne. }
  assert (Hdrop : drop_stable (settles f)).
  { split.
    - intros; unfold settles; simpl; auto.
    - exact Htrans.
    - apply device_disconnected_from_cleanup; [exact Htrans|..].
      + intros s. split.
        * intros Hd. unfold done. rewrite cleanup_futures, resolve_all_keeps_done by done.
          exact Hd.
        * intros _. apply cleanup_cancel_connection_state.
      + intros s. split.
        * by rewrite callback_futures.
        * by rewrite callback_cancel_connection_state.
    - intros g msg s Hg. by apply Hset.
    - intros; unfold settles; simpl; auto.
    - intros; unfold settles; simpl; auto. }
  split.
  - exact Hdrop.
  - intros; unfold settles; simpl; auto.
  - intros; unfold settles; simpl; auto.
  - intros g s Hg. by apply Hset.
Qed.

Lemma drain_return f s : retrievable f s → drain f s = (s, Return tt).
Proof.
  unfold retrievable, drain, bind, gets, done.
  destruct (futures s !! f) as [[|v|e|msg]|] eqn:Hf; try done.
  - intros _. unfold suppress, try_except, bind, await_future, done.
    rewrite Hf. simpl. by rewrite Hf.
  - intros He. unfold suppress, try_except, bind, await_future, done.
    rewrite Hf. simpl. rewrite Hf. by destruct e.
Qed.

Lemma open_connection_raise dangerous timeout env s ex :
  result (connect_reply env (waiter_of s)) = Raise ex →
  open_connection dangerous timeout env s
  = (let s4 := run_events (during (connect_reply env (waiter_of s)))
                 (emit (Await (connect_request dangerous timeout s))
                    (set_futures (<[waiter_of s := Pending]> (futures s)) s)) in
     if is_Exception ex
     then cancel_future (waiter_of s) ("Unhandled exception in connect call: " +:+ exn_str ex) s4
     else s4,
     Raise ex).
Proof.
  intros Hr. rewrite open_connection_eq. cbv zeta. rewrite Hr.
  rewrite drain_return; [done|].
  apply (event_run_events _ (stays_retrievable_stable (waiter_of s))).
  unfold retrievable. simpl. by rewrite lookup_insert_eq.
Qed.

Lemma cancel_future_done f msg s : done (futures (cancel_future f msg s)) f = true.
Proof.
  unfold cancel_future. destruct (done (futures s) f) eqn:Hd; [done|].
  unfold done. simpl. by rewrite lookup_insert_eq.
Qed.

(** X23. A connect whose request fails stops there.  When the remote client
    answers the connect request with an exception, the request is the one
    request of the call: no discovery follows and no disconnect.  What the
    caller sees is that exception, as the error translator hands it on,
    also when a connection-state signal has put an error of its own into the
    future of the connect in the meantime.  The call makes no subscription
    to the connection state, and unless the exception is a cancellation the
    future of the connect is done when the call ends. *)
Theorem failed_connect_request (s : ESPHomeClient) (dangerous : bool) (timeout : option Z)
  (env : connect_env) (ex : exn) :
  ble_connections_free s ≠ 0 →
  result (connect_reply env (waiter_of s)) = Raise ex →
  let s' := (connect dangerous timeout env s).1 in
  requests s' = requests s ++ [connect_request dangerous timeout (reload_mtu s)]
  ∧ (connect dangerous timeout env s).2 = (api_error_as_bleak_error (raise ex) s).2
  ∧ (_cancel_connection_state s = None → _cancel_connection_state s' = None)
  ∧ (is_Exception ex = true → done (futures s') (waiter_of s) = true).
Proof.
  intros Hfree Hr. cbv zeta.
  set (f := waiter_of s).
  assert (Hopen : ∃ s5, establish_connection dangerous timeout env s = (s5, Raise ex)
                        ∧ requests s5
                          = requests s ++ [connect_request dangerous timeout (reload_mtu s)]
                        ∧ (_cancel_connection_state s = None → _cancel_connection_state s5 = None)
                        ∧ (is_Exception ex = true → done (futures s5) f = true)).
  { rewrite (establish_connection_free _ _ _ _ Hfree).
    pose proof (open_connection_requests dangerous timeout env (reload_mtu s)) as Hq.
    rewrite (open_connection_raise dangerous timeout env (reload_mtu s) ex Hr) in *.
    cbv zeta in *. cbn [fst] in Hq.
    change (waiter_of (reload_mtu s)) with f in *.
    set (s4 := run_events _ _) in *.
    eexists. split; [done|]. split; [exact Hq|].
    assert (H4 : _cancel_connection_state s = None → _cancel_connection_state s4 = None).
    { intros Hc. apply (event_run_events _ (settles_stable f)). exact Hc. }
    split.
    - intros Hc. destruct (is_Exception ex); [|by apply H4].
      unfold cancel_future. destruct (done _ _); [by apply H4|]. simpl. by apply H4.
    - intros ->. apply cancel_future_done. }
  destruct Hopen as (s5 & He & Hq & Hc & Hd).
  assert (Hbody : ∀ k : future → M bool,
            bind (establish_connection dangerous timeout env) k s = (s5, Raise ex)).
  { intros k. unfold bind. by rewrite He. }
  unfold connect.
  match goal with |- context [api_error_as_bleak_error ?m s] => set (body := m) end.
  assert (Hb : body s = (s5, Raise ex)) by apply Hbody.
  pose proof (requests_api_error body s) as Hreq.
  pose proof (api_error_as_bleak_error_raise body s s5 ex Hb) as Hraise.
  pose proof (api_error_as_bleak_error_raise (A:=bool) (raise ex) s s ex eq_refl) as Hraise'.
  pose proof (drop_ble_device_disconnected _ (event_drop _ (settles_stable f)) s5) as [Dd Dc].
  rewrite Hb in Hreq. cbn [fst] in Hreq.
  split; [by rewrite Hreq|]. split; [|split].
  - rewrite Hraise, Hraise'. by destruct ex.
  - intros Hn. rewrite Hraise. destruct ex; cbn [fst]; try by apply Hc.
    destruct (error =? -1); [apply Dc|]; by apply Hc.
  - intros Hx. rewrite Hraise. destruct ex; cbn [fst]; try by apply Hd.
    destruct (error =? -1); [apply Dd|]; by apply Hd.
Qed.

(** ** A connection that comes and goes *)

Lemma list_remove_app_new x l :
  x ∉ l → list_remove x (l ++ [x]) = Some l.
Proof.
  induction l as [|y l IH]; simpl; intros Hn.
  - by rewrite decide_True.
  - apply not_elem_of_cons in Hn as [Hne Hn].
    rewrite decide_False by done. by rewrite (IH Hn).
Qed.

Lemma list_remove_app_old x l :
  x ∈ l → ∃ l', list_remove x (l ++ [x]) = Some l' ∧ l' ≡ₚ l.
Proof.
  induction l as [|y l IH]; simpl; intros Hin.
  - by apply elem_of_nil in Hin.
  - destruct (decide (x = y)) as [->|Hne].
    + exists (l ++ [y]). split; [done|]. by rewrite Permutation_app_comm.
    + apply elem_of_cons in Hin as [?|Hin]; [done|].
      destruct (IH Hin) as (l' & -> & Hp). exists (y :: l'). split; [done|].
      by rewrite Hp.
Qed.

(** X24. A connection that comes and goes leaves the proxy as it was.  The
    signal that completes a pending connect without an error appends the
    callback of the client to the list of disconnect callbacks of the proxy,
    marks the client connected and gives the future the value True.  When
    the proxy then reports the loss of its connection, the callback takes
    itself off the list again: the list has the entries it had before (in
    their old order when the callback was not among them), the client is
    disconnected, the future keeps its value, and the disconnect callback
    of the consumer has been called once if there was one. *)
Theorem connection_comes_and_goes (s : ESPHomeClient) (f : future) (mtu : Z) :
  done (futures s) f = false →
  let self := async_esp_disconnected_of (_address_as_int s) in
  let s1 := handle_event (ConnectionState f true mtu 0) s in
  let s2 := handle_event EspDisconnected s1 in
  (_disconnect_callbacks s1 = _disconnect_callbacks s ++ [self]
   ∧ _is_connected s1 = true
   ∧ futures s1 !! f = Some (Result (VBool true)))
  ∧ (_disconnect_callbacks s2 ≡ₚ _disconnect_callbacks s
     ∧ (self ∉ _disconnect_callbacks s → _disconnect_callbacks s2 = _disconnect_callbacks s)
     ∧ _is_connected s2 = false
     ∧ futures s2 !! f = Some (Result (VBool true))
     ∧ callback_calls s2
       = (callback_calls s + match _disconnected_callback s with Some _ => 1 | None => 0 end)%nat
     ∧ _disconnected_callback s2 = None).
Proof.
  intros Hd. cbv zeta.
  set (self := async_esp_disconnected_of (_address_as_int s)).
  set (s0 := apply_connection_state true mtu s).
  assert (H0 : _disconnect_callbacks s0 = _disconnect_callbacks s
               ∧ futures s0 = futures s ∧ _address_as_int s0 = _address_as_int s
               ∧ _is_connected s0 = true ∧ trace s0 = trace s
               ∧ _disconnected_callback s0 = _disconnected_callback s).
  { unfold s0, apply_connection_state. by destruct (mtu_falsy _). }
  destruct H0 as (Hl0 & Hf0 & Ha0 & Hc0 & Ht0 & Hb0).
  set (s1 := handle_event (ConnectionState f true mtu 0) s).
  assert (H1 : s1 = set_result f (VBool true)
                      (set_disconnect_callbacks (_disconnect_callbacks s0 ++ [self]) s0)).
  { unfold s1, handle_event, _on_bluetooth_connection_state, complete_connected_future.
    cbv zeta. fold s0. rewrite Hf0, Hd. simpl. by rewrite Ha0. }
  assert (Hl1 : _disconnect_callbacks s1 = _disconnect_callbacks s ++ [self]).
  { rewrite H1. simpl. by rewrite Hl0. }
  assert (Hc1 : _is_connected s1 = true) by by rewrite H1.
  assert (Hf1 : futures s1 !! f = Some (Result (VBool true))).
  { rewrite H1. simpl. by rewrite lookup_insert_eq. }
  assert (Ha1 : _address_as_int s1 = _address_as_int s) by by rewrite H1.
  assert (Ht1 : callback_calls s1 = callback_calls s).
  { unfold callback_calls. rewrite H1. simpl. by rewrite Ht0. }
  assert (Hb1 : _disconnected_callback s1 = _disconnected_callback s) by by rewrite H1.
  split; [done|].
  assert (Hrem : ∃ l', list_remove self (_disconnect_callbacks s1) = Some l'
                       ∧ l' ≡ₚ _disconnect_callbacks s
                       ∧ (self ∉ _disconnect_callbacks s → l' = _disconnect_callbacks s)).
  { rewrite Hl1. destruct (decide (self ∈ _disconnect_callbacks s)) as [Hin|Hn].
    - destruct (list_remove_app_old self _ Hin) as (l' & Hl & Hp). by exists l'.
    - exists (_disconnect_callbacks s). by rewrite (list_remove_app_new _ _ Hn). }
  destruct Hrem as (l' & Hl & Hp & Hq).
  assert (H2 : handle_event EspDisconnected s1
               = _async_ble_device_disconnected (set_disconnect_callbacks l' s1)).
  { unfold handle_event, _async_esp_disconnected. rewrite Ha1. fold self. by rewrite Hl. }
  rewrite H2. rewrite ble_device_disconnected_eq.
  change (_is_connected (set_disconnect_callbacks l' s1)) with (_is_connected s1).
  rewrite Hc1.
  set (s3 := _async_disconnected_cleanup (set_disconnect_callbacks l' s1)).
  assert (H3 : _disconnect_callbacks s3 = l' ∧ _is_connected s3 = false
               ∧ futures s3 !! f = Some (Result (VBool true))
               ∧ callback_calls s3 = callback_calls s
               ∧ _disconnected_callback s3 = _disconnected_callback s).
  { unfold s3. split; [by rewrite cleanup_eq|]. split; [by rewrite cleanup_eq|].
    split; [|split].
    - rewrite cleanup_futures, resolve_all_keeps_done; [exact Hf1|].
      unfold done. simpl. by rewrite Hf1.
    - by rewrite callback_calls_cleanup.
    - by rewrite cleanup_eq. }
  destruct H3 as (Hl3 & Hc3 & Hf3 & Ht3 & Hb3).
  unfold _async_call_bleak_disconnected_callback. rewrite Hb3.
  destruct (_disconnected_callback s) as [cb|].
  - simpl. rewrite Hl3, Hc3, Hf3. repeat split; try done.
    unfold callback_calls in *. simpl. rewrite filter_app, length_app, Ht3. done.
  - rewrite Hl3, Hc3, Hf3, Ht3. repeat split; try done; lia.
Qed.

End Properties.

(** * The properties at work on the example client *)

Section Instances.

#[local] Existing Instance example_tables.








Lemma disconnect_ok_succeeds : disconnect_succeeds disconnect_ok.
Proof. split; reflexivity. Defined.

(** Witness of C3: two disconnects of the connected client. *)
Lemma disconnect_is_idempotent_witness :
  disconnect_succeeds disconnect_ok
  ∧ (disconnect disconnect_ok connected_client).2 = Return true
  ∧ (disconnect disconnect_ok (disconnect disconnect_ok connected_client).1).2 = Return true
  ∧ _async_disconnected_cleanup (disconnect disconnect_ok connected_client).1
    = (disconnect disconnect_ok connected_client).1.
Proof.
  destruct (disconnect_is_idempotent connected_client disconnect_ok disconnect_ok
              disconnect_ok_succeeds disconnect_ok_succeeds)
    as (H1 & H2 & _ & _ & _ & _ & _ & _ & _ & H10).
  split; [exact disconnect_ok_succeeds|]. split; [exact H1|]. split; [exact H2|].
  exact (H10 eq_refl eq_refl).
Defined.




(** Witness of C5: the remote client answers a read with the error -1. *)
Lemma api_error_translation_witness :
  let func := await (A := list Byte.byte)
                (bluetooth_gatt_read_descriptor 187723572702975 3 30) not_connected in
  func connected_client
  = ((func connected_client).1, Raise (BluetoothGATTAPIError (-1) "Not connected"))
  ∧ (api_error_as_bleak_error func connected_client).2 = Raise (BleakError "Not connected")
  ∧ _is_connected (api_error_as_bleak_error func connected_client).1 = false.
Proof.
  intros func.
  assert (H : func connected_client
              = ((func connected_client).1,
                 Raise (BluetoothGATTAPIError (-1) "Not connected"))) by reflexivity.
  destruct (api_error_translation func connected_client _ _ H) as [_ H2].
  destruct (H2 "Not connected" eq_refl) as (Ha & _ & Hb & _).
  split; [exact H|]. split; [exact Ha|exact Hb].
Defined.

(** Witness of C6: a link drop on the new client, which never connected. *)
Lemma disconnected_callback_at_most_once_witness :
  _is_connected new_client = false
  ∧ _async_ble_device_disconnected new_client = _async_disconnected_cleanup new_client
  ∧ callback_calls (_async_ble_device_disconnected new_client) = callback_calls new_client
  ∧ (callback_calls
       (exec [Call (Connect false None (connects_with 185 one_service));
              Event (ConnectionState 1 false 0 0); Event (ConnectionState 1 false 0 0)]
          new_client)
     ≤ callback_calls new_client + 1)%nat.
Proof.
  destruct (disconnected_callback_at_most_once new_client
              [Call (Connect false None (connects_with 185 one_service));
               Event (ConnectionState 1 false 0 0); Event (ConnectionState 1 false 0 0)])
    as (H1 & _ & _ & H4).
  split; [reflexivity|]. split; [exact (proj1 (H1 eq_refl))|].
  split; [exact (proj2 (H1 eq_refl))|exact H4].
Defined.

(** Witness of C7: the future 1 is pending; a signal without error code, a
    signal with the unmapped code 99 and one with the mapped code 8; and
    connects that are answered with such signals. *)
Lemma connect_failure_messages_witness :
  done (futures connecting_client) 1 = false
  ∧ (1%positive ∉ _disconnected_futures connecting_client)
  ∧ (await_future 1 [] (_on_bluetooth_connection_state 1 false 0 0 connecting_client)).2
    = Raise (BleakError "Disconnected")
  ∧ (await_future 1 [] (_on_bluetooth_connection_state 1 false 0 99 connecting_client)).2
    = Raise (BleakError "Error 99 while connecting: Unknown error code 99")
  ∧ (await_future 1 [] (_on_bluetooth_connection_state 1 false 0 8 connecting_client)).2
    = Raise (BleakError "Error ESP_GATT_CONN_TIMEOUT while connecting: Connection timed out")
  ∧ (connect false None (fails_with 0) connecting_client).2
    = Raise (BleakError "Disconnected")
  ∧ (connect false None (fails_with 99) connecting_client).2
    = Raise (BleakError "Error 99 while connecting: Unknown error code 99").
Proof.
  assert (Hd : done (futures connecting_client) 1 = false) by reflexivity.
  assert (Hn : 1%positive ∉ _disconnected_futures connecting_client).
  { apply not_elem_of_empty. }
  destruct (connect_failure_messages connecting_client 1 false 0 0 [] false None
              (fails_with 0) UnsubscribeReturns Hd Hn) as (H0 & _ & C0).
  destruct (connect_failure_messages connecting_client 1 false 0 99 [] false None
              (fails_with 99) UnsubscribeReturns Hd Hn) as (_ & H99 & C99).
  destruct (connect_failure_messages connecting_client 1 false 0 8 [] false None
              (fails_with 8) UnsubscribeReturns Hd Hn) as (_ & H8 & _).
  assert (N99 : 99 ≠ 0) by discriminate.
  assert (N8 : 8 ≠ 0) by discriminate.
  split; [exact Hd|]. split; [exact Hn|].
  split; [by rewrite (proj2 (H0 eq_refl eq_refl))|].
  split; [by rewrite (proj1 (proj2 (H99 N99)))|].
  split; [by rewrite (proj1 (proj2 (H8 N8)))|].
  split.
  - exact (proj1 (C0 eq_refl (λ f, eq_refl)) (conj eq_refl eq_refl)).
  - exact (proj2 (C99 eq_refl (λ f, eq_refl)) N99).
Defined.

(** Witness of C8: the future of the connect of the connected client is
    done; a late signal that reports disconnected is the link-drop handling
    and leaves the future as it is. *)
Lemma late_connection_state_applies_signal_only_witness :
  done (futures connected_client) 1 = true
  ∧ _on_bluetooth_connection_state 1 false 0 0 connected_client
    = _async_ble_device_disconnected connected_client
  ∧ futures (_on_bluetooth_connection_state 1 false 0 0 connected_client) !! 1%positive
    = Some (Result (VBool true)).
Proof.
  assert (Hd : done (futures connected_client) 1 = true) by (vm_compute; reflexivity).
  destruct (late_connection_state_applies_signal_only connected_client 1 false 0 0 Hd)
    as (_ & H2 & H3 & _).
  split; [exact Hd|]. split; [exact H2|].
  rewrite H3. vm_compute. reflexivity.
Defined.

(** C8 as the specification words it, "no further action", does not hold
    for a signal that reports disconnected: the future of the connect is
    done, and the callback still turns the connected client into a
    disconnected one with an empty topology. *)
Lemma late_disconnect_signal_changes_client :
  let s' := _on_bluetooth_connection_state 1 false 0 0 connected_client in
  done (futures connected_client) 1 = true
  ∧ _is_connected connected_client = true
  ∧ _is_connected s' = false
  ∧ services s' = Some empty_collection
  ∧ services s' ≠ services connected_client
  ∧ s' ≠ connected_client.
Proof.
  cbv zeta.
  assert (H1 : _is_connected connected_client = true) by (vm_compute; reflexivity).
  assert (H2 : _is_connected (_on_bluetooth_connection_state 1 false 0 0 connected_client)
               = false) by (vm_compute; reflexivity).
  assert (H3 : services (_on_bluetooth_connection_state 1 false 0 0 connected_client)
               = Some empty_collection) by (vm_compute; reflexivity).
  split; [vm_compute; reflexivity|]. split; [exact H1|]. split; [exact H2|].
  split; [exact H3|]. split.
  - rewrite H3. vm_compute. discriminate.
  - intros He. rewrite He, H1 in H2. discriminate.
Qed.

(** Witness of C9: the discovery of the battery service with an MTU of 185,
    with an MTU of 247, and without an MTU. *)
Lemma discovery_max_write_without_response_witness :
  cache_miss false client_with_mtu_185
  ∧ (_get_services false one_service client_with_mtu_185).2
    = Return (build_services 182 [battery_service])
  ∧ (∀ c, c ∈ collection_characteristics (build_services 182 [battery_service]) →
          max_write_without_response_size c = 182)
  ∧ _mtu client_with_mtu_247 = Some 247
  ∧ (_get_services false one_service client_with_mtu_247).2
    = Return (build_services 244 [battery_service])
  ∧ (∀ c, c ∈ collection_characteristics (build_services 244 [battery_service]) →
          max_write_without_response_size c = 244)
  ∧ _mtu new_client = None
  ∧ (_get_services false one_service new_client).2
    = Return (build_services 20 [battery_service])
  ∧ (∀ c, c ∈ collection_characteristics (build_services 20 [battery_service]) →
          max_write_without_response_size c = 20).
Proof.
  assert (Hm : cache_miss false client_with_mtu_185) by (left; reflexivity).
  assert (H : _get_services false one_service client_with_mtu_185
              = ((_get_services false one_service client_with_mtu_185).1,
                 Return (build_services 182 [battery_service])))
    by (vm_compute; reflexivity).
  destruct (discovery_max_write_without_response false one_service client_with_mtu_185
              _ _ Hm H) as (_ & _ & _ & H4 & _).
  assert (Hm' : cache_miss false client_with_mtu_247) by (left; reflexivity).
  assert (H' : _get_services false one_service client_with_mtu_247
               = ((_get_services false one_service client_with_mtu_247).1,
                  Return (build_services 244 [battery_service])))
    by (vm_compute; reflexivity).
  destruct (discovery_max_write_without_response false one_service client_with_mtu_247
              _ _ Hm' H') as (_ & _ & _ & _ & H5 & _).
  assert (Hm0 : cache_miss false new_client) by (left; reflexivity).
  assert (H0 : _get_services false one_service new_client
               = ((_get_services false one_service new_client).1,
                  Return (build_services 20 [battery_service])))
    by (vm_compute; reflexivity).
  destruct (discovery_max_write_without_response false one_service new_client
              _ _ Hm0 H0) as (_ & _ & _ & _ & _ & H6).
  split; [exact Hm|]. split; [by rewrite H|].
  split; [apply H4; vm_compute; reflexivity|].
  split; [reflexivity|]. split; [by rewrite H'|].
  split.
  { exact (proj2 (H5 247 ltac:(discriminate) (or_introl eq_refl))). }
  split; [reflexivity|]. split; [by rewrite H0|].
  intros c Hc. apply (H6 ltac:(vm_compute; reflexivity) c Hc).
Defined.

(** Witness of C10: reads on the new client, which is not connected. *)
Lemma verify_connected_never_rejects_witness :
  _is_connected new_client = false
  ∧ (read_gatt_descriptor 3 (returns [Byte.x64]) new_client).2 = Return [Byte.x64]
  ∧ (read_gatt_char (ByHandle 3) (returns [Byte.x64])
       (_async_disconnected_cleanup new_client)).2
    = Raise (BleakError "Characteristic 3 was not found!").
Proof.
  destruct (verify_connected_never_rejects (ret tt) new_client 3 (returns [Byte.x64])
              eq_refl) as (_ & _ & _ & _ & H5 & H6).
  split; [reflexivity|]. split; [exact (proj1 (H5 _ eq_refl))|exact H6].
Defined.

(** Witness of X1: a read by handle on the new client. *)
Lemma characteristic_operations_need_services_witness :
  services new_client = None
  ∧ (read_gatt_char (ByHandle 2) (returns []) new_client).2
    = Raise (BleakError "Services have not been resolved")
  ∧ untouched new_client (read_gatt_char (ByHandle 2) (returns []) new_client).1.
Proof.
  destruct (characteristic_operations_need_services new_client (ByHandle 2) [] false
              (returns []) (returns tt) eq_refl) as (H1 & _ & _ & H4 & _).
  split; [reflexivity|]. split; [exact H1|exact H4].
Defined.

(** Witness of X2: a write by handle after the cleanup of the connected
    client. *)
Lemma lookups_fail_after_cleanup_witness :
  (∀ c, ByHandle 2 ≠ ByObject c)
  ∧ (write_gatt_char (ByHandle 2) [Byte.x01] true (returns tt)
       (_async_disconnected_cleanup connected_client)).2
    = Raise (BleakError "Characteristic 2 was not found!").
Proof.
  assert (H : ∀ c, ByHandle 2 ≠ ByObject c) by (intros c; discriminate).
  destruct (lookups_fail_after_cleanup connected_client (ByHandle 2) [Byte.x01] true
              (returns []) (returns tt) H) as (_ & H2 & _).
  split; [exact H|exact H2].
Defined.

(** Witness of X3: the disconnected client is handed the characteristic of
    the battery level, which its topology no longer has, and the read goes
    out for the handle 2. *)
Lemma characteristic_object_is_not_looked_up_witness :
  services (_async_disconnected_cleanup connected_client) = Some empty_collection
  ∧ requests (read_gatt_char (ByObject battery_level) (returns [Byte.x64])
                (_async_disconnected_cleanup connected_client)).1
    = requests (_async_disconnected_cleanup connected_client)
      ++ [bluetooth_gatt_read 187723572702975 2 30]
  ∧ (read_gatt_char (ByObject battery_level) (returns [Byte.x64])
       (_async_disconnected_cleanup connected_client)).2 = Return [Byte.x64].
Proof.
  assert (Hs : services (_async_disconnected_cleanup connected_client) ≠ None)
    by (rewrite cleanup_services; discriminate).
  destruct (characteristic_object_is_not_looked_up
              (_async_disconnected_cleanup connected_client) battery_level [] false
              (returns [Byte.x64]) (returns tt) Hs) as (_ & H2 & _ & H4 & _).
  split; [apply cleanup_services|]. split; [exact H2|exact (H4 _ eq_refl)].
Defined.

(** Witness of X4: a second start on the notifying client, and a start for
    a characteristic that can only be read. *)
Lemma start_notify_refuses_witness :
  is_Some (_notify_cancels notifying_client !! handle battery_level)
  ∧ (start_notify battery_level (returns 2%nat) (returns tt) notifying_client).2
    = Raise (BleakError
               ("Notifications are already enabled on service:"
                +:+ "0000180f-0000-1000-8000-00805f9b34fb characteristic:"
                +:+ "00002a19-0000-1000-8000-00805f9b34fb handle:2"))
  ∧ _notify_cancels connected_client !! handle model_number = None
  ∧ ("notify" ∉ properties model_number)
  ∧ ("indicate" ∉ properties model_number)
  ∧ (start_notify model_number (returns 2%nat) (returns tt) connected_client).2
    = Raise (BleakError
               ("Characteristic 00002a24-0000-1000-8000-00805f9b34fb"
                +:+ " does not have notify or indicate property set.")).
Proof.
  assert (Hon : is_Some (_notify_cancels notifying_client !! handle battery_level)).
  { exists 1%nat. vm_compute. reflexivity. }
  assert (Hoff : _notify_cancels connected_client !! handle model_number = None)
    by (vm_compute; reflexivity).
  assert (Hn : "notify" ∉ properties model_number).
  { intros H. apply list_elem_of_singleton in H. discriminate. }
  assert (Hi : "indicate" ∉ properties model_number).
  { intros H. apply list_elem_of_singleton in H. discriminate. }
  destruct (start_notify_refuses notifying_client battery_level (returns 2%nat) (returns tt))
    as [H1 _].
  destruct (start_notify_refuses connected_client model_number (returns 2%nat) (returns tt))
    as [_ H2].
  split; [exact Hon|]. split; [exact (proj1 (H1 Hon))|].
  split; [exact Hoff|]. split; [exact Hn|]. split; [exact Hi|].
  exact (proj1 (H2 Hoff Hn Hi)).
Defined.

Lemma battery_level_notifies :
  "notify" ∈ properties battery_level ∨ "indicate" ∈ properties battery_level.
Proof. left. apply list_elem_of_In. right. by left. Defined.

(** Witness of X5: the start for the battery level on the connected client,
    whose proxy has no remote caching; and the start for a characteristic
    without a client configuration descriptor behind a proxy with remote
    caching. *)
Lemma start_notify_registers_witness :
  _notify_cancels connected_client !! handle battery_level = None
  ∧ (start_notify battery_level (returns 1%nat) (returns tt) connected_client).2 = Return tt
  ∧ _notify_cancels notifying_client !! 2 = Some 1%nat
  ∧ requests notifying_client
    = requests connected_client ++ [bluetooth_gatt_start_notify 187723572702975 2]
  ∧ (start_notify service_changed (returns 1%nat) (returns tt) full_proxy_client).2
    = Raise (BleakError
               ("Characteristic 00002a05-0000-1000-8000-00805f9b34fb"
                +:+ " does not have a characteristic client config descriptor."))
  ∧ _notify_cancels
      (start_notify service_changed (returns 1%nat) (returns tt) full_proxy_client).1 !! 7
    = Some 1%nat.
Proof.
  assert (Hoff : _notify_cancels connected_client !! handle battery_level = None)
    by (vm_compute; reflexivity).
  destruct (start_notify_registers connected_client battery_level (returns 1%nat)
              (returns 2%nat) (returns tt) (returns tt) 1%nat Hoff battery_level_notifies
              eq_refl) as [H1 _].
  destruct (H1 eq_refl) as (Ha & Hb & Hc).
  assert (Hsup : "notify" ∈ properties service_changed
                 ∨ "indicate" ∈ properties service_changed).
  { right. apply list_elem_of_In. by left. }
  destruct (start_notify_registers full_proxy_client service_changed (returns 1%nat)
              (returns 2%nat) (returns tt) (returns tt) 1%nat eq_refl Hsup eq_refl)
    as [_ H2].
  destruct (H2 eq_refl eq_refl) as (Hd & _ & He & _).
  split; [exact Hoff|]. split; [exact Ha|]. split; [exact Hc|]. split; [exact Hb|].
  split; [exact Hd|exact He].
Defined.

(** Witness of X6: the start for the battery level behind a proxy with
    remote caching writes 01 00 to the descriptor with the handle 3. *)
Lemma start_notify_writes_cccd_witness :
  has_feature (_feature_flags full_proxy_client) BluetoothProxyFeature.REMOTE_CACHING = true
  ∧ get_descriptor battery_level CCCD_UUID = Some {| desc_uuid := CCCD_UUID; desc_handle := 3 |}
  ∧ requests (start_notify battery_level (returns 1%nat) (returns tt) full_proxy_client).1
    = [bluetooth_gatt_start_notify 187723572702975 2;
       bluetooth_gatt_write_descriptor 187723572702975 3 [Byte.x01; Byte.x00] false]
  ∧ (start_notify battery_level (returns 1%nat) (returns tt) full_proxy_client).2 = Return tt.
Proof.
  destruct (start_notify_writes_cccd full_proxy_client battery_level (returns 1%nat)
              (returns tt) 1%nat {| desc_uuid := CCCD_UUID; desc_handle := 3 |}
              eq_refl battery_level_notifies eq_refl eq_refl eq_refl)
    as (H1 & _ & _ & H4 & _).
  split; [reflexivity|]. split; [reflexivity|]. split; [exact H1|exact (H4 eq_refl)].
Defined.

(** Witness of X7: the stop on the notifying client, and a stop on the
    connected client, which has no notification on. *)
Lemma stop_notify_unregisters_witness :
  (_resolve_characteristic (ByObject battery_level) notifying_client).2 = Return battery_level
  ∧ _notify_cancels notifying_client !! 2 = Some 1%nat
  ∧ _notify_cancels
      (stop_notify (ByObject battery_level) (returns tt) notifying_client).1 !! 2 = None
  ∧ requests (stop_notify (ByObject battery_level) (returns tt) notifying_client).1
    = requests notifying_client ++ [notify_stop 1%nat]
  ∧ (stop_notify (ByObject battery_level) (returns tt) connected_client).2 = Return tt
  ∧ untouched connected_client
      (stop_notify (ByObject battery_level) (returns tt) connected_client).1.
Proof.
  assert (Hc : (_resolve_characteristic (ByObject battery_level) notifying_client).2
               = Return battery_level) by (vm_compute; reflexivity).
  assert (Hc' : (_resolve_characteristic (ByObject battery_level) connected_client).2
                = Return battery_level) by (vm_compute; reflexivity).
  assert (Hon : _notify_cancels notifying_client !! 2 = Some 1%nat)
    by (vm_compute; reflexivity).
  assert (Hoff : _notify_cancels connected_client !! 2 = None)
    by (vm_compute; reflexivity).
  destruct (stop_notify_unregisters notifying_client (ByObject battery_level) (returns tt)
              battery_level Hc) as (H1 & _ & _ & H4).
  destruct (stop_notify_unregisters connected_client (ByObject battery_level) (returns tt)
              battery_level Hc') as (_ & _ & H3 & _).
  split; [exact Hc|]. split; [exact Hon|]. split; [exact H1|].
  split; [exact (proj1 (H4 1%nat Hon))|]. exact (H3 Hoff).
Defined.

(** Witness of X8: the notifications of the battery level, started and
    stopped on the connected client. *)
Lemma start_then_stop_notify_witness :
  services connected_client ≠ None
  ∧ _notify_cancels connected_client !! handle battery_level = None
  ∧ same_attributes connected_client
      (stop_notify (ByObject battery_level) (returns tt) notifying_client).1
  ∧ requests (stop_notify (ByObject battery_level) (returns tt) notifying_client).1
    = requests connected_client
      ++ [bluetooth_gatt_start_notify 187723572702975 2; notify_stop 1%nat].
Proof.
  assert (Hs : services connected_client ≠ None).
  { intros H. vm_compute in H. discriminate. }
  assert (Hoff : _notify_cancels connected_client !! handle battery_level = None)
    by (vm_compute; reflexivity).
  destruct (start_then_stop_notify connected_client battery_level (returns tt) 1%nat
              Hs Hoff battery_level_notifies eq_refl) as (_ & _ & H3 & _ & _ & H6).
  split; [exact Hs|]. split; [exact Hoff|]. split; [exact H6|exact H3].
Defined.

(** Witness of X9: the new client, whose proxy has no pairing, and the
    client behind the proxy that has. *)
Lemma pairing_needs_the_feature_witness :
  has_feature (_feature_flags new_client) BluetoothProxyFeature.PAIRING = false
  ∧ (pair (returns true) new_client).2
    = Raise (NotImplementedError
               ("Pairing is not available in this version ESPHome; "
                +:+ "Upgrade the ESPHome version on the proxy device."))
  ∧ untouched new_client (pair (returns true) new_client).1
  ∧ has_feature (_feature_flags full_proxy_client) BluetoothProxyFeature.PAIRING = true
  ∧ requests (pair (returns false) full_proxy_client).1
    = [bluetooth_device_pair 187723572702975]
  ∧ (pair (returns false) full_proxy_client).2 = Return false.
Proof.
  destruct (pairing_needs_the_feature new_client (returns true)) as [H1 _].
  destruct (H1 eq_refl) as (Ha & _ & Hb & _).
  destruct (pairing_needs_the_feature full_proxy_client (returns false)) as [_ H2].
  destruct (H2 eq_refl) as (Hc & _ & Hd).
  split; [reflexivity|]. split; [exact Ha|]. split; [exact Hb|].
  split; [reflexivity|]. split; [exact Hc|exact (proj1 (Hd false eq_refl))].
Defined.

(** Witness of X10: the connected client, whose cache holds the topology and
    the MTU of the peer, clears its cache. *)
Lemma clear_cache_clears_memory_witness :
  get_gatt_mtu_cache 187723572702975 (_cache connected_client) = Some 185
  ∧ no_connected_signal (during (returns true)) = true
  ∧ get_gatt_services_cache 187723572702975
      (_cache (clear_cache (returns true) connected_client).1) = None
  ∧ get_gatt_mtu_cache 187723572702975
      (_cache (clear_cache (returns true) connected_client).1) = None.
Proof.
  destruct (clear_cache_clears_memory connected_client (returns true))
    as (_ & H2 & H3 & _).
  split; [vm_compute; reflexivity|]. split; [reflexivity|].
  split; [exact H2|exact (H3 eq_refl)].
Defined.

(** Witness of X11: the connected client, whose proxy cannot clear its
    cache, keeps its MTU of 185. *)
Lemma clear_cache_without_device_support_witness :
  has_feature (_feature_flags connected_client) BluetoothProxyFeature.CACHE_CLEARING = false
  ∧ (clear_cache (returns true) connected_client).2 = Return true
  ∧ requests (clear_cache (returns true) connected_client).1 = requests connected_client
  ∧ _mtu (clear_cache (returns true) connected_client).1 = Some 185
  ∧ requests (clear_cache (returns false) full_proxy_client).1
    = [bluetooth_device_clear_cache 187723572702975]
  ∧ (clear_cache (returns false) full_proxy_client).2 = Return false.
Proof.
  assert (Hf : has_feature (_feature_flags connected_client)
                 BluetoothProxyFeature.CACHE_CLEARING = false) by (vm_compute; reflexivity).
  destruct (clear_cache_without_device_support connected_client (returns true)) as [H1 _].
  destruct (H1 Hf) as (Ha & _ & Hb & Hc & _).
  destruct (clear_cache_without_device_support full_proxy_client (returns false)) as [_ H2].
  destruct (H2 eq_refl) as (Hd & He).
  split; [exact Hf|]. split; [exact Ha|]. split; [exact Hb|].
  split; [rewrite Hc; vm_compute; reflexivity|]. split; [exact Hd|exact (He false eq_refl)].
Defined.

(** The topology of the example peer, with the write size of the default
    MTU. *)
Lemma new_client_discovery :
  _get_services false one_service new_client
  = ((_get_services false one_service new_client).1, Return (build_services 20 [battery_service])).
Proof. vm_compute. reflexivity. Defined.

(** Witness of X13: the new client discovers the services of the peer, and
    a second discovery that may use the cache returns them again. *)
Lemma discovery_is_cached_witness :
  let s' := (_get_services false one_service new_client).1 in
  _get_services false one_service new_client
  = (s', Return (build_services 20 [battery_service]))
  ∧ (get_services true no_service s').2 = Return (build_services 20 [battery_service])
  ∧ requests (get_services true no_service s').1 = requests s'.
Proof.
  intros s'.
  destruct (discovery_is_cached new_client s' false true one_service no_service
              (build_services 20 [battery_service]) new_client_discovery)
    as (_ & _ & H3).
  destruct (H3 eq_refl) as (Ha & Hb & _).
  split; [exact new_client_discovery|]. split; [exact Ha|exact Hb].
Defined.

Lemma example_address_colon_separated : colon_separated "AA:BB:CC:DD:EE:FF".
Proof.
  unfold colon_separated. simpl.
  repeat (constructor; [first [by left | right; eexists; reflexivity]|]).
  constructor.
Defined.

Lemma example_address_lower_colon_separated : colon_separated "aabb:ccddeeff".
Proof.
  unfold colon_separated. simpl.
  repeat (constructor; [first [by left | right; eexists; reflexivity]|]).
  constructor.
Defined.

(** Witness of X14: the address of the example peer. *)
Lemma mac_to_int_value_witness :
  colon_separated "AA:BB:CC:DD:EE:FF"
  ∧ mac_to_int "AA:BB:CC:DD:EE:FF" = Some 187723572702975
  ∧ 187723572702975 < 2 ^ 48
  ∧ colon_separated ":::"
  ∧ mac_to_int ":::" = None.
Proof.
  destruct (mac_to_int_value "AA:BB:CC:DD:EE:FF" example_address_colon_separated)
    as [_ H1].
  assert (Hne : hex_digits "AA:BB:CC:DD:EE:FF" ≠ []) by discriminate.
  destruct (H1 Hne) as (Ha & _ & Hb).
  assert (Hc : colon_separated ":::").
  { unfold colon_separated. simpl. repeat (constructor; [by left|]). constructor. }
  destruct (mac_to_int_value ":::" Hc) as [H2 _].
  split; [exact example_address_colon_separated|]. split; [exact Ha|].
  split; [exact (Hb eq_refl)|]. split; [exact Hc|exact (H2 eq_refl)].
Defined.

(** Witness of X15: the address of the example
    peer in upper case, and in lower case with the colons elsewhere. *)
Lemma mac_to_int_injective_witness :
  mac_to_int "AA:BB:CC:DD:EE:FF" = mac_to_int "aabb:ccddeeff"
  ∧ hex_digits "AA:BB:CC:DD:EE:FF" = hex_digits "aabb:ccddeeff".
Proof.
  split; [reflexivity|].
  exact (mac_to_int_injective "AA:BB:CC:DD:EE:FF" "aabb:ccddeeff"
           example_address_colon_separated example_address_lower_colon_separated
           eq_refl eq_refl).
Defined.

(** Witness of X16: the read of a descriptor that the remote client answers
    with the GATT error -1 ends with a BleakError. *)
Lemma no_api_error_escapes_witness :
  call_raises (ReadGattDescriptor 3 not_connected) connected_client
  = Some (BleakError "Not connected")
  ∧ is_api_error (BleakError "Not connected") = false.
Proof.
  assert (H : call_raises (ReadGattDescriptor 3 not_connected) connected_client
              = Some (BleakError "Not connected")) by (vm_compute; reflexivity).
  split; [exact H|].
  exact (no_api_error_escapes (ReadGattDescriptor 3 not_connected) connected_client _ H).
Defined.

(** Witness of X17: the proxy goes away under the new client, which never
    registered its callback, and under the connected client, which did. *)
Lemma esp_disconnect_deregisters_once_witness :
  (async_esp_disconnected_of 187723572702975 ∉ _disconnect_callbacks new_client)
  ∧ handle_event EspDisconnected new_client = new_client
  ∧ async_esp_disconnected_of 187723572702975 ∈ _disconnect_callbacks connected_client
  ∧ _is_connected connected_client = true
  ∧ _is_connected (_async_esp_disconnected connected_client).1 = false
  ∧ _notify_cancels (_async_esp_disconnected connected_client).1 = ∅.
Proof.
  assert (Hn : async_esp_disconnected_of 187723572702975 ∉ _disconnect_callbacks new_client)
    by apply not_elem_of_nil.
  assert (Hi : async_esp_disconnected_of 187723572702975
               ∈ _disconnect_callbacks connected_client).
  { replace (_disconnect_callbacks connected_client)
      with [async_esp_disconnected_of 187723572702975] by (vm_compute; reflexivity).
    by apply list_elem_of_singleton. }
  destruct (esp_disconnect_deregisters_once new_client) as [H1 _].
  destruct (esp_disconnect_deregisters_once connected_client) as [_ H2].
  destruct (H2 Hi) as (before & after & _ & _ & _ & _ & Hc & _ & Hr).
  split; [exact Hn|]. split; [exact (proj2 (H1 Hn))|]. split; [exact Hi|].
  split; [vm_compute; reflexivity|]. split; [exact Hc|exact Hr].
Defined.

(** Witness of X18: the disconnect of the connected client. *)
Lemma disconnect_always_cleans_up_witness :
  teardown_quiet disconnect_ok
  ∧ _is_connected connected_client = true
  ∧ _disconnected_callback connected_client = Some 0%nat
  ∧ _is_connected (disconnect disconnect_ok connected_client).1 = false
  ∧ callback_calls (disconnect disconnect_ok connected_client).1 = callback_calls connected_client
  ∧ _disconnected_callback (disconnect disconnect_ok connected_client).1 = Some 0%nat
  ∧ _cancel_connection_state (disconnect disconnect_ok connected_client).1 = None.
Proof.
  assert (Hq : teardown_quiet disconnect_ok) by (split; reflexivity).
  destruct (disconnect_always_cleans_up connected_client disconnect_ok)
    as (H1 & _ & _ & _ & _ & H6).
  destruct (H6 Hq) as (Ha & Hb & Hc & _).
  split; [exact Hq|]. split; [vm_compute; reflexivity|].
  split; [vm_compute; reflexivity|]. split; [exact Ha|]. split; [exact Hb|].
  split; [rewrite Hc; vm_compute; reflexivity|exact H1].
Defined.

(** Witness of X19: the finalizer of the connected client, which still
    holds its subscription, and of the new client, which holds none. *)
Lemma finalizer_warns_when_subscribed_witness :
  _cancel_connection_state connected_client = Some UnsubscribeReturns
  ∧ (__del__ false connected_client).1
    = emit (Warning ("proxy [11:22:33:44:55:66]: Thermometer - AA:BB:CC:DD:EE:FF: "
                     +:+ "ESPHomeClient bleak client was not properly"
                     +:+ " disconnected before destruction")) connected_client
  ∧ _cancel_connection_state new_client = None
  ∧ (__del__ false new_client).1 = new_client
  ∧ (__del__ false (disconnect disconnect_ok connected_client).1).1
    = (disconnect disconnect_ok connected_client).1.
Proof.
  assert (Hs : _cancel_connection_state connected_client = Some UnsubscribeReturns)
    by (vm_compute; reflexivity).
  destruct (finalizer_warns_when_subscribed connected_client disconnect_ok false)
    as (H1 & _ & _ & H4).
  destruct (finalizer_warns_when_subscribed new_client disconnect_ok false)
    as (_ & H2 & _).
  split; [exact Hs|]. split; [exact (proj1 (H4 _ Hs))|]. split; [reflexivity|].
  split; [exact (H2 eq_refl)|exact H1].
Defined.


(** Witness of X21: the connect of the client whose proxy is full, when no
    slot gets free in time. *)
Lemma connect_waits_for_a_slot_witness :
  ble_connections_free crowded_client = 0
  ∧ (connect false None no_slot crowded_client).2 = Raise (TimeoutError "")
  ∧ requests (connect false None no_slot crowded_client).1
    = [wait_for_ble_connections_free CONNECT_FREE_SLOT_TIMEOUT].
Proof.
  destruct (connect_waits_for_a_slot crowded_client false None no_slot 0 (returns tt))
    as [_ H].
  destruct (H eq_refl (TimeoutError "") eq_refl eq_refl) as [H1 H2].
  split; [reflexivity|]. split; [by rewrite H1|exact H2].
Defined.

(** Witness of X22: the cached client connects again with the cache in use;
    the peer reports an MTU of 247, and the discovery would find nothing. *)
Lemma connect_with_cache_witness :
  get_gatt_mtu_cache 187723572702975 (_cache cached_client) = Some 185
  ∧ requests (connect true None (connects_with 247 no_service) cached_client).1
    = requests cached_client ++ [bluetooth_device_connect 187723572702975 10 true 28 0]
  ∧ _mtu (connect true None (connects_with 247 no_service) cached_client).1 = Some 185
  ∧ (connect true None (connects_with 247 no_service) cached_client).2 = Return true
  ∧ services (connect true None (connects_with 247 no_service) cached_client).1
    = get_gatt_services_cache 187723572702975 (_cache cached_client).
Proof.
  assert (Hm : get_gatt_mtu_cache (_address_as_int cached_client) (_cache cached_client)
               = Some 185) by (vm_compute; reflexivity).
  assert (Ht : get_gatt_services_cache (_address_as_int cached_client) (_cache cached_client)
               = Some (build_services 182 [battery_service])) by (vm_compute; reflexivity).
  assert (Hr : (connect true None (connects_with 247 no_service) cached_client).2
               = Return true) by (vm_compute; reflexivity).
  destruct (connect_with_cache cached_client None (connects_with 247 no_service)
              (build_services 182 [battery_service]) 185)
    as (H1 & H2 & H3); [vm_compute; discriminate|vm_compute; reflexivity|exact Ht|exact Hm|lia|].
  split; [exact Hm|]. split; [exact H1|]. split; [exact H2|]. split; [exact Hr|].
  destruct (H3 true Hr) as [_ H4]. rewrite H4. symmetry. exact Ht.
Defined.

(** Witness of X23: the connect request of the new client times out. *)
Lemma failed_connect_request_witness :
  (connect false None request_times_out new_client).2
  = Raise (TimeoutError "Timeout waiting for connect response")
  ∧ requests (connect false None request_times_out new_client).1
    = [bluetooth_device_connect 187723572702975 10 false 0 0]
  ∧ _cancel_connection_state (connect false None request_times_out new_client).1 = None
  ∧ done (futures (connect false None request_times_out new_client).1) (waiter_of new_client)
    = true.
Proof.
  destruct (failed_connect_request new_client false None request_times_out
              (TimeoutAPIError "Timeout waiting for connect response"))
    as (H1 & H2 & H3 & H4); [vm_compute; discriminate|reflexivity|].
  split; [rewrite H2; reflexivity|]. split; [rewrite H1; reflexivity|].
  split; [exact (H3 eq_refl)|exact (H4 eq_refl)].
Defined.

(** Witness of X24: the peer of the connecting client connects, and the
    proxy goes away. *)
Lemma connection_comes_and_goes_witness :
  done (futures connecting_client) (waiter_of new_client) = false
  ∧ _disconnect_callbacks
      (handle_event (ConnectionState (waiter_of new_client) true 185 0) connecting_client)
    = [async_esp_disconnected_of 187723572702975]
  ∧ _disconnect_callbacks
      (handle_event EspDisconnected
         (handle_event (ConnectionState (waiter_of new_client) true 185 0) connecting_client))
    = []
  ∧ callback_calls
      (handle_event EspDisconnected
         (handle_event (ConnectionState (waiter_of new_client) true 185 0) connecting_client))
    = 1%nat.
Proof.
  assert (Hd : done (futures connecting_client) (waiter_of new_client) = false)
    by (vm_compute; reflexivity).
  destruct (connection_comes_and_goes connecting_client (waiter_of new_client) 185 Hd)
    as ((H1 & _) & _ & H2 & _ & _ & H3 & _).
  split; [exact Hd|]. split; [exact H1|].
  split; [exact (H2 ltac:(apply not_elem_of_nil))|exact H3].
Defined.

End Instances.
